(** * Workbook inspection scripts: a shallow embedding

    The repository holds three diagnostic scripts that open
    [Resources/predictions.xlsx] with openpyxl and print its structure:
    [check_worksheets.py], [examine_excel.py] and [examine_soccer.py].

    The development follows the scripts statement by statement.  Python
    values, exceptions and the few built-ins the scripts call ([str],
    [int], [str.split], indexing, [range], true division, the ['.1f']
    format) are modelled in module [Py]; the part of openpyxl the scripts
    touch (a worksheet as a dictionary of cells, [ws.cell], [ws.max_row],
    [ws.max_column], [wb[name]], [wb.active]) in module [Openpyxl]; each
    script in a module of its own.  [check_worksheets.py] lists the
    sheets with their extents and headers; it has no column mapping and
    no counts. *)

From Stdlib Require Import ZArith Ascii String List Bool Lia DecimalString.
From Stdlib Require Import Floats.SpecFloat.
From Stdlib Require DecimalPos DecimalFacts.
From stdpp Require Import base option list gmap strings sorting.

Local Open Scope string_scope.
Local Open Scope list_scope.
Local Open Scope Z_scope.

(** ** Python values and built-ins *)

Module Py.

(** The exceptions that the modelled statements can raise. *)
Inductive exn : Type :=
  | ValueError
  | IndexError
  | KeyError
  | ZeroDivisionError
  | FileNotFoundError
  | InvalidFileException
  | AttributeError.

(** Evaluation of an expression: a value, or a raised exception. *)
Inductive result (A : Type) : Type :=
  | Ok (a : A)
  | Raise (e : exn).
Arguments Ok {A} a.
Arguments Raise {A} e.

Definition rbind {A B} (r : result A) (k : A -> result B) : result B :=
  match r with
  | Ok a => k a
  | Raise e => Raise e
  end.

(** A cell value as openpyxl hands it to the script.  Text, integers and
    booleans are modelled as they are.  Every other Python object that a
    cell can hold (a float, a [datetime], a [time], ...) is represented by
    the two things the scripts observe of it: its truth value and the text
    [str()] gives.  A Python [str] is a sequence of code points; a
    character of a Rocq [string] stands for the code point of the same
    number, so that the model covers the code points below 256. *)
Inductive value : Type :=
  | VNone
  | VStr (s : string)
  | VInt (n : Z)
  | VBool (b : bool)
  | VObj (truth : bool) (text : string).

Definition is_none (v : value) : bool :=
  match v with VNone => true | _ => false end.

(** [bool(v)], the test of [if v:]. *)
Definition truthy (v : value) : bool :=
  match v with
  | VNone => false
  | VStr s => negb (String.eqb s "")
  | VInt n => negb (n =? 0)
  | VBool b => b
  | VObj t _ => t
  end.

(** [str(v)]. *)
Definition str (v : value) : string :=
  match v with
  | VNone => "None"
  | VStr s => s
  | VInt n => NilZero.string_of_int (Z.to_int n)
  | VBool true => "True"
  | VBool false => "False"
  | VObj _ s => s
  end.

(** [s.split(sep)] for a separator of one character: the pieces between
    the occurrences of [sep], empty pieces included. *)
Fixpoint split (sep : ascii) (s : string) : list string :=
  match s with
  | EmptyString => [EmptyString]
  | String c s' =>
      if Ascii.eqb c sep then EmptyString :: split sep s'
      else match split sep s' with
           | [] => [String c EmptyString]
           | piece :: pieces => String c piece :: pieces
           end
  end.

(** [l[i]]: a negative index counts from the end, an index out of range
    raises [IndexError]. *)
Definition getitem {A} (l : list A) (i : Z) : result A :=
  let n := Z.of_nat (length l) in
  let j := if i <? 0 then i + n else i in
  if (j <? 0) || (n <=? j) then Raise IndexError
  else match l !! Z.to_nat j with
       | Some a => Ok a
       | None => Raise IndexError
       end.

(** [range(a, b)]. *)
Definition range (a b : Z) : list Z :=
  map (fun i => a + Z.of_nat i) (seq 0 (Z.to_nat (b - a))).

(** *** [int(s)] on a string

    CPython first maps every white-space code point from 127 on to a
    blank (below 256 these are U+0085 and U+00A0), then skips leading
    white space (tab, line feed, vertical tab, form feed, carriage return,
    blank), reads an optional sign, then decimal digits in which single
    underscores may separate digits, then skips trailing white space and
    demands the end of the string.  Anything else raises [ValueError]. *)

Definition is_space (c : ascii) : bool :=
  let n := N_of_ascii c in
  ((9 <=? n) && (n <=? 13) || (n =? 32) || (n =? 133) || (n =? 160))%N.

Definition digit_value (c : ascii) : option Z :=
  let n := N_of_ascii c in
  if ((48 <=? n) && (n <=? 57))%N then Some (Z.of_N n - 48) else None.

Fixpoint skip_space (s : string) : string :=
  match s with
  | String c s' => if is_space c then skip_space s' else s
  | EmptyString => s
  end.

(** The digit loop of [PyLong_FromString]: [prev_us] tells whether the
    previous character was an underscore, [acc] is the number read so far
    and [digits] the count of digits.  [None] is the syntax error of a
    doubled or trailing underscore. *)
Fixpoint scan_digits (s : string) (prev_us : bool) (acc digits : Z)
  : option (Z * Z * string) :=
  match s with
  | String c s' =>
      if Ascii.eqb c "_" then
        if prev_us then None else scan_digits s' true acc digits
      else
        match digit_value c with
        | Some d => scan_digits s' false (10 * acc + d) (digits + 1)
        | None => if prev_us then None else Some (acc, digits, s)
        end
  | EmptyString => if prev_us then None else Some (acc, digits, s)
  end.

Definition read_sign (s : string) : Z * string :=
  match s with
  | String c s' =>
      if Ascii.eqb c "+" then (1, s')
      else if Ascii.eqb c "-" then (-1, s')
      else (1, s)
  | EmptyString => (1, s)
  end.

Definition starts_with (c : ascii) (s : string) : bool :=
  match s with
  | String c' _ => Ascii.eqb c' c
  | EmptyString => false
  end.

Section Int.

(** [sys.get_int_max_str_digits()]: 4300 by default in the interpreters
    that have the limit, 0 when it is switched off (or absent).  A string
    of more than 640 digits that exceeds a positive limit is refused. *)
Variable max_str_digits : Z.

Definition too_many_digits (digits : Z) : bool :=
  (640 <? digits) && (0 <? max_str_digits) && (max_str_digits <? digits).

Definition int (s : string) : result Z :=
  let '(sign, body) := read_sign (skip_space s) in
  if starts_with "_" body then Raise ValueError
  else
    match scan_digits body false 0 0 with
    | None => Raise ValueError
    | Some (n, digits, rest) =>
        if too_many_digits digits then Raise ValueError
        else if digits =? 0 then Raise ValueError
        else
          match skip_space rest with
          | EmptyString => Ok (sign * n)
          | String _ _ => Raise ValueError
          end
    end.

End Int.

(** [s.strip()] removes white space from both ends; the scripts only ask
    whether anything is left.  [str.isspace] counts tab to carriage
    return, the separators U+001C to U+001F, the blank, U+0085 and
    U+00A0 (among the code points below 256). *)
Definition isspace (c : ascii) : bool :=
  let n := N_of_ascii c in
  ((9 <=? n) && (n <=? 13) || (28 <=? n) && (n <=? 32)
   || (n =? 133) || (n =? 160))%N.

Fixpoint strip_nonempty (s : string) : bool :=
  match s with
  | String c s' => if isspace c then strip_nonempty s' else true
  | EmptyString => false
  end.

End Py.

(** ** The part of openpyxl that the scripts use *)

Module Openpyxl.
Import Py.

(** A worksheet keeps its cells in a dictionary keyed by (row, column),
    both counted from 1.  A cell that is present may hold [None]. *)
Record worksheet : Type := Worksheet {
  title : string;
  cells : gmap (Z * Z) value
}.

(** [ws.max_row] and [ws.max_column]: the largest row and column of a
    cell of the dictionary, 1 for a sheet without cells. *)
Definition max_row (ws : worksheet) : Z :=
  map_fold (fun (k : Z * Z) (_ : value) acc => Z.max k.1 acc) 1 (cells ws).

Definition max_column (ws : worksheet) : Z :=
  map_fold (fun (k : Z * Z) (_ : value) acc => Z.max k.2 acc) 1 (cells ws).

(** [ws.dimensions]: the corners of the used range, (1, 1, 1, 1) for a
    sheet without cells; the model keeps the four numbers (first column,
    first row, last column, last row) and leaves out the column letters. *)
Definition least (proj : Z * Z -> Z) (ws : worksheet) : Z :=
  default 1
    (map_fold (fun (k : Z * Z) (_ : value) acc =>
                 Some (match acc with
                       | Some a => Z.min (proj k) a
                       | None => proj k
                       end)) None (cells ws)).

Definition dimensions (ws : worksheet) : Z * Z * Z * Z :=
  (least snd ws, least fst ws, max_column ws, max_row ws).

(** [ws.cell(row, column)] hands out the cell at that place and creates
    an empty one when the dictionary has none; the scripts read [.value]
    at once, so the model returns the value and the sheet after the call.
    A row or column below 1 raises [ValueError]. *)
Definition cell (row column : Z) (ws : worksheet)
  : result (value * worksheet) :=
  if (row <? 1) || (column <? 1) then Raise ValueError
  else
    match cells ws !! (row, column) with
    | Some v => Ok (v, ws)
    | None =>
        Ok (VNone, Worksheet (title ws) (<[(row, column) := VNone]> (cells ws)))
    end.

(** The value a read of (row, column) gives, without the side effect. *)
Definition value_at (ws : worksheet) (row column : Z) : value :=
  default VNone (cells ws !! (row, column)).

(** A sheet of a workbook is a worksheet or a chart sheet.  A chart
    sheet holds a chart and no cells: it has a title, but [dimensions],
    [max_row], [max_column] and [cell] are no attributes of it, and
    reading one of them raises [AttributeError]. *)
Inductive sheet : Type :=
  | Sheet (ws : worksheet)
  | Chartsheet (name : string).

Definition sheet_title (s : sheet) : string :=
  match s with
  | Sheet ws => title ws
  | Chartsheet name => name
  end.

(** A workbook: [wb.worksheets], the titles of [wb.chartsheets], and
    [wb.active], which can be a sheet of either kind. *)
Record workbook : Type := Workbook {
  worksheets : list worksheet;
  chartsheets : list string;
  active : sheet
}.

(** [wb[name]] looks for the first sheet with that title among
    [wb.worksheets + wb.chartsheets] and raises [KeyError] when there is
    none; [find_sheet] is the search among the worksheets. *)
Fixpoint find_sheet (name : string) (l : list worksheet)
  : result worksheet :=
  match l with
  | [] => Raise KeyError
  | ws :: l' =>
      if String.eqb (title ws) name then Ok ws else find_sheet name l'
  end.

Definition wb_getitem (wb : workbook) (name : string) : result sheet :=
  match find_sheet name (worksheets wb) with
  | Ok ws => Ok (Sheet ws)
  | Raise _ =>
      if existsb (String.eqb name) (chartsheets wb)
      then Ok (Chartsheet name)
      else Raise KeyError
  end.

End Openpyxl.

(** ** Running a script: console output, the open worksheet, exceptions *)

Module Run.
Import Py Openpyxl.

(** One [print] call.  A line that shows data carries the data; a fixed
    text is a [Banner] (without its emoji and blank lines) or a [Rule].
    Widths and padding of the formats are left out.  [Unterminated] is a
    call with [end=""]: its text stays on the console line that the
    next call goes on with. *)
Inductive line : Type :=
  | Banner (text : string)
  | Unterminated (text : string)
  | Rule
  | FileAnalysis (file_path : list string)
  | WorksheetName (name : string)
  | Dimensions (corners : Z * Z * Z * Z)
  | Extent (max_r max_c : Z)
  | ColumnHeader (col : Z) (header : value)
  | RowStart (row : Z)
  | SampleCell (col : Z) (header : value) (v : value)
  | MappingLine (col : Z) (field : string) (header : value) (sample : value)
  | TotalRows (n : Z)
  | TotalMatches (n : Z)
  | TodayMatches (day : Z) (count : Z)
  | NullValues (col_name : value) (null_count : Z) (percent : string)
  | FileNotFoundAt (file_path : list string)
  | FoundFileAt (file_path : list string)
  | ErrorExamining (e : exn)
  | Traceback (e : exn).

(** A statement runs on the worksheet that the script holds as [ws].  It
    finishes with a value or raises; either way it leaves a worksheet
    (reading a cell can add one) and the lines it printed, first line
    first. *)
Definition M (A : Type) : Type :=
  worksheet -> result A * worksheet * list line.

Definition ret {A} (a : A) : M A := fun w => (Ok a, w, []).

Definition bind {A B} (m : M A) (k : A -> M B) : M B :=
  fun w =>
    match m w with
    | (Ok a, w', printed) =>
        let '(r, w'', printed') := k a w' in (r, w'', printed ++ printed')
    | (Raise e, w', printed) => (Raise e, w', printed)
    end.

Definition raise {A} (e : exn) : M A := fun w => (Raise e, w, []).

Definition lift {A} (r : result A) : M A := fun w => (r, w, []).

(** [try: body except: handler] with a bare [except]. *)
Definition try_except {A} (body : M A) (handler : M A) : M A :=
  fun w =>
    match body w with
    | (Ok a, w', printed) => (Ok a, w', printed)
    | (Raise _, w', printed) =>
        let '(r, w'', printed') := handler w' in (r, w'', printed ++ printed')
    end.

Definition print (l : line) : M unit := fun w => (Ok tt, w, [l]).

(** [ws.cell(row, column).value] *)
Definition cell_value (row column : Z) : M value :=
  fun w =>
    match cell row column w with
    | Ok (v, w') => (Ok v, w', [])
    | Raise e => (Raise e, w, [])
    end.

Definition get_title : M string := fun w => (Ok (title w), w, []).
Definition get_dimensions : M (Z * Z * Z * Z) :=
  fun w => (Ok (dimensions w), w, []).
Definition get_max_row : M Z := fun w => (Ok (max_row w), w, []).
Definition get_max_column : M Z := fun w => (Ok (max_column w), w, []).

(** [for x in xs: acc = body(acc, x)]: a loop over a list that updates
    the local variables [acc]. *)
Fixpoint for_each {A B} (xs : list A) (acc : B) (body : B -> A -> M B)
  : M B :=
  match xs with
  | [] => ret acc
  | x :: xs' => bind (body acc x) (fun acc' => for_each xs' acc' body)
  end.

#[global] Instance M_ret : MRet M := @ret.
#[global] Instance M_bind : MBind M := fun A B k m => bind m k.

End Run.

(** ** Floating point: [int / int], [float * int] and the ['.1f'] format

    Python's [float] is IEEE 754 binary64; the operations are those of
    the Rocq reference model [SpecFloat] at precision 53. *)

Module PyFloat.
Import Py.

Definition prec : Z := 53.
Definition emax : Z := 1024.

(** [float(n)] for an integer, rounded to nearest (exact below 2^53). *)
Definition of_int (n : Z) : spec_float := binary_normalize prec emax n 0 false.

(** [a / b] on integers: [ZeroDivisionError] for a zero divisor, else the
    binary64 number nearest to the quotient (for operands below 2^53, as
    all row counts are, both convert exactly). *)
Definition truediv (a b : Z) : result spec_float :=
  if b =? 0 then Raise ZeroDivisionError
  else Ok (SFdiv prec emax (of_int a) (of_int b)).

(** [x * n] for a float and an integer. *)
Definition mul_int (x : spec_float) (n : Z) : spec_float :=
  SFmul prec emax x (of_int n).

(** The integer nearest to [a / b] for [0 <= a] and [0 < b], a tie going
    to the even neighbour. *)
Definition round_half_even (a b : Z) : Z :=
  let q := a / b in
  match (2 * (a mod b) ?= b) with
  | Lt => q
  | Gt => q + 1
  | Eq => if Z.even q then q else q + 1
  end.

(** The number of tenths that ['.1f'] prints for the magnitude
    [m * 2^e]: the exact binary value is rounded, half to even. *)
Definition tenths (m : positive) (e : Z) : Z :=
  if 0 <=? e then 10 * Z.pos m * 2 ^ e
  else round_half_even (10 * Z.pos m) (2 ^ (- e)).

Definition decimal (n : Z) : string := NilZero.string_of_int (Z.to_int n).

Definition fixed1 (t : Z) : string :=
  decimal (t / 10) +:+ "." +:+ decimal (t mod 10).

(** [f"{x:.1f}"] *)
Definition format_1f (x : spec_float) : string :=
  match x with
  | S754_nan => "nan"
  | S754_infinity s => if s then "-inf" else "inf"
  | S754_zero s => if s then "-0.0" else "0.0"
  | S754_finite s m e =>
      (if s then "-" else "") +:+ fixed1 (tenths m e)
  end.

End PyFloat.

(** ** Statements that both inspection scripts contain *)

Module Common.
Import Py Openpyxl Run.

Section Interpreter.

Variable max_str_digits : Z.

(** [int(date_str.split('.')[0].split(' ')[0])] *)
Definition day_of (date_str : string) : result Z :=
  rbind (getitem (split "." date_str) 0) (fun before_dot =>
  rbind (getitem (split " " before_dot) 0) (fun token =>
  int max_str_digits token)).

(** The body of the loop that counts today's matches
    (examine_excel.py lines 77 to 85, examine_soccer.py lines 64 to 72),
    for the row [row], with [today_count] as it stands. *)
Definition count_row (current_day : Z) (today_count : Z) (row : Z) : M Z :=
  date_str ← cell_value row 5;
  if truthy date_str then
    let date_str := str date_str in
    try_except
      (day ← lift (day_of date_str);
       if day =? current_day then mret (today_count + 1)
       else mret today_count)
      (mret today_count)
  else mret today_count.

(** [today_count = 0] and the loop over [range(2, ws.max_row + 1)]. *)
Definition count_today (current_day : Z) : M Z :=
  r ← get_max_row;
  for_each (range 2 (r + 1)) 0 (count_row current_day).

End Interpreter.

(** [sorted(column_mapping.items())]: the pairs in the order of their
    keys (pairs compare on the key first, and the keys of a dictionary
    are distinct). *)
Definition key_le (a b : Z * string) : Prop := a.1 <= b.1.

#[global] Instance key_le_dec a b : Decision (key_le a b) :=
  Z_le_dec a.1 b.1.

Definition sorted_items (d : gmap Z string) : list (Z * string) :=
  merge_sort key_le (map_to_list d).

(** [headers[i] if i < len(headers) else fallback] *)
Definition header_or (headers : list value) (i : Z) (fallback : value)
  : result value :=
  if i <? Z.of_nat (length headers) then getitem headers i
  else Ok fallback.

(** How a run ends: what was printed, the tracebacks written to the
    error stream, which files were handed to [load_workbook], and the
    exit code of the process. *)
Record outcome : Type := Outcome {
  stdout : list line;
  stderr : list line;
  opened : list (list string);
  exit_code : Z
}.

(** The files the scripts can see: a path (its components) that exists
    leads to what [load_workbook] makes of the file there, a workbook or
    the exception of a file that is no workbook. *)
Abbreviation files := (gmap (list string) (result workbook)).

Definition exists_ (fs : files) (p : list string) : bool :=
  bool_decide (is_Some (fs !! p)).

Definition load_workbook (fs : files) (p : list string) : result workbook :=
  match fs !! p with
  | Some r => r
  | None => Raise FileNotFoundError
  end.

(** Run statements with [sheet] as [ws], after [printed]. *)
Definition with_sheet {A} (sheet : worksheet) (printed : list line)
    (body : M A) : result A * list line :=
  let '(r, _, printed') := body sheet in (r, printed ++ printed').

End Common.

(** ** examine_excel.py *)

Module ExamineExcel.
Import Py Openpyxl Run Common.

Definition column_mapping : gmap Z string :=
  list_to_map
    [ (2, "HomeTeam");
      (3, "AwayTeam");
      (4, "League");
      (5, "Date/Time");
      (6, "HomeWin");
      (7, "Draw");
      (8, "AwayWin");
      (18, "OverTwoGoals");
      (22, "OverThreeGoals");
      (24, "OverFourGoals");
      (34, "UnderTwoGoals");
      (38, "UnderThreeGoals") ].

Section Interpreter.

(** The digit limit of [int] and [datetime.now().day] at the time of
    the run. *)
Variables (max_str_digits current_day : Z).

(** Lines 21 to 28: the headers of at most 49 columns. *)
Definition read_headers : M (list value) :=
  print (Banner "COLUMN HEADERS (Row 1):");;
  print Rule;;
  c ← get_max_column;
  for_each (range 1 (Z.min (c + 1) 50)) [] (fun headers col =>
    v ← cell_value 1 col;
    let headers := headers ++ [v] in
    print (ColumnHeader col v);;
    mret headers).

(** Lines 30 to 39: the first five data rows, 29 columns of each. *)
Definition sample_data (headers : list value) : M unit :=
  print (Banner "SAMPLE DATA (Rows 2-6):");;
  print Rule;;
  r ← get_max_row;
  for_each (range 2 (Z.min (r + 1) 7)) tt (fun _ row =>
    print (RowStart row);;
    c ← get_max_column;
    for_each (range 1 (Z.min (c + 1) 30)) tt (fun _ col =>
      v ← cell_value row col;
      header ← lift (header_or headers (col - 1)
                       (VStr ("Col" +:+ str (VInt col))));
      if negb (is_none v) && strip_nonempty (str v)
      then print (SampleCell col header v)
      else mret tt)).

(** Lines 41 to 63: one line for each entry of the mapping. *)
Definition report_mapping (headers : list value) : M unit :=
  print (Banner "COLUMNS USED BY ExtractFromExcel.cs:");;
  print Rule;;
  print (Banner "Mapping from C# code (ExtractFromExcel.cs):");;
  for_each (sorted_items column_mapping) tt (fun _ item =>
    let '(col_num, field_name) := item in
    header ← lift (header_or headers (col_num - 1) (VStr "N/A"));
    r ← get_max_row;
    sample_val ← (if 2 <=? r then cell_value 2 col_num
                  else mret (VStr "N/A"));
    print (MappingLine col_num field_name header sample_val)).

(** Lines 65 to 88. *)
Definition statistics : M unit :=
  print (Banner "DATA STATISTICS:");;
  print Rule;;
  r ← get_max_row;
  let total_rows := r - 1 in
  print (TotalRows total_rows);;
  today_count ← count_today max_str_digits current_day;
  print (TodayMatches current_day today_count);;
  print (TotalMatches total_rows).

(** The body of [examine_excel] once [ws] is bound. *)
Definition inspect (file_path : list string) : M unit :=
  print (FileAnalysis file_path);;
  print Rule;;
  name ← get_title;
  print (WorksheetName name);;
  d ← get_dimensions;
  print (Dimensions d);;
  r ← get_max_row;
  c ← get_max_column;
  print (Extent r c);;
  headers ← read_headers;
  sample_data headers;;
  report_mapping headers;;
  statistics.

(** The same statements when [ws] is a chart sheet: the title is
    printed (line 17), then [ws.dimensions] (line 18) raises. *)
Definition inspect_chartsheet (file_path : list string) (name : string)
  : result unit * list line :=
  (Raise AttributeError, [FileAnalysis file_path; Rule; WorksheetName name]).

Definition examine_excel (fs : files) (file_path : list string)
    (printed : list line) : result unit * list line :=
  match load_workbook fs file_path with
  | Raise e => (Raise e, printed)
  | Ok wb =>
      match active wb with
      | Sheet ws => with_sheet ws printed (inspect file_path)
      | Chartsheet name =>
          let '(r, printed') := inspect_chartsheet file_path name in
          (r, printed ++ printed')
      end
  end.

(** Lines 108 to 114: the call under [try], [except Exception] and
    [sys.exit(1)]. *)
Definition guarded_examine (fs : files) (file_path : list string)
    (printed : list line) : outcome :=
  match examine_excel fs file_path printed with
  | (Ok _, printed') => Outcome printed' [] [file_path] 0
  | (Raise e, printed') =>
      Outcome (printed' ++ [ErrorExamining e]) [Traceback e] [file_path] 1
  end.

(** The [for alt_path in alt_paths: ... break] of lines 100 to 104: the
    first path that exists, [None] when the [else] branch is reached. *)
Fixpoint first_existing (fs : files) (alt_paths : list (list string))
  : option (list string) :=
  match alt_paths with
  | [] => None
  | alt_path :: rest =>
      if exists_ fs alt_path then Some alt_path
      else first_existing fs rest
  end.

Definition primary_path (script_dir : list string) : list string :=
  script_dir ++ ["Resources"; "predictions.xlsx"].

Definition alt_paths (script_dir : list string) : list (list string) :=
  [ script_dir ++ ["MatchPredictor.Web"; "Resources"; "predictions.xlsx"];
    ["Resources"; "predictions.xlsx"] ].

(** The [__main__] block; [script_dir] is [Path(__file__).parent]. *)
Definition main (script_dir : list string) (fs : files) : outcome :=
  let file_path := primary_path script_dir in
  if exists_ fs file_path then guarded_examine fs file_path []
  else
    let printed := [FileNotFoundAt file_path;
                    Banner "Looking for alternative paths..."] in
    match first_existing fs (alt_paths script_dir) with
    | Some alt_path =>
        guarded_examine fs alt_path (printed ++ [FoundFileAt alt_path])
    | None => Outcome printed [] [] 1
    end.

End Interpreter.

End ExamineExcel.

(** ** examine_soccer.py *)

Module ExamineSoccer.
Import Py Openpyxl Run Common.

Definition column_mapping : gmap Z string :=
  list_to_map
    [ (2, "HomeTeam");
      (3, "AwayTeam");
      (4, "League");
      (5, "Date/Time");
      (6, "HomeWin (1x2_h)");
      (7, "Draw (1x2_d)");
      (8, "AwayWin (1x2_a)");
      (18, "OverTwoGoals (o_2.5)");
      (22, "OverThreeGoals (o_3)");
      (24, "OverFourGoals (o_4)");
      (34, "UnderTwoGoals (u_2.5)");
      (38, "UnderThreeGoals (u_3)") ].

Definition key_cols : list Z := [1; 2; 3; 4; 5; 6; 7; 8; 18; 22; 24; 34; 38].

(** The columns of the data-quality report (line 85). *)
Definition quality_cols : list Z := [6; 7; 8; 18; 22; 34].

Section Interpreter.

Variables (max_str_digits current_day : Z).

(** Lines 13 to 20: the headers of all columns. *)
Definition read_headers : M (list value) :=
  print (Banner "ALL COLUMN HEADERS:");;
  print Rule;;
  c ← get_max_column;
  for_each (range 1 (c + 1)) [] (fun headers col =>
    val ← cell_value 1 col;
    let headers := headers ++ [val] in
    print (ColumnHeader col val);;
    mret headers).

(** Lines 22 to 43. *)
Definition report_mapping (headers : list value) : M unit :=
  print (Banner "COLUMNS USED BY C# CODE (ExtractFromExcel.cs):");;
  print Rule;;
  for_each (sorted_items column_mapping) tt (fun _ item =>
    let '(col_num, field_description) := item in
    header ← lift (header_or headers (col_num - 1) (VStr "OUT OF RANGE"));
    r ← get_max_row;
    sample_val ← (if 2 <=? r then cell_value 2 col_num
                  else mret (VStr "N/A"));
    print (MappingLine col_num field_description header sample_val)).

(** Lines 45 to 56: the key columns of the first three data rows. *)
Definition sample_rows (headers : list value) : M unit :=
  print (Banner "SAMPLE SOCCER MATCHES (First 3 rows):");;
  print Rule;;
  r ← get_max_row;
  for_each (range 2 (Z.min (r + 1) 5)) tt (fun _ row =>
    print (RowStart row);;
    for_each key_cols tt (fun _ col =>
      c ← get_max_column;
      if col <=? c then
        val ← cell_value row col;
        header ← lift (header_or headers (col - 1)
                         (VStr ("Col" +:+ str (VInt col))));
        print (SampleCell col header val)
      else mret tt)).

(** Lines 58 to 77. *)
Definition statistics : M unit :=
  today_count ← count_today max_str_digits current_day;
  print (Banner "STATISTICS:");;
  print Rule;;
  r ← get_max_row;
  print (TotalMatches (r - 1));;
  print (TodayMatches current_day today_count).

(** Line 86: [sum(1 for row in range(2, ws.max_row + 1)
    if ws.cell(row, col_num).value is None)]. *)
Definition count_nulls (col_num : Z) : M Z :=
  r ← get_max_row;
  for_each (range 2 (r + 1)) 0 (fun total row =>
    v ← cell_value row col_num;
    mret (if is_none v then total + 1 else total)).

(** Lines 84 to 89.  The dictionary [null_counts] is only written to; the
    model keeps the assignments in the order they are made. *)
Definition data_quality (headers : list value) : M (list (value * Z)) :=
  print (Banner "DATA QUALITY ANALYSIS:");;
  print Rule;;
  for_each quality_cols [] (fun null_counts col_num =>
    null_count ← count_nulls col_num;
    col_name ← lift (header_or headers (col_num - 1)
                       (VStr ("Col" +:+ str (VInt col_num))));
    let null_counts := null_counts ++ [(col_name, null_count)] in
    r ← get_max_row;
    ratio ← lift (PyFloat.truediv null_count (r - 1));
    print (NullValues col_name null_count
             (PyFloat.format_1f (PyFloat.mul_int ratio 100)));;
    mret null_counts).

Definition conclusion : M unit :=
  print (Banner "CONCLUSION:");;
  print Rule;;
  print (Banner "The Excel file contains pre-calculated PROBABILITIES from sports-ai.dev");;
  print (Banner "NOT historical match scores - these are predictions for upcoming matches!");;
  print (Banner "The system scrapes these AI-generated probabilities and applies additional logic.").

(** The statements from line 8 on, with [ws] bound. *)
Definition inspect : M unit :=
  print (Banner "SOCCER WORKSHEET ANALYSIS");;
  print Rule;;
  d ← get_dimensions;
  print (Dimensions d);;
  r ← get_max_row;
  c ← get_max_column;
  print (Extent r c);;
  headers ← read_headers;
  report_mapping headers;;
  sample_rows headers;;
  statistics;;
  data_quality headers;;
  conclusion.

(** The same statements when [ws] is a chart sheet: the banner and the
    rule are printed, then [ws.dimensions] (line 10) raises. *)
Definition inspect_chartsheet : result unit * list line :=
  (Raise AttributeError, [Banner "SOCCER WORKSHEET ANALYSIS"; Rule]).

Definition workbook_path : list string := ["Resources"; "predictions.xlsx"].

(** The whole script.  Nothing catches an exception: it ends the process
    with a traceback and exit code 1. *)
Definition script (fs : files) : outcome :=
  match load_workbook fs workbook_path with
  | Raise e => Outcome [] [Traceback e] [workbook_path] 1
  | Ok wb =>
      match wb_getitem wb "soccer" with
      | Raise e => Outcome [] [Traceback e] [workbook_path] 1
      | Ok sheet =>
          match match sheet with
                | Sheet ws => with_sheet ws [] inspect
                | Chartsheet _ => inspect_chartsheet
                end with
          | (Ok _, printed) => Outcome printed [] [workbook_path] 0
          | (Raise e, printed) =>
              Outcome printed [Traceback e] [workbook_path] 1
          end
      end
  end.

End Interpreter.

End ExamineSoccer.

(** ** Notions used to state the properties *)

Module Spec.
Import Py Openpyxl Run Common.

(** A text of [n] times the character [c]. *)
Fixpoint replicate_char (n : nat) (c : ascii) : string :=
  match n with
  | O => EmptyString
  | S n' => String c (replicate_char n' c)
  end.

(** The longest prefix of [s] without a character that [stop] accepts. *)
Fixpoint take_until (stop : ascii -> bool) (s : string) : string :=
  match s with
  | String c s' => if stop c then EmptyString else String c (take_until stop s')
  | EmptyString => EmptyString
  end.

(** The leading token of a date text: what stands before the first full
    stop or blank. *)
Definition leading_token (s : string) : string :=
  take_until (fun c => Ascii.eqb c "." || Ascii.eqb c " ") s.

(** The sheet after [ws.cell(row, column)]: an absent cell is added,
    empty. *)
Definition touch (row column : Z) (w : worksheet) : worksheet :=
  match cells w !! (row, column) with
  | Some _ => w
  | None => Worksheet (title w) (<[(row, column) := VNone]> (cells w))
  end.

(** The sheet after reading column [column] of the rows [rows] in turn. *)
Definition touch_rows (column : Z) (rows : list Z) (w : worksheet)
  : worksheet :=
  foldl (fun w' row => touch row column w') w rows.

(** Two sheets that no read of the scripts tells apart in their rows:
    same title, same last row, same value everywhere. *)
Definition same_data (w w' : worksheet) : Prop :=
  title w = title w' /\ max_row w = max_row w'
  /\ forall row column, value_at w row column = value_at w' row column.

(** The values of column [column] in the data rows, row 2 first. *)
Definition data_column (w : worksheet) (column : Z) : list value :=
  map (fun row => value_at w row column) (range 2 (max_row w + 1)).

(** How many values of a list pass a test. *)
Fixpoint tally (p : value -> bool) (vs : list value) : Z :=
  match vs with
  | [] => 0
  | v :: vs' => (if p v then 1 else 0) + tally p vs'
  end.

(** A cell value counts as a match of the day [current_day] when it is
    true in a condition and the leading token of its text is read by
    [int] as that number. *)
Definition counted (max_str_digits current_day : Z) (v : value) : bool :=
  truthy v &&
  match int max_str_digits (leading_token (str v)) with
  | Ok day => day =? current_day
  | Raise _ => false
  end.

(** The same with the token as the specification words it: the text is
    split on the full stop and on white space. *)
Definition token_as_specified (s : string) : string :=
  take_until (fun c => Ascii.eqb c "." || isspace c) s.

(** The text "5<TAB>03": a day and a month with a tab between them. *)
Definition tab_date : string :=
  String "5" (String "009" (String "0" (String "3" EmptyString))).

(** A sheet with the single cell (row, 5). *)
Definition one_date (row : Z) (v : value) : worksheet :=
  Worksheet "soccer" {[ (row, 5) := v ]}.

(** The header shown for column [col]: the entry of [headers] at that
    place, [fallback] beyond the end of the list. *)
Definition header_at (headers : list value) (col : Z) (fallback : value)
  : value :=
  default fallback (headers !! Z.to_nat (col - 1)).

(** The line that the mapping report shows for an entry of the table:
    column, field name, header, and the value of row 2 when the sheet has
    a row 2. *)
Definition mapping_line (headers : list value) (w : worksheet)
    (fallback : string) (item : Z * string) : line :=
  MappingLine item.1 item.2 (header_at headers item.1 (VStr fallback))
    (if 2 <=? max_row w then value_at w 2 item.1 else VStr "N/A").

(** The number of data rows whose cell in column [col] is empty. *)
Definition nulls (w : worksheet) (col : Z) : Z :=
  tally is_none (data_column w col).

(** The name under which the data-quality report lists column [col]. *)
Definition quality_name (headers : list value) (col : Z) : value :=
  header_at headers col (VStr ("Col" +:+ str (VInt col))).

(** The text of the percentage for [n] empty cells among [m] rows, as
    the script computes it in binary64. *)
Definition percent_text (n m : Z) : string :=
  PyFloat.format_1f
    (PyFloat.mul_int
       (SFdiv PyFloat.prec PyFloat.emax (PyFloat.of_int n) (PyFloat.of_int m))
       100).

Definition null_line (headers : list value) (w : worksheet) (col : Z)
  : line :=
  NullValues (quality_name headers col) (nulls w col)
    (percent_text (nulls w col) (max_row w - 1)).

(** The fields of a match prediction record that the specification
    attaches to columns. *)
Inductive field : Type :=
  | HomeTeam | AwayTeam | League | KickoffDateTime
  | HomeWinProbability | DrawProbability | AwayWinProbability
  | Over2_5 | Over3 | Over4 | Under2_5 | Under3.

(** The column-to-field table as the specification gives it. *)
Definition documented_field (col : Z) : option field :=
  if col =? 2 then Some HomeTeam
  else if col =? 3 then Some AwayTeam
  else if col =? 4 then Some League
  else if col =? 5 then Some KickoffDateTime
  else if col =? 6 then Some HomeWinProbability
  else if col =? 7 then Some DrawProbability
  else if col =? 8 then Some AwayWinProbability
  else if col =? 18 then Some Over2_5
  else if col =? 22 then Some Over3
  else if col =? 24 then Some Over4
  else if col =? 34 then Some Under2_5
  else if col =? 38 then Some Under3
  else None.

(** The names under which examine_excel.py and examine_soccer.py show
    the fields. *)
Definition excel_name (f : field) : string :=
  match f with
  | HomeTeam => "HomeTeam" | AwayTeam => "AwayTeam" | League => "League"
  | KickoffDateTime => "Date/Time"
  | HomeWinProbability => "HomeWin" | DrawProbability => "Draw"
  | AwayWinProbability => "AwayWin"
  | Over2_5 => "OverTwoGoals" | Over3 => "OverThreeGoals"
  | Over4 => "OverFourGoals"
  | Under2_5 => "UnderTwoGoals" | Under3 => "UnderThreeGoals"
  end.

Definition soccer_name (f : field) : string :=
  match f with
  | HomeTeam => "HomeTeam" | AwayTeam => "AwayTeam" | League => "League"
  | KickoffDateTime => "Date/Time"
  | HomeWinProbability => "HomeWin (1x2_h)" | DrawProbability => "Draw (1x2_d)"
  | AwayWinProbability => "AwayWin (1x2_a)"
  | Over2_5 => "OverTwoGoals (o_2.5)" | Over3 => "OverThreeGoals (o_3)"
  | Over4 => "OverFourGoals (o_4)"
  | Under2_5 => "UnderTwoGoals (u_2.5)" | Under3 => "UnderThreeGoals (u_3)"
  end.

(** A small workbook: a header row and two matches, one on the 5th and
    one on the 15th; and the files of a directory that holds it. *)
Definition two_matches : worksheet :=
  Worksheet "soccer"
    (list_to_map
       [ ((1, 2), VStr "home"); ((1, 3), VStr "away"); ((1, 5), VStr "date");
         ((1, 6), VStr "1x2_h");
         ((2, 2), VStr "Ajax"); ((2, 3), VStr "PSV");
         ((2, 5), VStr "5.03 18:30"); ((2, 6), VInt 41);
         ((3, 2), VStr "Porto"); ((3, 3), VStr "Braga");
         ((3, 5), VStr "15.03 20:00") ]).

Definition two_matches_files : files :=
  {[ ["Resources"; "predictions.xlsx"] :=
       Ok (Workbook [two_matches] [] (Sheet two_matches)) ]}.

(** A sheet with a header row and no data row, and the files of a
    directory that holds it. *)
Definition header_only : worksheet :=
  Worksheet "soccer"
    (list_to_map [ ((1, 2), VStr "home"); ((1, 5), VStr "date") ]).

Definition header_only_files : files :=
  {[ ["Resources"; "predictions.xlsx"] :=
       Ok (Workbook [header_only] [] (Sheet header_only)) ]}.

(** A workbook with a worksheet and a chart sheet, the chart sheet being
    the active one; and the files of a directory that holds it. *)
Definition chart_workbook : workbook :=
  Workbook [two_matches] ["chart"] (Chartsheet "chart").

Definition chart_files : files :=
  {[ ["Resources"; "predictions.xlsx"] := Ok chart_workbook ]}.

(** The data rows, numbered from 2, whose cell in column [col] is
    empty. *)
Definition empty_rows (w : worksheet) (col : Z) : list Z :=
  List.filter (fun row => is_none (value_at w row col))
    (range 2 (max_row w + 1)).

(** A sheet of four data rows in which column 6 has one empty cell. *)
Definition four_matches : worksheet :=
  Worksheet "soccer"
    (list_to_map
       [ ((1, 6), VStr "1x2_h"); ((1, 7), VStr "1x2_d");
         ((2, 6), VInt 41); ((2, 7), VInt 30);
         ((3, 6), VInt 55); ((3, 7), VNone);
         ((4, 7), VInt 28);
         ((5, 6), VInt 12); ((5, 7), VInt 33) ]).

(** N / M * 100 in tenths, rounded in exact arithmetic to the nearest
    integer, for [0 <= n] and [0 < m]: a tie goes to the even neighbour
    (as Python's [round] and ['.1f'] treat an exact tie) or upwards. *)
Definition exact_tenths_half_even (n m : Z) : Z :=
  PyFloat.round_half_even (1000 * n) m.

Definition exact_tenths_half_up (n m : Z) : Z :=
  (2000 * n + m) / (2 * m).

(** A sheet of 80 data rows, rows 2 to 81, in which column 6 is empty
    in the rows 2 to 24, that is in 23 of them. *)
Definition eighty_rows : worksheet :=
  Worksheet "soccer"
    (list_to_map
       (map (fun row => ((row, 6), if row <=? 24 then VNone else VInt 50))
          (range 2 82))).

(** The lines of a report without those that give today's matches. *)
Definition is_today_line (l : line) : bool :=
  match l with TodayMatches _ _ => true | _ => false end.

Definition without_today (printed : list line) : list line :=
  List.filter (fun l => negb (is_today_line l)) printed.

(** The counts of today's matches that a report gives. *)
Fixpoint today_counts (printed : list line) : list Z :=
  match printed with
  | [] => []
  | TodayMatches _ n :: rest => n :: today_counts rest
  | _ :: rest => today_counts rest
  end.

(** The column headers that a report gives. *)
Fixpoint reported_headers (printed : list line) : list (Z * value) :=
  match printed with
  | [] => []
  | ColumnHeader col v :: rest => (col, v) :: reported_headers rest
  | _ :: rest => reported_headers rest
  end.

(** The row counts and empty-cell counts that a report gives. *)
Fixpoint reported_counts (printed : list line) : list Z :=
  match printed with
  | [] => []
  | TotalRows n :: rest => n :: reported_counts rest
  | TotalMatches n :: rest => n :: reported_counts rest
  | NullValues _ n _ :: rest => n :: reported_counts rest
  | _ :: rest => reported_counts rest
  end.

(** Two statements that behave alike but for the lines on today's
    matches: on every sheet they end the same way, leave the same sheet
    and print the same other lines. *)
Definition day_blind {A} (m1 m2 : M A) : Prop :=
  forall w,
    (m1 w).1 = (m2 w).1
    /\ without_today (m1 w).2 = without_today (m2 w).2.

(** Two runs that agree in everything but the lines on today's
    matches. *)
Definition same_but_today (o1 o2 : outcome) : Prop :=
  without_today (stdout o1) = without_today (stdout o2)
  /\ stderr o1 = stderr o2
  /\ opened o1 = opened o2
  /\ exit_code o1 = exit_code o2.

(** The place of the remainder [r] of a division by [b] in the unit
    interval, as the rounding of [SpecFloat] records it: exact, or below,
    at or above the middle. *)
Definition locz (r b : Z) : location :=
  if r =? 0 then loc_Exact else loc_Inexact (2 * r ?= b).

(** The shift record of the quotient [a / b]: its integer part and the
    place of the rest. *)
Definition rc (a b : Z) : shr_record :=
  shr_record_of_loc (a / b) (locz (a mod b) b).

(** How a run of examine_excel.py ends that hands the file at
    [file_path] to [load_workbook], [r] being what [load_workbook] makes
    of that file: this file and no other is opened; the exit code is 0,
    with an empty error stream, when the file is a workbook whose active
    sheet is a worksheet, and 1, with the traceback of the exception,
    when the file is no workbook or the active sheet is a chart
    sheet. *)
Definition ends_as (o : outcome) (file_path : list string)
    (r : result workbook) : Prop :=
  opened o = [file_path]
  /\ match r with
     | Ok wb =>
         match active wb with
         | Sheet _ => exit_code o = 0 /\ stderr o = []
         | Chartsheet _ =>
             exit_code o = 1 /\ stderr o = [Traceback AttributeError]
         end
     | Raise e => exit_code o = 1 /\ stderr o = [Traceback e]
     end.

(** A statement that, started on a sheet with the data of [w0], does
    not raise, leaves a sheet with the data of [w0], and returns a value
    and prints lines that satisfy [Q]. *)
Definition steady {A} (w0 : worksheet) (m : M A)
    (Q : A -> list line -> Prop) : Prop :=
  forall w, same_data w0 w ->
    exists a w' printed,
      m w = (Ok a, w', printed) /\ same_data w0 w' /\ Q a printed.

(** A statement that, started on a sheet with the data of [w0], raises
    [e], having printed lines that satisfy [Q]. *)
Definition aborts {A} (w0 : worksheet) (m : M A) (e : exn)
    (Q : list line -> Prop) : Prop :=
  forall w, same_data w0 w ->
    exists w' printed, m w = (Raise e, w', printed) /\ Q printed.

End Spec.

(** ** check_worksheets.py *)

Module CheckWorksheets.
Import Py Openpyxl Run Common.

(** [sep.join(pieces)] *)
Fixpoint join (sep : string) (pieces : list string) : string :=
  match pieces with
  | [] => EmptyString
  | piece :: rest =>
      match rest with
      | [] => piece
      | _ :: _ => piece +:+ sep +:+ join sep rest
      end
  end.

(** Lines 15 to 19: the texts of the headers of at most 49 columns that
    are true in a condition. *)
Definition collect_headers : M (list string) :=
  c ← get_max_column;
  for_each (range 1 (Z.min (c + 1) 50)) [] (fun headers col =>
    val ← cell_value 1 col;
    mret (if truthy val then headers ++ [str val] else headers)).

(** The body of the loop over the sheets (lines 9 to 21) for the sheet
    at index [idx]: six [print] calls.  The label of the headers is
    printed with [end=""], so that the list of the headers, printed
    after the loop, stands on the same console line; the last call,
    [print()], gives an empty line. *)
Definition sheet_report (idx : Z) : M unit :=
  name ← get_title;
  print (Banner ("Worksheet " +:+ str (VInt (idx + 1)) +:+ ": '"
                 +:+ name +:+ "'"));;
  d ← get_dimensions;
  print (Dimensions d);;
  r ← get_max_row;
  c ← get_max_column;
  print (Extent r c);;
  print (Unterminated "  Headers: ");;
  headers ← collect_headers;
  print (Banner (join ", " headers));;
  print (Banner "").

(** [for idx, ws in enumerate(wb.worksheets)], from the index [idx] on:
    each sheet is a worksheet of its own. *)
Fixpoint report_sheets (idx : Z) (sheets : list worksheet)
    (printed : list line) : result unit * list line :=
  match sheets with
  | [] => (Ok tt, printed)
  | sheet :: rest =>
      match with_sheet sheet printed (sheet_report idx) with
      | (Ok _, printed') => report_sheets (idx + 1) rest printed'
      | (Raise e, printed') => (Raise e, printed')
      end
  end.

Definition workbook_path : list string := ["Resources"; "predictions.xlsx"].

(** The whole script; nothing catches an exception.  The text of line 6
    ends with a line feed of its own, which gives an empty line after
    the count. *)
Definition script (fs : files) : outcome :=
  match load_workbook fs workbook_path with
  | Raise e => Outcome [] [Traceback e] [workbook_path] 1
  | Ok wb =>
      let total :=
        Banner ("Total worksheets: "
                +:+ str (VInt (Z.of_nat (length (worksheets wb))))) in
      match report_sheets 0 (worksheets wb) [total; Banner ""] with
      | (Ok _, printed) => Outcome printed [] [workbook_path] 0
      | (Raise e, printed) => Outcome printed [Traceback e] [workbook_path] 1
      end
  end.

End CheckWorksheets.

(** ** Further notions used to state properties *)

Module Report.
Import Py Openpyxl Run Common Spec.

(** A statement that, started on a sheet that satisfies [P], does not
    raise and ends with a value, a sheet and printed lines that satisfy
    [Q]. *)
Definition hoare {A} (P : worksheet -> Prop) (m : M A)
    (Q : A -> worksheet -> list line -> Prop) : Prop :=
  forall w, P w ->
    exists a w' printed, m w = (Ok a, w', printed) /\ Q a w' printed.

(** Sheets with the same data and the same last column. *)
Definition same_extent (w w' : worksheet) : Prop :=
  same_data w w' /\ max_column w = max_column w'.

(** The values of row 1 in the columns 1 to [n]. *)
Definition first_row (w : worksheet) (n : Z) : list value :=
  map (fun col => value_at w 1 col) (range 1 (n + 1)).

(** Whether examine_excel.py shows a value among the sample data: it is
    not [None] and its text has a character that is no white space. *)
Definition shown (v : value) : bool :=
  negb (is_none v) && strip_nonempty (str v).

(** The lines of examine_excel.py for the sample row [row]. *)
Definition excel_sample_row (w : worksheet) (headers : list value)
    (row : Z) : list line :=
  RowStart row
  :: flat_map
       (fun col =>
          let v := value_at w row col in
          if shown v then [SampleCell col (quality_name headers col) v]
          else [])
       (range 1 (Z.min (max_column w + 1) 30)).

(** The lines of examine_soccer.py for the sample row [row] of a sheet
    that is [width] columns wide when the row is shown. *)
Definition soccer_sample_row (width : Z) (w : worksheet)
    (headers : list value) (row : Z) : list line :=
  RowStart row
  :: map (fun col =>
            SampleCell col (quality_name headers col) (value_at w row col))
       (List.filter (fun col => col <=? width) ExamineSoccer.key_cols).

(** The last column of a sheet after the mapping report has read row 2
    in the columns [cols] (it reads nothing without a second row). *)
Definition width_after (w : worksheet) (cols : list Z) : Z :=
  if 2 <=? max_row w then foldl Z.max (max_column w) cols
  else max_column w.

(** The last column after the mapping report of either script: with a
    second row the cells of row 2 up to column 38 exist. *)
Definition width_after_mapping (w : worksheet) : Z :=
  if 2 <=? max_row w then Z.max (max_column w) 38 else max_column w.

(** The headers that examine_excel.py and examine_soccer.py collect. *)
Definition excel_headers (w : worksheet) : list value :=
  first_row w (Z.min (max_column w) 49).

Definition soccer_headers (w : worksheet) : list value :=
  first_row w (max_column w).

(** The report of examine_excel.py on the sheet [w]. *)
Definition excel_report (max_str_digits current_day : Z)
    (file_path : list string) (w : worksheet) : list line :=
  [ FileAnalysis file_path; Rule; WorksheetName (title w);
    Dimensions (dimensions w); Extent (max_row w) (max_column w) ]
  ++ ([ Banner "COLUMN HEADERS (Row 1):"; Rule ]
      ++ map (fun col => ColumnHeader col (value_at w 1 col))
           (range 1 (Z.min (max_column w) 49 + 1)))
  ++ ([ Banner "SAMPLE DATA (Rows 2-6):"; Rule ]
      ++ flat_map (excel_sample_row w (excel_headers w))
           (range 2 (Z.min (max_row w + 1) 7)))
  ++ ([ Banner "COLUMNS USED BY ExtractFromExcel.cs:"; Rule;
        Banner "Mapping from C# code (ExtractFromExcel.cs):" ]
      ++ map (mapping_line (excel_headers w) w "N/A")
           (sorted_items ExamineExcel.column_mapping))
  ++ [ Banner "DATA STATISTICS:"; Rule; TotalRows (max_row w - 1);
       TodayMatches current_day
         (tally (counted max_str_digits current_day) (data_column w 5));
       TotalMatches (max_row w - 1) ].

(** The report of examine_soccer.py on a sheet [w] with a data row. *)
Definition soccer_report (max_str_digits current_day : Z) (w : worksheet)
  : list line :=
  [ Banner "SOCCER WORKSHEET ANALYSIS"; Rule;
    Dimensions (dimensions w); Extent (max_row w) (max_column w) ]
  ++ ([ Banner "ALL COLUMN HEADERS:"; Rule ]
      ++ map (fun col => ColumnHeader col (value_at w 1 col))
           (range 1 (max_column w + 1)))
  ++ ([ Banner "COLUMNS USED BY C# CODE (ExtractFromExcel.cs):"; Rule ]
      ++ map (mapping_line (soccer_headers w) w "OUT OF RANGE")
           (sorted_items ExamineSoccer.column_mapping))
  ++ ([ Banner "SAMPLE SOCCER MATCHES (First 3 rows):"; Rule ]
      ++ flat_map
           (soccer_sample_row (width_after_mapping w) w (soccer_headers w))
           (range 2 (Z.min (max_row w + 1) 5)))
  ++ [ Banner "STATISTICS:"; Rule; TotalMatches (max_row w - 1);
       TodayMatches current_day
         (tally (counted max_str_digits current_day) (data_column w 5)) ]
  ++ ([ Banner "DATA QUALITY ANALYSIS:"; Rule ]
      ++ map (null_line (soccer_headers w) w) ExamineSoccer.quality_cols)
  ++ [ Banner "CONCLUSION:"; Rule;
       Banner "The Excel file contains pre-calculated PROBABILITIES from sports-ai.dev";
       Banner "NOT historical match scores - these are predictions for upcoming matches!";
       Banner "The system scrapes these AI-generated probabilities and applies additional logic." ].

(** The sheet [w] after the mapping report on [w0]: the same data, and
    the width that the reads of row 2 leave. *)
Definition widened (w0 w : worksheet) : Prop :=
  same_data w0 w /\ max_column w = width_after_mapping w0.

(** The texts that check_worksheets.py lists for a sheet: those of the
    values of row 1, in the first 49 columns, that are true in a
    condition. *)
Definition listed_headers (w : worksheet) : list string :=
  map str (List.filter truthy (excel_headers w)).




(** The sample lines of a report: the headings of the sample rows and
    the cells shown under them, in the order in which they are
    printed. *)
Definition is_sample_line (l : line) : bool :=
  match l with RowStart _ | SampleCell _ _ _ => true | _ => false end.

Definition sample_lines (printed : list line) : list line :=
  List.filter is_sample_line printed.

(** What examine_excel.py shows of the row [row] of the sheet [w]: the
    heading, then the cells of the columns 1 to 29 that are shown, each
    under the header of its column. *)
Definition excel_sample_block (w : worksheet) (row : Z) : list line :=
  RowStart row
  :: map (fun col => SampleCell col (value_at w 1 col) (value_at w row col))
       (List.filter (fun col => shown (value_at w row col))
          (range 1 (Z.min (max_column w) 29 + 1))).

(** What examine_soccer.py shows of the row [row] of the sheet [w] as
    loaded: the heading, then every key column, under its header or,
    beyond the width of the sheet, under the name Col<n>. *)
Definition soccer_sample_block (w : worksheet) (row : Z) : list line :=
  RowStart row
  :: map (fun col =>
            SampleCell col
              (if col <=? max_column w then value_at w 1 col
               else VStr ("Col" +:+ str (VInt col)))
              (value_at w row col))
       ExamineSoccer.key_cols.

(** The data-quality lines of a report, in the order in which they are
    printed. *)
Definition is_null_line (l : line) : bool :=
  match l with NullValues _ _ _ => true | _ => false end.

Definition null_lines (printed : list line) : list line :=
  List.filter is_null_line printed.


(** Whether a text consists of decimal digits only. *)
Fixpoint all_digits (s : string) : bool :=
  match s with
  | EmptyString => true
  | String c s' =>
      match digit_value c with
      | Some _ => all_digits s'
      | None => false
      end
  end.

(** The number that the decimal digits of [s] write after the digits
    that gave [acc]. *)
Fixpoint digits_number (s : string) (acc : Z) : Z :=
  match s with
  | EmptyString => acc
  | String c s' => digits_number s' (10 * acc + default 0 (digit_value c))
  end.

End Report.

(** * Properties *)

Import Py Openpyxl Run Common Spec.

(** ** The built-ins on examples, with the results of CPython *)

Example split_examples :
  split "." "14.03 18:30" = ["14"; "03 18:30"]
  /\ split " " "03 18:30" = ["03"; "18:30"]
  /\ split "." "a..b" = ["a"; ""; "b"]
  /\ split " " "" = [""].
Proof. repeat split. Qed.

Example str_examples :
  map str [VNone; VStr "x"; VInt 0; VInt 7; VInt (-12); VBool true; VBool false]
  = ["None"; "x"; "0"; "7"; "-12"; "True"; "False"].
Proof. reflexivity. Qed.

Example int_accepts :
  map (int 4300) ["5"; " 5"; "5 "; "+5"; "-5"; "1_0"; "007"; "0_7"]
  = [Ok 5; Ok 5; Ok 5; Ok 5; Ok (-5); Ok 10; Ok 7; Ok 7].
Proof. reflexivity. Qed.

Example int_refuses :
  map (int 4300)
      ["+ 5"; "_1"; "1_"; "1__0"; ""; "+"; "abc"; "0x5"; "5.0"; "--5";
       "1e3"; tab_date]
  = repeat (Raise ValueError) 12.
Proof. reflexivity. Qed.

Example int_digit_limit :
  int 4300 (replicate_char 4301 "1") = Raise ValueError
  /\ int 4300 (replicate_char 4300 "0") = Ok 0
  /\ int 0 (replicate_char 4301 "0") = Ok 0.
Proof. repeat split; vm_compute; reflexivity. Qed.

(** ** Strings *)

Lemma split_first sep s :
  exists rest, split sep s = take_until (fun c => Ascii.eqb c sep) s :: rest.
Proof.
  induction s as [|c s [rest IH]]; simpl.
  - by exists [].
  - destruct (Ascii.eqb c sep); [by eexists|].
    rewrite IH. by eexists.
Qed.

Lemma getitem_head {A} (x : A) (l : list A) : getitem (x :: l) 0 = Ok x.
Proof.
  unfold getitem. simpl length.
  replace (0 <? 0) with false by reflexivity. cbv iota.
  destruct (Z.ltb_spec 0 0); [lia|].
  destruct (Z.leb_spec (Z.of_nat (S (length l))) 0); [lia|].
  reflexivity.
Qed.

Lemma take_until_twice s :
  take_until (fun c => Ascii.eqb c " ") (take_until (fun c => Ascii.eqb c ".") s)
  = leading_token s.
Proof.
  unfold leading_token. induction s as [|c s IH]; simpl; [done|].
  destruct (Ascii.eqb c "."); simpl; [done|].
  destruct (Ascii.eqb c " "); simpl; [done|]. by rewrite IH.
Qed.

(** The expression under [try] reads the leading token and nothing
    else. *)
Lemma day_of_leading_token max_str_digits s :
  day_of max_str_digits s = int max_str_digits (leading_token s).
Proof.
  unfold day_of.
  destruct (split_first "." s) as [r1 ->]. rewrite getitem_head. simpl rbind.
  destruct (split_first " " (take_until (fun c => Ascii.eqb c ".") s)) as [r2 ->].
  rewrite getitem_head. simpl rbind. by rewrite take_until_twice.
Qed.

(** ** Worksheets: reading a cell changes neither data nor last row *)

Lemma max_row_insert (t : string) (m : gmap (Z * Z) value) (k : Z * Z) (v : value) :
  m !! k = None ->
  max_row (Worksheet t (<[k := v]> m)) = Z.max k.1 (max_row (Worksheet t m)).
Proof.
  intros Hk. unfold max_row. simpl.
  apply (map_fold_insert_L (fun (k : Z * Z) (_ : value) acc => Z.max k.1 acc));
    [|done].
  intros. lia.
Qed.

Lemma max_row_ge_1 w : 1 <= max_row w.
Proof.
  unfold max_row.
  apply (map_fold_weak_ind (fun r (_ : gmap (Z * Z) value) => 1 <= r)).
  - lia.
  - intros. lia.
Qed.

Lemma value_at_touch row column w r c :
  value_at (touch row column w) r c = value_at w r c.
Proof.
  unfold touch, value_at.
  destruct (cells w !! (row, column)) eqn:E; [done|]. simpl.
  destruct (decide ((row, column) = (r, c))) as [<-|Hne].
  - by rewrite lookup_insert_eq, E.
  - by rewrite lookup_insert_ne.
Qed.

Lemma title_touch row column w : title (touch row column w) = title w.
Proof. unfold touch. by destruct (cells w !! (row, column)). Qed.

Lemma max_row_touch row column w :
  row <= max_row w -> max_row (touch row column w) = max_row w.
Proof.
  intros Hr. unfold touch.
  destruct (cells w !! (row, column)) eqn:E; [done|].
  rewrite max_row_insert by done. destruct w; simpl in *. lia.
Qed.

Lemma cell_touch row column w :
  1 <= row -> 1 <= column ->
  cell row column w = Ok (value_at w row column, touch row column w).
Proof.
  intros Hr Hc. unfold cell, touch, value_at.
  replace (row <? 1) with false by (symmetry; apply Z.ltb_ge; lia).
  replace (column <? 1) with false by (symmetry; apply Z.ltb_ge; lia).
  simpl. by destruct (cells w !! (row, column)).
Qed.

Lemma same_data_refl w : same_data w w.
Proof. by repeat split. Qed.

Lemma same_data_trans w1 w2 w3 :
  same_data w1 w2 -> same_data w2 w3 -> same_data w1 w3.
Proof.
  intros (? & ? & H1) (? & ? & H2). repeat split; try congruence.
Qed.

Lemma same_data_touch w row column :
  row <= max_row w -> same_data w (touch row column w).
Proof.
  intros. repeat split.
  - by rewrite title_touch.
  - by rewrite max_row_touch.
  - intros. by rewrite value_at_touch.
Qed.

Lemma same_data_touch_r w0 w row column :
  same_data w0 w -> row <= max_row w0 -> same_data w0 (touch row column w).
Proof.
  intros Hs Hr. eapply same_data_trans; [done|].
  apply same_data_touch. destruct Hs as (_ & <- & _). done.
Qed.

(** ** Rules for statements that do not raise *)

Section Steady.
Context (w0 : worksheet).

Lemma steady_ret {A} (a : A) (Q : A -> list line -> Prop) :
  Q a [] -> steady w0 (mret a) Q.
Proof. intros HQ w Hw. by exists a, w, []. Qed.

Lemma steady_bind {A B} (m : M A) (k : A -> M B) Q1 (Q : B -> list line -> Prop) :
  steady w0 m Q1 ->
  (forall a printed, Q1 a printed ->
     steady w0 (k a) (fun b printed' => Q b (printed ++ printed'))) ->
  steady w0 (m ≫= k) Q.
Proof.
  intros Hm Hk w Hw.
  destruct (Hm w Hw) as (a & w1 & o1 & E1 & Hw1 & HQ1).
  destruct (Hk a o1 HQ1 w1 Hw1) as (b & w2 & o2 & E2 & Hw2 & HQ).
  exists b, w2, (o1 ++ o2). split; [|done].
  unfold mbind, M_bind, bind. by rewrite E1, E2.
Qed.

Lemma steady_weaken {A} (m : M A) (Q Q' : A -> list line -> Prop) :
  steady w0 m Q -> (forall a printed, Q a printed -> Q' a printed) ->
  steady w0 m Q'.
Proof.
  intros Hm HQ w Hw. destruct (Hm w Hw) as (a & w1 & o1 & E1 & Hw1 & HQ1).
  exists a, w1, o1. auto.
Qed.

Lemma steady_print {B} l (k : unit -> M B) (Q : B -> list line -> Prop) :
  steady w0 (k tt) (fun b printed => Q b (l :: printed)) ->
  steady w0 (print l ≫= k) Q.
Proof.
  intros Hk.
  eapply (steady_bind _ _ (fun _ o => o = [l])); [|intros [] o ->; exact Hk].
  intros w Hw. by exists tt, w, [l].
Qed.

Lemma steady_cell {B} row column (k : value -> M B) (Q : B -> list line -> Prop) :
  1 <= row <= max_row w0 -> 1 <= column ->
  steady w0 (k (value_at w0 row column)) Q ->
  steady w0 (cell_value row column ≫= k) Q.
Proof.
  intros Hr Hc Hk.
  eapply (steady_bind _ _ (fun v o => v = value_at w0 row column /\ o = []));
    [|by intros a o [-> ->]].
  intros w Hw. exists (value_at w0 row column), (touch row column w), [].
  unfold cell_value. rewrite cell_touch by lia.
  destruct Hw as (Ht & Hm & Hv). rewrite <- Hv.
  repeat split; try done.
  - by rewrite title_touch.
  - rewrite max_row_touch; [done|]. lia.
  - intros. by rewrite value_at_touch.
Qed.

Lemma steady_max_row {B} (k : Z -> M B) (Q : B -> list line -> Prop) :
  steady w0 (k (max_row w0)) Q -> steady w0 (get_max_row ≫= k) Q.
Proof.
  intros Hk.
  eapply (steady_bind _ _ (fun r o => r = max_row w0 /\ o = []));
    [|by intros a o [-> ->]].
  intros w Hw. exists (max_row w), w, [].
  destruct Hw as (Ht & Hm & Hv). by rewrite Hm.
Qed.

Lemma steady_max_column {B} (k : Z -> M B) (Q : B -> list line -> Prop) :
  (forall c, steady w0 (k c) Q) -> steady w0 (get_max_column ≫= k) Q.
Proof.
  intros Hk.
  eapply (steady_bind _ _ (fun r o => o = [])); [|intros a o ->; apply Hk].
  intros w Hw. by exists (max_column w), w, [].
Qed.

Lemma steady_dimensions {B} (k : Z * Z * Z * Z -> M B) (Q : B -> list line -> Prop) :
  (forall d, steady w0 (k d) Q) -> steady w0 (get_dimensions ≫= k) Q.
Proof.
  intros Hk.
  eapply (steady_bind _ _ (fun r o => o = [])); [|intros a o ->; apply Hk].
  intros w Hw. by exists (dimensions w), w, [].
Qed.

Lemma steady_title {B} (k : string -> M B) (Q : B -> list line -> Prop) :
  steady w0 (k (title w0)) Q -> steady w0 (get_title ≫= k) Q.
Proof.
  intros Hk.
  eapply (steady_bind _ _ (fun r o => r = title w0 /\ o = []));
    [|by intros a o [-> ->]].
  intros w Hw. exists (title w), w, [].
  destruct Hw as (Ht & Hm & Hv). by rewrite Ht.
Qed.

Lemma steady_lift {A B} (r : result A) a (k : A -> M B) (Q : B -> list line -> Prop) :
  r = Ok a -> steady w0 (k a) Q -> steady w0 (lift r ≫= k) Q.
Proof.
  intros -> Hk.
  eapply (steady_bind _ _ (fun x o => x = a /\ o = []));
    [|by intros ? o [-> ->]].
  intros w Hw. by exists a, w, [].
Qed.

(** A loop: [Inv done acc printed] holds when the elements [done] have
    been handled, with the local variables [acc] and the lines printed
    by the loop so far. *)
Lemma steady_for_each {A B} (Inv : list A -> B -> list line -> Prop)
    (xs : list A) (acc : B) (body : B -> A -> M B) :
  Inv [] acc [] ->
  (forall done x rest acc' printed,
     xs = done ++ x :: rest -> Inv done acc' printed ->
     steady w0 (body acc' x)
       (fun acc'' printed' => Inv (done ++ [x]) acc'' (printed ++ printed'))) ->
  steady w0 (for_each xs acc body) (Inv xs).
Proof.
  intros H0 Hstep.
  enough (forall rest done acc' printed,
    xs = done ++ rest -> Inv done acc' printed ->
    steady w0 (for_each rest acc' body)
      (fun acc'' printed' => Inv xs acc'' (printed ++ printed'))) as Hgen.
  { eapply steady_weaken; [apply (Hgen xs [] acc []); done|]. by intros. }
  induction rest as [|x rest IH]; intros done acc' printed Hxs HI.
  - simpl. apply steady_ret. rewrite !app_nil_r in *. by subst.
  - simpl. change (bind ?m ?k) with (m ≫= k).
    eapply steady_bind; [by eapply Hstep|].
    intros acc'' printed' HI'. simpl in HI'.
    eapply steady_weaken.
    { apply (IH (done ++ [x]) acc'' (printed ++ printed')); [|done].
      by rewrite <- app_assoc. }
    intros ? ?. by rewrite app_assoc.
Qed.

End Steady.

(** ** The loop that counts today's matches *)

Lemma elem_of_range a b x : x ∈ range a b -> a <= x < b.
Proof.
  unfold range. intros Hx. apply list_elem_of_In, in_map_iff in Hx.
  destruct Hx as (i & <- & Hi%in_seq). lia.
Qed.

Lemma range_nil a b : b <= a -> range a b = [].
Proof. intros. unfold range. by replace (Z.to_nat (b - a)) with 0%nat by lia. Qed.

Lemma value_at_touch_rows column rows w r c :
  value_at (touch_rows column rows w) r c = value_at w r c.
Proof.
  unfold touch_rows. revert w.
  induction rows as [|row rows IH]; intros w; simpl; [done|].
  by rewrite IH, value_at_touch.
Qed.

Section TodayLoop.
Variables (max_str_digits current_day : Z).

(** One row: the count goes up by one exactly for a counted value, the
    statement never raises and prints nothing. *)
Lemma count_row_spec today_count row w :
  1 <= row ->
  count_row max_str_digits current_day today_count row w
  = (Ok (today_count +
         (if counted max_str_digits current_day (value_at w row 5)
          then 1 else 0)),
     touch row 5 w, []).
Proof.
  intros Hrow. unfold count_row, mbind, M_bind, bind, cell_value.
  rewrite cell_touch by lia. unfold counted.
  destruct (truthy (value_at w row 5)); simpl.
  - unfold try_except, mbind, M_bind, bind, lift.
    rewrite day_of_leading_token.
    destruct (int max_str_digits (leading_token (str (value_at w row 5))))
      as [day|e]; simpl.
    + destruct (day =? current_day); simpl; do 2 f_equal; f_equal; lia.
    + do 2 f_equal. f_equal. lia.
  - do 2 f_equal. f_equal. lia.
Qed.

Lemma count_rows_spec rows today_count w :
  Forall (fun row => 1 <= row) rows ->
  for_each rows today_count (count_row max_str_digits current_day) w
  = (Ok (today_count +
         tally (counted max_str_digits current_day)
           (map (fun row => value_at w row 5) rows)),
     touch_rows 5 rows w, []).
Proof.
  revert today_count w.
  induction rows as [|row rows IH]; intros n w Hrows; simpl.
  - unfold ret. do 2 f_equal. f_equal. lia.
  - apply Forall_cons in Hrows as [Hrow Hrows].
    unfold bind. rewrite count_row_spec by done. rewrite IH by done. simpl.
    do 2 f_equal. f_equal.
    rewrite (map_ext _ (fun row0 => value_at w row0 5)); [lia|].
    intros. apply value_at_touch.
Qed.

(** The whole loop returns the number of counted values in column 5 of
    the data rows; it never raises. *)
Lemma count_today_spec w :
  count_today max_str_digits current_day w
  = (Ok (tally (counted max_str_digits current_day) (data_column w 5)),
     touch_rows 5 (range 2 (max_row w + 1)) w, []).
Proof.
  unfold count_today, mbind, M_bind, bind, get_max_row.
  rewrite count_rows_spec.
  - done.
  - apply Forall_forall. intros x Hx%elem_of_range. lia.
Qed.

End TodayLoop.

(** ** The date heuristic *)

Lemma int_empty max_str_digits : int max_str_digits "" = Raise ValueError.
Proof. reflexivity. Qed.

Lemma counted_text max_str_digits current_day s :
  counted max_str_digits current_day (VStr s) = true
  <-> int max_str_digits (leading_token s) = Ok current_day.
Proof.
  unfold counted. simpl str. simpl truthy. split.
  - intros [_ H]%andb_prop.
    destruct (int max_str_digits (leading_token s)) as [day|]; [|done].
    apply Z.eqb_eq in H. by subst.
  - intros H. rewrite H, Z.eqb_refl, andb_true_r.
    destruct s; [|done]. by rewrite int_empty in H.
Qed.

(** C1, the claim as the specification words it, fails: with a tab
    between day and month the script does not count the row on day 5,
    although splitting on white space yields the token "5", which
    reads as day 5. *)
Lemma C1_tab_not_counted :
  (count_row 4300 5 0 2 (one_date 2 (VStr tab_date))).1.1 = Ok 0
  /\ int 4300 (token_as_specified tab_date) = Ok 5.
Proof. split; reflexivity. Qed.

(** C1, amended: for every cell value of the date column the loop body
    does not raise, and it counts the row exactly when the value is true
    in a condition and [int] reads the leading token of its text, the
    part before the first full stop or blank (a tab or a line break
    does not end the token), as the current day of the month.  For a
    text cell the first condition follows from the second.  On day 5
    the text "5.03" is counted; "15.03", "" and "abc" are not. *)
Theorem C1_matches_today max_str_digits current_day today_count row w :
  1 <= row ->
  (count_row max_str_digits current_day today_count row w).1.1
    = Ok (today_count +
          (if counted max_str_digits current_day (value_at w row 5)
           then 1 else 0))
  /\ (forall s,
        counted max_str_digits current_day (VStr s) = true
        <-> int max_str_digits (leading_token s) = Ok current_day)
  /\ (count_row max_str_digits 5 today_count row (one_date row (VStr "5.03"))).1.1
       = Ok (today_count + 1)
  /\ (count_row max_str_digits 5 today_count row (one_date row (VStr "15.03"))).1.1
       = Ok today_count
  /\ (count_row max_str_digits 5 today_count row (one_date row (VStr ""))).1.1
       = Ok today_count
  /\ (count_row max_str_digits 5 today_count row (one_date row (VStr "abc"))).1.1
       = Ok today_count.
Proof.
  intros Hrow.
  assert (Hone : forall v, value_at (one_date row v) row 5 = v).
  { intros v. unfold value_at, one_date. simpl. by rewrite lookup_singleton_eq. }
  split; [by rewrite count_row_spec|].
  split; [apply counted_text|].
  rewrite !count_row_spec by done. rewrite !Hone. simpl.
  repeat split; f_equal; lia.
Qed.

Lemma C1_matches_today_witness :
  1 <= 2
  /\ (count_row 4300 14 0 2 (one_date 2 (VStr "14.03 18:30"))).1.1 = Ok 1.
Proof.
  assert (H : 1 <= 2) by lia. split; [exact H|].
  exact (proj1 (C1_matches_today 4300 14 0 2
                  (one_date 2 (VStr "14.03 18:30")) H)).
Defined.

Lemma tally_bounds p vs : 0 <= tally p vs <= Z.of_nat (length vs).
Proof.
  induction vs as [|v vs IH]; simpl; [lia|]. destruct (p v); lia.
Qed.

Lemma length_range a b : Z.of_nat (length (range a b)) = Z.max 0 (b - a).
Proof. unfold range. rewrite length_map, length_seq. lia. Qed.

(** C4: a cell of the date column that cannot be read as a day (an
    empty cell, an empty text, a text whose leading token [int] refuses)
    leaves the count as it is, and nothing is raised: the loop body
    finishes normally for every cell value and every count, and so does
    the whole loop on every worksheet, with a count between 0 and the
    number of data rows. *)
Theorem C4_parse_failures_swallowed max_str_digits current_day today_count row w :
  1 <= row ->
  (exists today_count' w',
     count_row max_str_digits current_day today_count row w
     = (Ok today_count', w', [])
     /\ (today_count' = today_count \/ today_count' = today_count + 1)
     /\ (value_at w row 5 = VNone
         \/ truthy (value_at w row 5) = false
         \/ (exists e, day_of max_str_digits (str (value_at w row 5)) = Raise e)
         -> today_count' = today_count))
  /\ (exists total w',
        count_today max_str_digits current_day w = (Ok total, w', [])
        /\ 0 <= total <= max_row w - 1)
  /\ day_of max_str_digits "abc" = Raise ValueError
  /\ day_of max_str_digits "" = Raise ValueError
  /\ day_of max_str_digits "2024-03-05 18:30:00" = Raise ValueError.
Proof.
  intros Hrow. split; [|split].
  - eexists _, _. split; [by apply count_row_spec|].
    split; [destruct (counted _ _ _); lia|].
    unfold counted. intros [->|[->|[e He]]]; simpl; try lia.
    rewrite day_of_leading_token in He. rewrite He.
    rewrite andb_false_r. lia.
  - eexists _, _. split; [apply count_today_spec|].
    pose proof (tally_bounds (counted max_str_digits current_day)
                  (data_column w 5)) as Hb.
    unfold data_column in Hb. rewrite length_map, length_range in Hb.
    pose proof (max_row_ge_1 w). unfold data_column. lia.
  - repeat split; reflexivity.
Qed.

Lemma C4_parse_failures_swallowed_witness :
  1 <= 2
  /\ exists w',
       count_row 4300 5 7 2 (one_date 2 (VStr "abc")) = (Ok 7, w', []).
Proof.
  assert (H : 1 <= 2) by lia. split; [exact H|].
  destruct (proj1 (C4_parse_failures_swallowed 4300 5 7 2
                     (one_date 2 (VStr "abc")) H))
    as (n' & w' & E & _ & Hkeep).
  exists w'. rewrite E. rewrite Hkeep; [reflexivity|].
  right. right. exists ValueError. reflexivity.
Defined.

(** ** Only the day of the month is compared *)

Lemma take_until_app stop token c rest :
  (forall x, In x (list_ascii_of_string token) -> stop x = false) ->
  stop c = true ->
  take_until stop (token +:+ String c rest) = token.
Proof.
  intros Htok Hc. induction token as [|x token IH]; simpl.
  - by rewrite Hc.
  - rewrite (Htok x) by (simpl; auto). rewrite IH; [done|].
    intros y Hy. apply Htok. simpl. auto.
Qed.

(** C8: two date texts whose leading tokens read as the same day are
    classified alike on every day, whatever follows the token, and such
    a text is counted exactly on that day of the month; whatever stands
    after the separator that ends the token (month, year, time) plays no
    part. *)
Theorem C8_day_of_month_only max_str_digits current_day day n1 n2 row1 row2 w1 w2 s1 s2 :
  1 <= row1 -> 1 <= row2 ->
  value_at w1 row1 5 = VStr s1 -> value_at w2 row2 5 = VStr s2 ->
  day_of max_str_digits s1 = Ok day ->
  day_of max_str_digits s2 = Ok day ->
  ((count_row max_str_digits current_day n1 row1 w1).1.1 = Ok (n1 + 1)
   <-> (count_row max_str_digits current_day n2 row2 w2).1.1 = Ok (n2 + 1))
  /\ ((count_row max_str_digits current_day n1 row1 w1).1.1 = Ok (n1 + 1)
      <-> day = current_day)
  /\ (forall token sep rest,
        (forall x, In x (list_ascii_of_string token) ->
                   Ascii.eqb x "." || Ascii.eqb x " " = false) ->
        sep = "."%char \/ sep = " "%char ->
        day_of max_str_digits (token +:+ String sep rest)
        = int max_str_digits token).
Proof.
  intros Hr1 Hr2 Hv1 Hv2 Hd1 Hd2.
  assert (Hcount : forall n row w s,
            1 <= row -> value_at w row 5 = VStr s ->
            day_of max_str_digits s = Ok day ->
            (count_row max_str_digits current_day n row w).1.1 = Ok (n + 1)
            <-> day = current_day).
  { intros n row w s Hr Hv Hd. rewrite count_row_spec by done. simpl.
    rewrite Hv. rewrite day_of_leading_token in Hd.
    destruct (counted max_str_digits current_day (VStr s)) eqn:E.
    - apply counted_text in E. split; [congruence|done].
    - split.
      + intros [=]. lia.
      + intros <-. apply counted_text in Hd. congruence. }
  split; [|split].
  - rewrite (Hcount n1 row1 w1 s1), (Hcount n2 row2 w2 s2); done.
  - by apply (Hcount n1 row1 w1 s1).
  - intros token sep rest Htok Hsep. rewrite day_of_leading_token.
    unfold leading_token. rewrite take_until_app; [done|done|].
    by destruct Hsep as [-> | ->].
Qed.

Lemma C8_day_of_month_only_witness :
  1 <= 2 /\ 1 <= 9
  /\ day_of 4300 "14.03 18:30" = Ok 14
  /\ day_of 4300 "14.11.2031" = Ok 14
  /\ ((count_row 4300 14 0 2 (one_date 2 (VStr "14.03 18:30"))).1.1
      = Ok (0 + 1)
      <-> (count_row 4300 14 3 9 (one_date 9 (VStr "14.11.2031"))).1.1
          = Ok (3 + 1)).
Proof.
  assert (H2 : 1 <= 2) by lia. assert (H9 : 1 <= 9) by lia.
  assert (D1 : day_of 4300 "14.03 18:30" = Ok 14) by reflexivity.
  assert (D2 : day_of 4300 "14.11.2031" = Ok 14) by reflexivity.
  split; [exact H2|]. split; [exact H9|].
  split; [exact D1|]. split; [exact D2|].
  exact (proj1 (C8_day_of_month_only 4300 14 14 0 3 2 9
                  (one_date 2 (VStr "14.03 18:30"))
                  (one_date 9 (VStr "14.11.2031"))
                  "14.03 18:30" "14.11.2031" H2 H9 eq_refl eq_refl D1 D2)).
Defined.

(** ** The phases of the scripts *)

Lemma steady_print_last w0 l (Q : unit -> list line -> Prop) :
  Q tt [l] -> steady w0 (print l) Q.
Proof. intros HQ w Hw. by exists tt, w, [l]. Qed.

Lemma steady_ret_bind {A B} w0 (a : A) (k : A -> M B)
    (Q : B -> list line -> Prop) :
  steady w0 (k a) Q -> steady w0 (mret a ≫= k) Q.
Proof.
  intros Hk.
  eapply (steady_bind _ _ _ (fun x o => x = a /\ o = []));
    [by apply steady_ret|by intros ? o [-> ->]].
Qed.

Lemma steady_lift_last {A} w0 (r : result A) a :
  r = Ok a -> steady w0 (lift r) (fun x printed => x = a /\ printed = []).
Proof. intros -> w Hw. by exists a, w, []. Qed.

Lemma steady_max_row_last w0 :
  steady w0 get_max_row (fun r printed => r = max_row w0 /\ printed = []).
Proof.
  intros w Hw. exists (max_row w), w, [].
  destruct Hw as (Ht & Hm & Hv). by rewrite Hm.
Qed.

Lemma aborts_first {A B} w0 (m : M A) (k : A -> M B) e Q :
  aborts w0 m e Q -> aborts w0 (m ≫= k) e Q.
Proof.
  intros Hm w Hw. destruct (Hm w Hw) as (w' & o & E & HQ).
  exists w', o. split; [|done]. unfold mbind, M_bind, bind. by rewrite E.
Qed.

Lemma aborts_after {A B} w0 (m : M A) (k : A -> M B) e Q1 Q :
  steady w0 m Q1 ->
  (forall a printed, Q1 a printed ->
     aborts w0 (k a) e (fun printed' => Q (printed ++ printed'))) ->
  aborts w0 (m ≫= k) e Q.
Proof.
  intros Hm Hk w Hw.
  destruct (Hm w Hw) as (a & w1 & o1 & E1 & Hw1 & HQ1).
  destruct (Hk a o1 HQ1 w1 Hw1) as (w2 & o2 & E2 & HQ).
  exists w2, (o1 ++ o2). split; [|done].
  unfold mbind, M_bind, bind. by rewrite E1, E2.
Qed.

Lemma aborts_print {B} w0 l (k : unit -> M B) e Q :
  aborts w0 (k tt) e (fun printed => Q (l :: printed)) ->
  aborts w0 (print l ≫= k) e Q.
Proof.
  intros Hk.
  eapply (aborts_after _ _ _ _ (fun _ o => o = [l]));
    [by apply steady_print_last|]. intros [] ? ->. exact Hk.
Qed.

Lemma header_or_ok headers col fallback :
  1 <= col ->
  header_or headers (col - 1) fallback = Ok (header_at headers col fallback).
Proof.
  intros Hcol. unfold header_or, header_at, getitem.
  destruct (Z.ltb_spec (col - 1) (Z.of_nat (length headers))) as [Hlt|Hge].
  - replace (col - 1 <? 0) with false by (symmetry; apply Z.ltb_ge; lia).
    replace (col - 1 <? 0) with false by (symmetry; apply Z.ltb_ge; lia).
    replace (Z.of_nat (length headers) <=? col - 1) with false
      by (symmetry; apply Z.leb_gt; lia).
    simpl. destruct (lookup_lt_is_Some_2 headers (Z.to_nat (col - 1)))
      as [h Hh]; [lia|]. by rewrite Hh.
  - rewrite (proj2 (lookup_ge_None headers (Z.to_nat (col - 1)))); [done|lia].
Qed.

Ltac steady_step :=
  lazymatch goal with
  | |- steady _ (print _ ≫= _) _ => apply steady_print
  | |- steady _ (print _) _ => apply steady_print_last
  | |- steady _ (get_max_row ≫= _) _ => apply steady_max_row
  | |- steady _ (get_max_column ≫= _) _ => apply steady_max_column; intros ?
  | |- steady _ (get_dimensions ≫= _) _ => apply steady_dimensions; intros ?
  | |- steady _ (get_title ≫= _) _ => apply steady_title
  | |- steady _ (lift (header_or _ _ _) ≫= _) _ =>
      eapply steady_lift; [apply header_or_ok; lia|]
  | |- steady _ (cell_value _ _ ≫= _) _ => apply steady_cell; [lia|lia|]
  | |- steady _ (mret _ ≫= _) _ => apply steady_ret_bind
  | |- steady _ (mret _) _ => apply steady_ret
  end.

Lemma sorted_items_excel :
  sorted_items ExamineExcel.column_mapping
  = [ (2, "HomeTeam"); (3, "AwayTeam"); (4, "League"); (5, "Date/Time");
      (6, "HomeWin"); (7, "Draw"); (8, "AwayWin"); (18, "OverTwoGoals");
      (22, "OverThreeGoals"); (24, "OverFourGoals"); (34, "UnderTwoGoals");
      (38, "UnderThreeGoals") ].
Proof. vm_compute. reflexivity. Qed.

Lemma sorted_items_soccer :
  sorted_items ExamineSoccer.column_mapping
  = [ (2, "HomeTeam"); (3, "AwayTeam"); (4, "League"); (5, "Date/Time");
      (6, "HomeWin (1x2_h)"); (7, "Draw (1x2_d)"); (8, "AwayWin (1x2_a)");
      (18, "OverTwoGoals (o_2.5)"); (22, "OverThreeGoals (o_3)");
      (24, "OverFourGoals (o_4)"); (34, "UnderTwoGoals (u_2.5)");
      (38, "UnderThreeGoals (u_3)") ].
Proof. vm_compute. reflexivity. Qed.

(** The loop over the mapping, as both scripts write it. *)
Lemma mapping_loop_steady w0 headers fallback (items : list (Z * string)) :
  Forall (fun item => 1 <= item.1) items ->
  steady w0
    (for_each items tt (fun _ item =>
       let '(col_num, field_name) := item in
       header ← lift (header_or headers (col_num - 1) (VStr fallback));
       r ← get_max_row;
       sample_val ← (if 2 <=? r then cell_value 2 col_num
                     else mret (VStr "N/A"));
       print (MappingLine col_num field_name header sample_val)))
    (fun _ printed => printed = map (mapping_line headers w0 fallback) items).
Proof.
  intros Hitems.
  apply (steady_for_each w0
           (fun done _ printed =>
              printed = map (mapping_line headers w0 fallback) done)); [done|].
  intros done [col_num field_name] rest [] printed Hsplit ->.
  assert (1 <= col_num) as Hcol.
  { rewrite Hsplit in Hitems. apply Forall_app in Hitems as [_ H].
    by apply Forall_cons in H as [H _]. }
  repeat steady_step.
  unfold mapping_line. simpl.
  pose proof (max_row_ge_1 w0).
  destruct (Z.leb_spec 2 (max_row w0)); repeat steady_step;
    by rewrite map_app.
Qed.

Lemma max_row_touch_rows column rows w :
  Forall (fun row => row <= max_row w) rows ->
  max_row (touch_rows column rows w) = max_row w.
Proof.
  unfold touch_rows. revert w.
  induction rows as [|row rows IH]; intros w Hrows; simpl; [done|].
  apply Forall_cons in Hrows as [Hrow Hrows].
  rewrite IH; rewrite max_row_touch; done.
Qed.

Lemma title_touch_rows column rows w :
  title (touch_rows column rows w) = title w.
Proof.
  unfold touch_rows. revert w.
  induction rows as [|row rows IH]; intros w; simpl; [done|].
  by rewrite IH, title_touch.
Qed.

Lemma same_data_touch_rows w column :
  same_data w (touch_rows column (range 2 (max_row w + 1)) w).
Proof.
  repeat split.
  - by rewrite title_touch_rows.
  - rewrite max_row_touch_rows; [done|].
    apply Forall_forall. intros x Hx%elem_of_range. lia.
  - intros. by rewrite value_at_touch_rows.
Qed.

Lemma data_column_same w0 w column :
  same_data w0 w -> data_column w column = data_column w0 column.
Proof.
  intros (_ & Hm & Hv). unfold data_column. rewrite <- Hm.
  apply map_ext. intros. by rewrite Hv.
Qed.

(** The loop that counts today's matches, as a steady statement. *)
Lemma count_today_steady {B} w0 max_str_digits current_day
    (k : Z -> M B) (Q : B -> list line -> Prop) :
  steady w0
    (k (tally (counted max_str_digits current_day) (data_column w0 5))) Q ->
  steady w0 (count_today max_str_digits current_day ≫= k) Q.
Proof.
  intros Hk.
  eapply (steady_bind _ _ _
            (fun n o => n = tally (counted max_str_digits current_day)
                              (data_column w0 5) /\ o = []));
    [|by intros ? o [-> ->]].
  intros w Hw. eexists _, _, _. split; [apply count_today_spec|].
  split; [|by rewrite (data_column_same w0 w)].
  eapply same_data_trans; [done|apply same_data_touch_rows].
Qed.

Section ExcelPhases.
Variables (max_str_digits current_day : Z) (w0 : worksheet).

Lemma excel_read_headers_steady :
  steady w0 ExamineExcel.read_headers (fun _ _ => True).
Proof.
  unfold ExamineExcel.read_headers. repeat steady_step.
  apply (steady_for_each w0 (fun _ _ _ => True)); [done|].
  intros done col rest headers printed Hsplit _.
  assert (col ∈ range 1 (Z.min (c + 1) 50)) as Hcol%elem_of_range.
  { rewrite Hsplit. apply elem_of_app. right. apply list_elem_of_here. }
  pose proof (max_row_ge_1 w0). by repeat steady_step.
Qed.

Lemma excel_sample_data_steady headers :
  steady w0 (ExamineExcel.sample_data headers) (fun _ _ => True).
Proof.
  unfold ExamineExcel.sample_data. repeat steady_step.
  apply (steady_for_each w0 (fun _ _ _ => True)); [done|].
  intros done row rest [] printed Hsplit _.
  assert (row ∈ range 2 (Z.min (max_row w0 + 1) 7)) as Hrow%elem_of_range.
  { rewrite Hsplit. apply elem_of_app. right. apply list_elem_of_here. }
  repeat steady_step.
  apply (steady_for_each w0 (fun _ _ _ => True)); [done|].
  intros done' col rest' [] printed' Hsplit' _.
  assert (col ∈ range 1 (Z.min (c + 1) 30)) as Hcol%elem_of_range.
  { rewrite Hsplit'. apply elem_of_app. right. apply list_elem_of_here. }
  repeat steady_step.
  destruct (negb (is_none (value_at w0 row col)) &&
            strip_nonempty (str (value_at w0 row col)));
    by repeat steady_step.
Qed.

Lemma excel_report_mapping_steady headers :
  steady w0 (ExamineExcel.report_mapping headers)
    (fun _ printed =>
       printed =
       [ Banner "COLUMNS USED BY ExtractFromExcel.cs:"; Rule;
         Banner "Mapping from C# code (ExtractFromExcel.cs):" ]
       ++ map (mapping_line headers w0 "N/A")
            (sorted_items ExamineExcel.column_mapping)).
Proof.
  unfold ExamineExcel.report_mapping. repeat steady_step.
  eapply steady_weaken.
  - apply mapping_loop_steady. rewrite sorted_items_excel.
    repeat constructor; simpl; lia.
  - by intros ? ? ->.
Qed.

Lemma excel_statistics_spec w :
  ExamineExcel.statistics max_str_digits current_day w
  = (Ok tt, touch_rows 5 (range 2 (max_row w + 1)) w,
     [ Banner "DATA STATISTICS:"; Rule; TotalRows (max_row w - 1);
       TodayMatches current_day
         (tally (counted max_str_digits current_day) (data_column w 5));
       TotalMatches (max_row w - 1) ]).
Proof.
  unfold ExamineExcel.statistics, mbind, M_bind, bind, print, get_max_row.
  by rewrite count_today_spec.
Qed.

Lemma excel_statistics_steady :
  steady w0 (ExamineExcel.statistics max_str_digits current_day)
    (fun _ _ => True).
Proof.
  intros w Hw. eexists _, _, _. split; [apply excel_statistics_spec|].
  split; [|done].
  eapply same_data_trans; [done|apply same_data_touch_rows].
Qed.

(** The inspection of a worksheet by examine_excel.py never raises. *)
Lemma excel_inspect_steady file_path :
  steady w0 (ExamineExcel.inspect max_str_digits current_day file_path)
    (fun _ _ => True).
Proof.
  unfold ExamineExcel.inspect. repeat steady_step.
  eapply steady_bind; [apply excel_read_headers_steady|]. intros headers ? _.
  eapply steady_bind; [apply excel_sample_data_steady|]. intros [] ? _.
  eapply steady_bind; [apply excel_report_mapping_steady|]. intros [] ? _.
  eapply steady_weaken; [apply excel_statistics_steady|done].
Qed.

End ExcelPhases.

Lemma tally_snoc p vs v :
  tally p (vs ++ [v]) = tally p vs + (if p v then 1 else 0).
Proof. induction vs as [|x vs IH]; simpl; [|rewrite IH]; lia. Qed.

Section SoccerPhases.
Variables (max_str_digits current_day : Z) (w0 : worksheet).

Lemma soccer_read_headers_steady :
  steady w0 ExamineSoccer.read_headers (fun _ _ => True).
Proof.
  unfold ExamineSoccer.read_headers. repeat steady_step.
  apply (steady_for_each w0 (fun _ _ _ => True)); [done|].
  intros done col rest headers printed Hsplit _.
  assert (col ∈ range 1 (c + 1)) as Hcol%elem_of_range.
  { rewrite Hsplit. apply elem_of_app. right. apply list_elem_of_here. }
  pose proof (max_row_ge_1 w0). by repeat steady_step.
Qed.

Lemma soccer_report_mapping_steady headers :
  steady w0 (ExamineSoccer.report_mapping headers)
    (fun _ printed =>
       printed =
       [ Banner "COLUMNS USED BY C# CODE (ExtractFromExcel.cs):"; Rule ]
       ++ map (mapping_line headers w0 "OUT OF RANGE")
            (sorted_items ExamineSoccer.column_mapping)).
Proof.
  unfold ExamineSoccer.report_mapping. repeat steady_step.
  eapply steady_weaken.
  - apply mapping_loop_steady. rewrite sorted_items_soccer.
    repeat constructor; simpl; lia.
  - by intros ? ? ->.
Qed.

Lemma soccer_sample_rows_steady headers :
  steady w0 (ExamineSoccer.sample_rows headers) (fun _ _ => True).
Proof.
  unfold ExamineSoccer.sample_rows. repeat steady_step.
  apply (steady_for_each w0 (fun _ _ _ => True)); [done|].
  intros done row rest [] printed Hsplit _.
  assert (row ∈ range 2 (Z.min (max_row w0 + 1) 5)) as Hrow%elem_of_range.
  { rewrite Hsplit. apply elem_of_app. right. apply list_elem_of_here. }
  repeat steady_step.
  apply (steady_for_each w0 (fun _ _ _ => True)); [done|].
  intros done' col rest' [] printed' Hsplit' _.
  assert (1 <= col) as Hcol.
  { assert (Forall (fun col => 1 <= col) ExamineSoccer.key_cols) as Hall
      by (repeat constructor; lia).
    rewrite Hsplit' in Hall. apply Forall_app in Hall as [_ Hall].
    by apply Forall_cons in Hall as [? _]. }
  repeat steady_step.
  destruct (col <=? c); by repeat steady_step.
Qed.

Lemma soccer_statistics_spec w :
  ExamineSoccer.statistics max_str_digits current_day w
  = (Ok tt, touch_rows 5 (range 2 (max_row w + 1)) w,
     [ Banner "STATISTICS:"; Rule; TotalMatches (max_row w - 1);
       TodayMatches current_day
         (tally (counted max_str_digits current_day) (data_column w 5)) ]).
Proof.
  unfold ExamineSoccer.statistics, mbind, M_bind, bind, print, get_max_row.
  rewrite count_today_spec. simpl.
  destruct (same_data_touch_rows w 5) as (_ & <- & _). done.
Qed.

Lemma soccer_statistics_steady :
  steady w0 (ExamineSoccer.statistics max_str_digits current_day)
    (fun _ _ => True).
Proof.
  intros w Hw. eexists _, _, _. split; [apply soccer_statistics_spec|].
  split; [|done].
  eapply same_data_trans; [done|apply same_data_touch_rows].
Qed.

(** The generator expression of line 86 counts the empty cells of the
    column among the data rows. *)
Lemma count_nulls_steady col_num :
  1 <= col_num ->
  steady w0 (ExamineSoccer.count_nulls col_num)
    (fun n printed => n = nulls w0 col_num /\ printed = []).
Proof.
  intros Hcol. unfold ExamineSoccer.count_nulls. steady_step.
  eapply steady_weaken.
  - apply (steady_for_each w0
             (fun done total printed =>
                total = tally is_none
                          (map (fun row => value_at w0 row col_num) done)
                /\ printed = [])); [done|].
    intros done row rest total printed Hsplit [-> ->].
    assert (row ∈ range 2 (max_row w0 + 1)) as Hrow%elem_of_range.
    { rewrite Hsplit. apply elem_of_app. right. apply list_elem_of_here. }
    repeat steady_step. split; [|done].
    rewrite map_app. simpl map. rewrite tally_snoc.
    destruct (is_none (value_at w0 row col_num)); lia.
  - by intros ? ? [-> ->].
Qed.

(** The data-quality report on a sheet with at least one data row: one
    line for each of the six columns, and one assignment to
    [null_counts]. *)
Lemma data_quality_steady headers :
  2 <= max_row w0 ->
  steady w0 (ExamineSoccer.data_quality headers)
    (fun results printed =>
       results = map (fun col => (quality_name headers col, nulls w0 col))
                   ExamineSoccer.quality_cols
       /\ printed = [ Banner "DATA QUALITY ANALYSIS:"; Rule ]
                    ++ map (null_line headers w0) ExamineSoccer.quality_cols).
Proof.
  intros Hrows. unfold ExamineSoccer.data_quality. repeat steady_step.
  eapply steady_weaken.
  - apply (steady_for_each w0
             (fun done results printed =>
                results = map (fun col => (quality_name headers col,
                                           nulls w0 col)) done
                /\ printed = map (null_line headers w0) done));
      [done|].
    intros done col_num rest null_counts printed Hsplit [-> ->].
    assert (1 <= col_num) as Hcol.
    { assert (Forall (fun col => 1 <= col) ExamineSoccer.quality_cols) as Hall
        by (repeat constructor; lia).
      rewrite Hsplit in Hall. apply Forall_app in Hall as [_ Hall].
      by apply Forall_cons in Hall as [? _]. }
    eapply steady_bind; [by apply count_nulls_steady|].
    intros ? ? [-> ->]. repeat steady_step.
    eapply steady_lift.
    { unfold PyFloat.truediv.
      by replace (max_row w0 - 1 =? 0) with false
        by (symmetry; apply Z.eqb_neq; lia). }
    repeat steady_step. by rewrite !map_app.
  - by intros ? ? [-> ->].
Qed.

(** On a sheet that has only the header row the first division of the
    data-quality report raises [ZeroDivisionError], after the heading
    and before any line of the report. *)
Lemma data_quality_header_only headers :
  max_row w0 = 1 ->
  aborts w0 (ExamineSoccer.data_quality headers) ZeroDivisionError
    (fun printed => printed = [ Banner "DATA QUALITY ANALYSIS:"; Rule ]).
Proof.
  intros Hrows. unfold ExamineSoccer.data_quality, ExamineSoccer.quality_cols.
  apply aborts_print, aborts_print. cbn [for_each].
  change (bind ?m ?k) with (m ≫= k). apply aborts_first.
  eapply aborts_after; [apply count_nulls_steady; lia|].
  intros n ? [-> ->].
  eapply aborts_after; [apply steady_lift_last, header_or_ok; lia|].
  intros h ? [-> ->].
  eapply aborts_after; [apply steady_max_row_last|].
  intros r ? [-> ->]. rewrite Hrows.
  intros w Hw. by exists w, [].
Qed.

Lemma conclusion_steady :
  steady w0 ExamineSoccer.conclusion (fun _ _ => True).
Proof. unfold ExamineSoccer.conclusion. by repeat steady_step. Qed.

End SoccerPhases.

(** ** The column mapping *)

Ltac mapping_case col k :=
  destruct (Z.eqb_spec col k) as [->|?];
  [reflexivity|rewrite (lookup_insert_ne _ k col) by done].

Ltac mapping_cases col :=
  mapping_case col 2; mapping_case col 3; mapping_case col 4;
  mapping_case col 5; mapping_case col 6; mapping_case col 7;
  mapping_case col 8; mapping_case col 18; mapping_case col 22;
  mapping_case col 24; mapping_case col 34; mapping_case col 38.

Lemma excel_mapping_lookup col :
  ExamineExcel.column_mapping !! col = excel_name <$> documented_field col.
Proof.
  unfold ExamineExcel.column_mapping, documented_field. simpl list_to_map.
  by mapping_cases col.
Qed.

Lemma soccer_mapping_lookup col :
  ExamineSoccer.column_mapping !! col = soccer_name <$> documented_field col.
Proof.
  unfold ExamineSoccer.column_mapping, documented_field. simpl list_to_map.
  by mapping_cases col.
Qed.

Lemma elem_of_sorted_items (d : gmap Z string) col name :
  (col, name) ∈ sorted_items d <-> d !! col = Some name.
Proof.
  unfold sorted_items. rewrite merge_sort_Permutation.
  apply elem_of_map_to_list.
Qed.

(** C2: in both scripts that report the mapping the table sends a
    column index to the name of the field that the specification
    documents for it and has no other entry: columns 2 to 5 are home
    team, away team, league and kick-off date and time, 6 to 8 the
    home-win, draw and away-win probabilities, 18, 22 and 24 the over
    2.5, over 3 and over 4 probabilities, 34 and 38 the under 2.5 and
    under 3 probabilities; and the report of each script shows these
    twelve entries in the order of the columns. *)
Theorem C2_column_mapping col headers w :
  ExamineExcel.column_mapping !! col = excel_name <$> documented_field col
  /\ ExamineSoccer.column_mapping !! col = soccer_name <$> documented_field col
  /\ map documented_field [2; 3; 4; 5; 6; 7; 8; 18; 22; 24; 34; 38]
     = map Some [ HomeTeam; AwayTeam; League; KickoffDateTime;
                  HomeWinProbability; DrawProbability; AwayWinProbability;
                  Over2_5; Over3; Over4; Under2_5; Under3 ]
  /\ (exists w',
        ExamineExcel.report_mapping headers w
        = (Ok tt, w',
           [ Banner "COLUMNS USED BY ExtractFromExcel.cs:"; Rule;
             Banner "Mapping from C# code (ExtractFromExcel.cs):" ]
           ++ map (mapping_line headers w "N/A")
                [ (2, "HomeTeam"); (3, "AwayTeam"); (4, "League");
                  (5, "Date/Time"); (6, "HomeWin"); (7, "Draw");
                  (8, "AwayWin"); (18, "OverTwoGoals");
                  (22, "OverThreeGoals"); (24, "OverFourGoals");
                  (34, "UnderTwoGoals"); (38, "UnderThreeGoals") ]))
  /\ (exists w',
        ExamineSoccer.report_mapping headers w
        = (Ok tt, w',
           [ Banner "COLUMNS USED BY C# CODE (ExtractFromExcel.cs):"; Rule ]
           ++ map (mapping_line headers w "OUT OF RANGE")
                [ (2, "HomeTeam"); (3, "AwayTeam"); (4, "League");
                  (5, "Date/Time"); (6, "HomeWin (1x2_h)");
                  (7, "Draw (1x2_d)"); (8, "AwayWin (1x2_a)");
                  (18, "OverTwoGoals (o_2.5)"); (22, "OverThreeGoals (o_3)");
                  (24, "OverFourGoals (o_4)"); (34, "UnderTwoGoals (u_2.5)");
                  (38, "UnderThreeGoals (u_3)") ])).
Proof.
  split; [apply excel_mapping_lookup|].
  split; [apply soccer_mapping_lookup|].
  split; [reflexivity|]. split.
  - destruct (excel_report_mapping_steady w headers w (same_data_refl w))
      as ([] & w' & printed & E & _ & ->).
    exists w'. by rewrite E, sorted_items_excel.
  - destruct (soccer_report_mapping_steady w headers w (same_data_refl w))
      as ([] & w' & printed & E & _ & ->).
    exists w'. by rewrite E, sorted_items_soccer.
Qed.

(** C3: for every column index the mapping report of examine_excel.py
    finishes without raising.  An index of the table appears in it
    once, with the documented field name; an index that is not in the
    table has no field (the lookup finds nothing) and no line of the
    report mentions it. *)
Theorem C3_unmapped_columns_ignored col headers w :
  exists w' printed,
    ExamineExcel.report_mapping headers w = (Ok tt, w', printed)
    /\ match documented_field col with
       | Some f =>
           ExamineExcel.column_mapping !! col = Some (excel_name f)
           /\ mapping_line headers w "N/A" (col, excel_name f) ∈ printed
           /\ (forall name header sample,
                 MappingLine col name header sample ∈ printed ->
                 name = excel_name f)
       | None =>
           ExamineExcel.column_mapping !! col = None
           /\ (forall name header sample,
                 MappingLine col name header sample ∉ printed)
       end.
Proof.
  destruct (excel_report_mapping_steady w headers w (same_data_refl w))
    as ([] & w' & printed & E & _ & ->).
  eexists w', _. split; [exact E|].
  assert (Hin : forall name header sample,
    MappingLine col name header sample
      ∈ [ Banner "COLUMNS USED BY ExtractFromExcel.cs:"; Rule;
          Banner "Mapping from C# code (ExtractFromExcel.cs):" ]
        ++ map (mapping_line headers w "N/A")
             (sorted_items ExamineExcel.column_mapping) ->
    ExamineExcel.column_mapping !! col = Some name).
  { intros name header sample [Hb|Hm]%elem_of_app.
    - apply list_elem_of_In in Hb. simpl in Hb. intuition discriminate.
    - apply list_elem_of_In, in_map_iff in Hm as ([c n] & Hline & Hitem).
      injection Hline as -> -> _ _.
      by apply elem_of_sorted_items, list_elem_of_In. }
  pose proof (excel_mapping_lookup col) as Hl.
  destruct (documented_field col) as [f|]; simpl in Hl.
  - split; [done|]. split.
    + apply elem_of_app. right. apply list_elem_of_In, in_map.
      by apply list_elem_of_In, elem_of_sorted_items.
    + intros name header sample Hline%Hin. congruence.
  - split; [done|]. intros name header sample Hline%Hin. congruence.
Qed.

(** ** Whole runs *)

Lemma steady_pure_last {A} w0 (f : worksheet -> A) :
  steady w0 (fun w => (Ok (f w), w, [])) (fun _ printed => printed = []).
Proof. intros w Hw. by exists (f w), w, []. Qed.

Section SoccerRun.
Variables (max_str_digits current_day : Z) (w0 : worksheet).

(** With only a header row the script gets as far as the data-quality
    report and ends there with [ZeroDivisionError]. *)
Lemma soccer_inspect_aborts :
  max_row w0 = 1 ->
  aborts w0 (ExamineSoccer.inspect max_str_digits current_day)
    ZeroDivisionError (fun _ => True).
Proof.
  intros Hrows. unfold ExamineSoccer.inspect.
  apply aborts_print, aborts_print.
  eapply aborts_after; [apply (steady_pure_last w0 dimensions)|]. intros d ? _.
  apply aborts_print.
  eapply aborts_after; [apply steady_max_row_last|]. intros r ? _.
  eapply aborts_after; [apply (steady_pure_last w0 max_column)|]. intros c ? _.
  apply aborts_print.
  eapply aborts_after; [apply soccer_read_headers_steady|]. intros headers ? _.
  eapply aborts_after; [apply soccer_report_mapping_steady|]. intros [] ? _.
  eapply aborts_after; [apply soccer_sample_rows_steady|]. intros [] ? _.
  eapply aborts_after; [apply soccer_statistics_steady|]. intros [] ? _.
  apply aborts_first.
  intros w Hw.
  destruct (data_quality_header_only w0 headers Hrows w Hw)
    as (w' & o & E & _).
  by exists w', o.
Qed.

(** With at least one data row the script runs to its end, and its
    output contains the data-quality report of the sheet. *)
Lemma soccer_inspect_steady :
  2 <= max_row w0 ->
  steady w0 (ExamineSoccer.inspect max_str_digits current_day)
    (fun _ printed =>
       exists before headers after,
         printed = before
                   ++ ([ Banner "DATA QUALITY ANALYSIS:"; Rule ]
                       ++ map (null_line headers w0) ExamineSoccer.quality_cols)
                   ++ after).
Proof.
  intros Hrows. unfold ExamineSoccer.inspect. repeat steady_step.
  eapply steady_bind; [apply soccer_read_headers_steady|].
  intros headers o2 _.
  eapply steady_bind; [apply soccer_report_mapping_steady|]. intros [] o3 _.
  eapply steady_bind; [apply soccer_sample_rows_steady|]. intros [] o4 _.
  eapply steady_bind; [apply soccer_statistics_steady|]. intros [] o5 _.
  eapply steady_bind; [by apply data_quality_steady|]. intros ? o6 [_ ->].
  eapply steady_weaken; [apply conclusion_steady|].
  intros [] o7 _.
  exists ([ Banner "SOCCER WORKSHEET ANALYSIS"; Rule; Dimensions d;
            Extent (max_row w0) c ] ++ o2 ++ o3 ++ o4 ++ o5), headers, o7.
  rewrite <- !app_assoc. reflexivity.
Qed.

End SoccerRun.

(** ** Two runs on different days *)

Lemma without_today_app o1 o2 :
  without_today (o1 ++ o2) = without_today o1 ++ without_today o2.
Proof. apply List.filter_app. Qed.

Lemma reported_headers_without_today o :
  reported_headers (without_today o) = reported_headers o.
Proof.
  induction o as [|l o IH]; [done|].
  destruct l; simpl; rewrite ?IH; done.
Qed.

Lemma reported_counts_without_today o :
  reported_counts (without_today o) = reported_counts o.
Proof.
  induction o as [|l o IH]; [done|].
  destruct l; simpl; rewrite ?IH; done.
Qed.

Lemma day_blind_refl {A} (m : M A) : day_blind m m.
Proof. by intros w. Qed.

Lemma day_blind_bind {A B} (m1 m2 : M A) (k1 k2 : A -> M B) :
  day_blind m1 m2 -> (forall a, day_blind (k1 a) (k2 a)) ->
  day_blind (m1 ≫= k1) (m2 ≫= k2).
Proof.
  intros Hm Hk w. unfold mbind, M_bind, bind.
  destruct (Hm w) as [Hr Ho].
  destruct (m1 w) as [[r1 w1] o1], (m2 w) as [[r2 w2] o2].
  simpl in Hr, Ho. injection Hr as <- <-.
  destruct r1 as [a|e]; [|done].
  destruct (Hk a w1) as [Hr' Ho'].
  destruct (k1 a w1) as [[r1' w1'] o1'], (k2 a w1) as [[r2' w2'] o2'].
  simpl in *. split; [done|]. by rewrite !without_today_app, Ho, Ho'.
Qed.

Ltac day_blind_prefix :=
  repeat (apply day_blind_bind; [apply day_blind_refl|intros ?]).

Section TwoDays.
Variables (max_str_digits day1 day2 : Z).

Lemma excel_inspect_day_blind file_path :
  day_blind (ExamineExcel.inspect max_str_digits day1 file_path)
            (ExamineExcel.inspect max_str_digits day2 file_path).
Proof.
  unfold ExamineExcel.inspect. day_blind_prefix.
  intros w. unfold mbind, M_bind, bind. by rewrite !count_today_spec.
Qed.

Lemma soccer_inspect_day_blind :
  day_blind (ExamineSoccer.inspect max_str_digits day1)
            (ExamineSoccer.inspect max_str_digits day2).
Proof.
  unfold ExamineSoccer.inspect. day_blind_prefix.
  apply day_blind_bind; [|intros; apply day_blind_refl].
  intros w. by rewrite !soccer_statistics_spec.
Qed.

Lemma with_sheet_day_blind {A} sheet printed (m1 m2 : M A) :
  day_blind m1 m2 ->
  (with_sheet sheet printed m1).1 = (with_sheet sheet printed m2).1
  /\ without_today (with_sheet sheet printed m1).2
     = without_today (with_sheet sheet printed m2).2.
Proof.
  intros Hm. unfold with_sheet. destruct (Hm sheet) as [Hr Ho].
  destruct (m1 sheet) as [[r1 w1] o1], (m2 sheet) as [[r2 w2] o2].
  simpl in *. injection Hr as <- <-.
  split; [done|]. by rewrite !without_today_app, Ho.
Qed.

Lemma excel_guarded_same_but_today fs file_path printed :
  same_but_today
    (ExamineExcel.guarded_examine max_str_digits day1 fs file_path printed)
    (ExamineExcel.guarded_examine max_str_digits day2 fs file_path printed).
Proof.
  unfold ExamineExcel.guarded_examine, ExamineExcel.examine_excel.
  destruct (load_workbook fs file_path) as [wb|e]; [|done].
  destruct (active wb) as [ws|name]; [|done].
  destruct (with_sheet_day_blind ws printed _ _
              (excel_inspect_day_blind file_path)) as [Hr Ho].
  destruct (with_sheet _ _ (ExamineExcel.inspect _ day1 _)) as [r1 o1],
           (with_sheet _ _ (ExamineExcel.inspect _ day2 _)) as [r2 o2].
  simpl in *. subst r2. destruct r1; repeat split; simpl; try done.
  by rewrite !without_today_app, Ho.
Qed.

Lemma excel_main_same_but_today script_dir fs :
  same_but_today (ExamineExcel.main max_str_digits day1 script_dir fs)
                 (ExamineExcel.main max_str_digits day2 script_dir fs).
Proof.
  unfold ExamineExcel.main.
  destruct (exists_ fs _); [apply excel_guarded_same_but_today|].
  destruct (ExamineExcel.first_existing fs _);
    [apply excel_guarded_same_but_today|done].
Qed.

Lemma soccer_script_same_but_today fs :
  same_but_today (ExamineSoccer.script max_str_digits day1 fs)
                 (ExamineSoccer.script max_str_digits day2 fs).
Proof.
  unfold ExamineSoccer.script.
  destruct (load_workbook fs _) as [wb|e]; [|done].
  destruct (wb_getitem wb "soccer") as [[ws|name]|e]; [|done|done].
  destruct (with_sheet_day_blind ws [] _ _ soccer_inspect_day_blind)
    as [Hr Ho].
  destruct (with_sheet _ _ (ExamineSoccer.inspect _ day1)) as [r1 o1],
           (with_sheet _ _ (ExamineSoccer.inspect _ day2)) as [r2 o2].
  simpl in *. subst r2. by destruct r1.
Qed.

End TwoDays.

(** C7, the claim as the specification words it, fails: the count of
    today's matches depends on the day of the run.  The same file,
    inspected on the 5th and on the 6th, gives the counts 1 and 0. *)
Lemma C7_count_changes_with_day :
  today_counts (stdout (ExamineSoccer.script 4300 5 two_matches_files)) = [1]
  /\ today_counts (stdout (ExamineSoccer.script 4300 6 two_matches_files)) = [0]
  /\ today_counts (stdout (ExamineExcel.main 4300 5 [] two_matches_files)) = [1]
  /\ today_counts (stdout (ExamineExcel.main 4300 6 [] two_matches_files)) = [0].
Proof. repeat split; vm_compute; reflexivity. Qed.

(** C7, amended: two inspections of an unchanged file, by either
    script, end with the same exit code, open the same file and report
    the same headers, the same row counts and the same counts of empty
    cells, on whatever days they run; they print the same lines but for
    the line on today's matches, whose count is that of the date cells
    counted for the day of the run.  Two runs on the same day of the
    month therefore agree in everything. *)
Theorem C7_idempotent_but_for_today max_str_digits day1 day2 script_dir fs w :
  let e1 := ExamineExcel.main max_str_digits day1 script_dir fs in
  let e2 := ExamineExcel.main max_str_digits day2 script_dir fs in
  let s1 := ExamineSoccer.script max_str_digits day1 fs in
  let s2 := ExamineSoccer.script max_str_digits day2 fs in
  (same_but_today e1 e2
   /\ reported_headers (stdout e1) = reported_headers (stdout e2)
   /\ reported_counts (stdout e1) = reported_counts (stdout e2))
  /\ (same_but_today s1 s2
      /\ reported_headers (stdout s1) = reported_headers (stdout s2)
      /\ reported_counts (stdout s1) = reported_counts (stdout s2))
  /\ today_counts (ExamineExcel.statistics max_str_digits day1 w).2
     = [tally (counted max_str_digits day1) (data_column w 5)]
  /\ today_counts (ExamineSoccer.statistics max_str_digits day1 w).2
     = [tally (counted max_str_digits day1) (data_column w 5)]
  /\ (day1 = day2 -> e1 = e2 /\ s1 = s2).
Proof.
  intros e1 e2 s1 s2.
  pose proof (excel_main_same_but_today max_str_digits day1 day2 script_dir fs)
    as He.
  pose proof (soccer_script_same_but_today max_str_digits day1 day2 fs) as Hs.
  fold e1 e2 in He. fold s1 s2 in Hs.
  refine (conj (conj He (conj _ _))
            (conj (conj Hs (conj _ _)) (conj _ (conj _ _)))).
  - rewrite <- reported_headers_without_today, (proj1 He).
    apply reported_headers_without_today.
  - rewrite <- reported_counts_without_today, (proj1 He).
    apply reported_counts_without_today.
  - rewrite <- reported_headers_without_today, (proj1 Hs).
    apply reported_headers_without_today.
  - rewrite <- reported_counts_without_today, (proj1 Hs).
    apply reported_counts_without_today.
  - by rewrite excel_statistics_spec.
  - by rewrite soccer_statistics_spec.
  - subst e1 e2 s1 s2. by intros ->.
Qed.

Lemma C7_idempotent_but_for_today_witness :
  5 = 5
  /\ ExamineSoccer.script 4300 5 two_matches_files
     = ExamineSoccer.script 4300 5 two_matches_files.
Proof.
  split; [reflexivity|].
  destruct (C7_idempotent_but_for_today 4300 5 5 [] two_matches_files
              two_matches) as (_ & _ & _ & _ & Hsame).
  exact (proj2 (Hsame eq_refl)).
Defined.

(** ** Exit codes *)

Lemma excel_guarded_examine_spec max_str_digits current_day fs file_path printed :
  let o := ExamineExcel.guarded_examine max_str_digits current_day fs
             file_path printed in
  opened o = [file_path]
  /\ match load_workbook fs file_path with
     | Ok wb =>
         match active wb with
         | Sheet _ => exit_code o = 0 /\ stderr o = []
         | Chartsheet name =>
             exit_code o = 1 /\ stderr o = [Traceback AttributeError]
             /\ stdout o
                = printed
                  ++ [FileAnalysis file_path; Rule; WorksheetName name]
                  ++ [ErrorExamining AttributeError]
         end
     | Raise e =>
         exit_code o = 1 /\ stderr o = [Traceback e]
         /\ stdout o = printed ++ [ErrorExamining e]
     end.
Proof.
  unfold ExamineExcel.guarded_examine, ExamineExcel.examine_excel.
  destruct (load_workbook fs file_path) as [wb|e]; [|done].
  destruct (active wb) as [ws|name].
  - destruct (excel_inspect_steady max_str_digits current_day ws
                file_path ws (same_data_refl _))
      as ([] & w' & o & E & _).
    unfold with_sheet. by rewrite E.
  - simpl. by rewrite <- app_assoc.
Qed.

Lemma exists_lookup (fs : files) p :
  exists_ fs p = match fs !! p with Some _ => true | None => false end.
Proof.
  unfold exists_. destruct (fs !! p) as [r|].
  - apply bool_decide_eq_true. by exists r.
  - apply bool_decide_eq_false. by intros [r Hr].
Qed.

Lemma load_workbook_lookup (fs : files) p r :
  fs !! p = Some r -> load_workbook fs p = r.
Proof. unfold load_workbook. by intros ->. Qed.

Lemma ends_as_guarded max_str_digits current_day fs file_path printed r :
  fs !! file_path = Some r ->
  ends_as
    (ExamineExcel.guarded_examine max_str_digits current_day fs file_path
       printed)
    file_path r.
Proof.
  intros Hr.
  destruct (excel_guarded_examine_spec max_str_digits current_day fs
              file_path printed) as [Ho Hl].
  rewrite (load_workbook_lookup fs file_path r Hr) in Hl.
  split; [done|]. destruct r as [wb|e]; [|tauto].
  destruct (active wb); tauto.
Qed.

(** C6, the claim as the specification words it, fails: a file that is
    found and parsed does not always end the run with code 0.  When the
    active sheet of the workbook is a chart sheet, the inspection prints
    the name of the sheet, [ws.dimensions] raises [AttributeError], the
    handler prints its message and the traceback, and the exit code
    is 1. *)
Lemma C6_chart_sheet_exits_1 :
  load_workbook chart_files ["Resources"; "predictions.xlsx"]
  = Ok chart_workbook
  /\ ExamineExcel.main 4300 5 [] chart_files
     = Outcome
         [ FileAnalysis ["Resources"; "predictions.xlsx"]; Rule;
           WorksheetName "chart"; ErrorExamining AttributeError ]
         [Traceback AttributeError]
         [["Resources"; "predictions.xlsx"]] 1.
Proof. split; reflexivity. Qed.

(** C6, amended: with [primary] the path next to the script, [web] the
    path under MatchPredictor.Web and [local] the path under the working
    directory: when none of the three exists, the process prints the two
    lines of the diagnostic and nothing else, hands no file to
    [load_workbook] and exits with code 1.  Otherwise it opens the first
    of the three that exists, in this order, and that one only; it exits
    with code 0, with nothing on the error stream, when that file is a
    workbook whose active sheet is a worksheet, and with code 1 after
    the traceback when the file is no workbook or the active sheet is a
    chart sheet. *)
Theorem C6_exit_codes max_str_digits current_day script_dir fs :
  let primary := script_dir ++ ["Resources"; "predictions.xlsx"] in
  let web :=
    script_dir ++ ["MatchPredictor.Web"; "Resources"; "predictions.xlsx"] in
  let local := ["Resources"; "predictions.xlsx"] in
  let o := ExamineExcel.main max_str_digits current_day script_dir fs in
  (fs !! primary = None -> fs !! web = None -> fs !! local = None ->
   o = Outcome [ FileNotFoundAt primary;
                 Banner "Looking for alternative paths..." ] [] [] 1)
  /\ (forall r, fs !! primary = Some r -> ends_as o primary r)
  /\ (forall r,
        fs !! primary = None -> fs !! web = Some r -> ends_as o web r)
  /\ (forall r,
        fs !! primary = None -> fs !! web = None -> fs !! local = Some r ->
        ends_as o local r).
Proof.
  intros primary web local o. subst o.
  unfold ExamineExcel.main, ExamineExcel.alt_paths, ExamineExcel.primary_path.
  fold primary web local. cbn [ExamineExcel.first_existing].
  rewrite !exists_lookup.
  split; [|split; [|split]].
  - by intros -> -> ->.
  - intros r Hr. rewrite Hr. by apply ends_as_guarded.
  - intros r -> Hr. rewrite Hr. by apply ends_as_guarded.
  - intros r -> -> Hr. rewrite Hr. by apply ends_as_guarded.
Qed.

Lemma C6_exit_codes_witness :
  two_matches_files !! ([] ++ ["Resources"; "predictions.xlsx"])
  = Some (Ok (Workbook [two_matches] [] (Sheet two_matches)))
  /\ exit_code (ExamineExcel.main 4300 5 [] two_matches_files) = 0.
Proof.
  assert (H : two_matches_files !! ([] ++ ["Resources"; "predictions.xlsx"])
              = Some (Ok (Workbook [two_matches] [] (Sheet two_matches))))
    by reflexivity.
  split; [exact H|].
  destruct (C6_exit_codes 4300 5 [] two_matches_files) as (_ & Hfound & _).
  exact (proj1 (proj2 (Hfound _ H))).
Defined.

(** ** The sheet named soccer *)

Lemma find_sheet_none name sheets :
  Forall (fun sheet => title sheet <> name) sheets ->
  find_sheet name sheets = Raise KeyError.
Proof.
  induction 1 as [|sheet sheets Hne _ IH]; simpl; [done|].
  by rewrite (proj2 (String.eqb_neq _ _) Hne).
Qed.

Lemma find_sheet_some name sheets sheet :
  find_sheet name sheets = Ok sheet -> sheet ∈ sheets /\ title sheet = name.
Proof.
  induction sheets as [|s sheets IH]; simpl; [done|].
  destruct (String.eqb_spec (title s) name) as [Heq|Hne].
  - intros [= ->]. split; [apply list_elem_of_here|done].
  - intros [Hin Ht]%IH. split; [by apply list_elem_of_further|done].
Qed.

Lemma no_chartsheet name names :
  Forall (fun name' => name' <> name) names ->
  existsb (String.eqb name) names = false.
Proof.
  induction 1 as [|name' names Hne _ IH]; simpl; [done|].
  rewrite IH, orb_false_r. apply String.eqb_neq. congruence.
Qed.

Lemma some_chartsheet name names :
  existsb (String.eqb name) names = true -> name ∈ names.
Proof.
  induction names as [|name' names IH]; simpl; [done|].
  destruct (String.eqb_spec name name') as [->|Hne]; simpl.
  - intros _. apply list_elem_of_here.
  - intros Hin. apply list_elem_of_further. by apply IH.
Qed.

(** C9: when the workbook has no sheet whose title is exactly "soccer",
    be it a worksheet or a chart sheet, examine_soccer.py ends with
    [KeyError] before it prints anything, and the exit code is 1; a
    sheet whose title differs in case does not count, and when the
    script gets past the lookup it is holding a sheet of the workbook
    with that title. *)
Theorem C9_soccer_sheet_required max_str_digits current_day fs wb :
  load_workbook fs ExamineSoccer.workbook_path = Ok wb ->
  (Forall (fun sheet => title sheet <> "soccer") (worksheets wb) ->
   Forall (fun name => name <> "soccer") (chartsheets wb) ->
   wb_getitem wb "soccer" = Raise KeyError
   /\ ExamineSoccer.script max_str_digits current_day fs
      = Outcome [] [Traceback KeyError] [ExamineSoccer.workbook_path] 1)
  /\ (forall sheet,
        wb_getitem wb "soccer" = Ok sheet ->
        sheet_title sheet = "soccer"
        /\ match sheet with
           | Sheet ws => ws ∈ worksheets wb
           | Chartsheet name => name ∈ chartsheets wb
           end)
  /\ wb_getitem
       (Workbook [Worksheet "Soccer" ∅] [] (Sheet (Worksheet "Soccer" ∅)))
       "soccer"
     = Raise KeyError.
Proof.
  intros Hload. split; [|split; [|reflexivity]].
  - intros Hnone Hcharts.
    assert (wb_getitem wb "soccer" = Raise KeyError) as Hget.
    { unfold wb_getitem.
      by rewrite find_sheet_none, no_chartsheet by done. }
    split; [done|]. unfold ExamineSoccer.script. by rewrite Hload, Hget.
  - intros sheet. unfold wb_getitem.
    destruct (find_sheet "soccer" (worksheets wb)) as [ws|e] eqn:Hfind.
    + intros [= <-]. apply find_sheet_some in Hfind as [Hin Ht]. done.
    + destruct (existsb (String.eqb "soccer") (chartsheets wb)) eqn:Hc;
        [|discriminate].
      intros [= <-]. split; [done|]. by apply some_chartsheet.
Qed.

Lemma C9_soccer_sheet_required_witness :
  ExamineSoccer.script 4300 5
    {[ ExamineSoccer.workbook_path :=
         Ok (Workbook [Worksheet "tennis" ∅] ["chart"]
               (Sheet (Worksheet "tennis" ∅))) ]}
  = Outcome [] [Traceback KeyError] [ExamineSoccer.workbook_path] 1.
Proof.
  refine (proj2 (proj1 (C9_soccer_sheet_required 4300 5
            {[ ExamineSoccer.workbook_path :=
                 Ok (Workbook [Worksheet "tennis" ∅] ["chart"]
                       (Sheet (Worksheet "tennis" ∅))) ]}
            (Workbook [Worksheet "tennis" ∅] ["chart"]
               (Sheet (Worksheet "tennis" ∅))) _) _ _)).
  - reflexivity.
  - repeat constructor. discriminate.
  - repeat constructor. discriminate.
Defined.

(** ** Division by the number of data rows *)

(** C10: the data-quality report divides each count of empty cells by
    [max_row - 1].  On a sheet with at least one data row every division
    is defined and the report runs to its end.  On a sheet that has only
    the header row the divisor is 0: the first division raises
    [ZeroDivisionError] after the heading of the report, and the script,
    which has printed everything up to there, ends with that error and
    exit code 1. *)
Theorem C10_header_only_sheet_aborts max_str_digits current_day headers w fs wb :
  (forall n m, m <> 0 -> exists x, PyFloat.truediv n m = Ok x)
  /\ (forall n, PyFloat.truediv n 0 = Raise ZeroDivisionError)
  /\ (2 <= max_row w ->
      exists results w' printed,
        ExamineSoccer.data_quality headers w = (Ok results, w', printed))
  /\ (max_row w = 1 ->
      exists w',
        ExamineSoccer.data_quality headers w
        = (Raise ZeroDivisionError, w',
           [ Banner "DATA QUALITY ANALYSIS:"; Rule ]))
  /\ (load_workbook fs ExamineSoccer.workbook_path = Ok wb ->
      wb_getitem wb "soccer" = Ok (Sheet w) ->
      max_row w = 1 ->
      let o := ExamineSoccer.script max_str_digits current_day fs in
      exit_code o = 1 /\ stderr o = [Traceback ZeroDivisionError])
  /\ (load_workbook fs ExamineSoccer.workbook_path = Ok wb ->
      wb_getitem wb "soccer" = Ok (Sheet w) ->
      2 <= max_row w ->
      let o := ExamineSoccer.script max_str_digits current_day fs in
      exit_code o = 0 /\ stderr o = []).
Proof.
  split; [|split; [|split; [|split; [|split]]]].
  - intros n m Hm. unfold PyFloat.truediv.
    rewrite (proj2 (Z.eqb_neq m 0) Hm). by eexists.
  - reflexivity.
  - intros Hrows.
    destruct (data_quality_steady w headers Hrows w (same_data_refl w))
      as (results & w' & printed & E & _). by eexists _, _, _.
  - intros Hrows.
    destruct (data_quality_header_only w headers Hrows w (same_data_refl w))
      as (w' & printed & E & ->). by eexists.
  - intros Hload Hsheet Hrows. unfold ExamineSoccer.script.
    rewrite Hload, Hsheet.
    destruct (soccer_inspect_aborts max_str_digits current_day w Hrows w
                (same_data_refl w)) as (w' & printed & E & _).
    unfold with_sheet. by rewrite E.
  - intros Hload Hsheet Hrows. unfold ExamineSoccer.script.
    rewrite Hload, Hsheet.
    destruct (soccer_inspect_steady max_str_digits current_day w Hrows w
                (same_data_refl w)) as ([] & w' & printed & E & _).
    unfold with_sheet. by rewrite E.
Qed.

Lemma C10_header_only_sheet_aborts_witness :
  max_row header_only = 1
  /\ exit_code (ExamineSoccer.script 4300 5 header_only_files) = 1.
Proof.
  assert (H : max_row header_only = 1) by reflexivity.
  split; [exact H|].
  destruct (C10_header_only_sheet_aborts 4300 5 [] header_only
              header_only_files
              (Workbook [header_only] [] (Sheet header_only)))
    as (_ & _ & _ & _ & Habort & _).
  exact (proj1 (Habort eq_refl eq_refl H)).
Defined.

(** ** Binary64 arithmetic of the percentage

    The quotient [n / m] and its product with 100 are rounded to nearest
    by [SFdiv] and [SFmul]; the lemmas follow the rounding of
    [binary_round_aux] through its shifts. *)

Import PyFloat.

Lemma pow2_step d : 0 < d -> 2 ^ d = 2 * 2 ^ (d - 1).
Proof.
  intros. rewrite <- Z.pow_succ_r by lia. f_equal. lia.
Qed.

Lemma digits2_pos_bounds p :
  2 ^ (Z.pos (digits2_pos p) - 1) <= Z.pos p < 2 ^ Z.pos (digits2_pos p).
Proof.
  induction p as [p IH|p IH|]; simpl digits2_pos.
  - rewrite Pos2Z.inj_succ.
    rewrite (pow2_step (Z.succ _)) by lia.
    replace (Z.succ (Z.pos (digits2_pos p)) - 1) with (Z.pos (digits2_pos p)) by lia.
    rewrite (pow2_step (Z.pos (digits2_pos p))) at 1 by lia. lia.
  - rewrite Pos2Z.inj_succ.
    rewrite (pow2_step (Z.succ _)) by lia.
    replace (Z.succ (Z.pos (digits2_pos p)) - 1) with (Z.pos (digits2_pos p)) by lia.
    rewrite (pow2_step (Z.pos (digits2_pos p))) at 1 by lia. lia.
  - simpl. lia.
Qed.

Lemma digits2_pos_unique p k :
  2 ^ (k - 1) <= Z.pos p < 2 ^ k -> Z.pos (digits2_pos p) = k.
Proof.
  intros [Hlo Hhi]. pose proof (digits2_pos_bounds p) as [Dlo Dhi].
  assert (0 < k).
  { destruct (Z.ltb_spec 0 k); [assumption|]. 
    destruct (Z.eq_dec k 0) as [->|]; [simpl in Hhi; lia|].
    rewrite Z.pow_neg_r in Hhi by lia. lia. }
  destruct (Z.lt_trichotomy (Z.pos (digits2_pos p)) k) as [Hlt|[Heq|Hgt]]; [|assumption|].
  - assert (2 ^ Z.pos (digits2_pos p) <= 2 ^ (k - 1)) by (apply Z.pow_le_mono_r; lia). lia.
  - assert (2 ^ k <= 2 ^ (Z.pos (digits2_pos p) - 1)) by (apply Z.pow_le_mono_r; lia). lia.
Qed.

Lemma div_mod_double a b q r :
  0 < b -> a = q * b + r -> 0 <= r < b ->
  a / (2 * b) = q / 2 /\ a mod (2 * b) = (q mod 2) * b + r.
Proof.
  intros Hb Ha Hr.
  pose proof (Z.div_mod q 2 ltac:(lia)) as Hq.
  pose proof (Z.mod_pos_bound q 2 ltac:(lia)) as Hq2.
  assert (a = (q / 2) * (2 * b) + ((q mod 2) * b + r)) as Hdec by nia.
  assert (0 <= (q mod 2) * b + r < 2 * b) as Hrange by nia.
  split.
  - symmetry. apply (Z.div_unique a (2 * b) (q / 2) ((q mod 2) * b + r)); [lia|lia].
  - symmetry. apply (Z.mod_unique a (2 * b) (q / 2) ((q mod 2) * b + r)); [lia|lia].
Qed.

Lemma shr_1_rc a b : 0 <= a -> 0 < b -> shr_1 (rc a b) = rc a (2 * b).
Proof.
  intros Ha Hb. unfold rc.
  pose proof (Z.div_mod a b ltac:(lia)) as Hdm.
  pose proof (Z.mod_pos_bound a b Hb) as Hr.
  assert (0 <= a / b) as Hq by (apply Z.div_pos; lia).
  destruct (div_mod_double a b (a / b) (a mod b) Hb ltac:(lia) Hr) as [Hd Hm].
  rewrite Hd, Hm.
  set (q := a / b) in *. set (r := a mod b) in *.
  unfold locz.
  destruct q as [|[p|p|]|p]; try lia.
  - (* q = 0 *)
    change (0 mod 2) with 0. change (0 / 2) with 0. rewrite Z.mul_0_l, Z.add_0_l.
    destruct (Z.eqb_spec r 0) as [->|Hr0]; [reflexivity|].
    destruct (Z.compare_spec (2 * r) b), (Z.compare_spec (2 * r) (2 * b));
      try lia; reflexivity.
  - (* q = 2p+1 *)
    replace (Z.pos p~1 / 2) with (Z.pos p) by (apply (Z.div_unique _ 2 _ 1); lia).
    replace (Z.pos p~1 mod 2) with 1 by (apply (Z.mod_unique _ 2 (Z.pos p) 1); lia).
    destruct (Z.eqb_spec (1 * b + r) 0) as [?|_]; [lia|].
    destruct (Z.eqb_spec r 0) as [->|Hr0].
    + simpl. destruct (Z.compare_spec (2 * (1 * b + 0)) (2 * b)); try lia. reflexivity.
    + destruct (Z.compare_spec (2 * r) b), (Z.compare_spec (2 * (1 * b + r)) (2 * b));
        try lia; reflexivity.
  - (* q = 2p *)
    replace (Z.pos p~0 / 2) with (Z.pos p) by (apply (Z.div_unique _ 2 _ 0); lia).
    replace (Z.pos p~0 mod 2) with 0 by (apply (Z.mod_unique _ 2 (Z.pos p) 0); lia).
    rewrite Z.mul_0_l, Z.add_0_l.
    destruct (Z.eqb_spec r 0) as [->|Hr0]; [reflexivity|].
    destruct (Z.compare_spec (2 * r) b), (Z.compare_spec (2 * r) (2 * b));
      try lia; reflexivity.
  - (* q = 1 *)
    change (1 / 2) with 0. change (1 mod 2) with 1.
    destruct (Z.eqb_spec (1 * b + r) 0) as [?|_]; [lia|].
    destruct (Z.eqb_spec r 0) as [->|Hr0].
    + simpl. destruct (Z.compare_spec (2 * (1 * b + 0)) (2 * b)); try lia. reflexivity.
    + destruct (Z.compare_spec (2 * r) b), (Z.compare_spec (2 * (1 * b + r)) (2 * b));
        try lia; reflexivity.
Qed.

Lemma iter_pos_shr_1 p a b :
  0 <= a -> 0 < b ->
  SpecFloat.iter_pos shr_1 p (rc a b) = rc a (b * 2 ^ Z.pos p).
Proof.
  intros Ha. revert b.
  induction p as [p IH|p IH|]; intros b Hb; simpl SpecFloat.iter_pos.
  - rewrite shr_1_rc, IH, IH by lia. f_equal.
    replace (Z.pos p~1) with (Z.pos p + Z.pos p + 1) by lia.
    rewrite !Z.pow_add_r by lia. change (2 ^ 1) with 2. lia.
  - rewrite IH, IH by lia. f_equal.
    replace (Z.pos p~0) with (Z.pos p + Z.pos p) by lia.
    rewrite !Z.pow_add_r by lia. lia.
  - rewrite shr_1_rc by lia. f_equal. change (2 ^ 1) with 2. lia.
Qed.

Lemma shr_rc a b e n :
  0 <= a -> 0 < b -> 0 <= n ->
  shr (rc a b) e n = (rc a (b * 2 ^ n), e + n).
Proof.
  intros Ha Hb Hn. unfold shr. destruct n as [|p|p]; try lia.
  - f_equal; [|lia]. f_equal. change (2 ^ 0) with 1. lia.
  - by rewrite iter_pos_shr_1.
Qed.

Lemma shr_m_rc a b : shr_m (rc a b) = a / b.
Proof. unfold rc, locz. destruct (a mod b =? 0); [done|]. by destruct (2 * (a mod b) ?= b). Qed.

Lemma round_rc a b :
  0 < b ->
  round_nearest_even (shr_m (rc a b)) (loc_of_shr_record (rc a b))
  = round_half_even a b.
Proof.
  intros Hb. rewrite shr_m_rc. unfold rc, locz, round_half_even.
  pose proof (Z.mod_pos_bound a b Hb) as Hr.
  destruct (Z.eqb_spec (a mod b) 0) as [Hz|Hnz].
  - rewrite Hz. change (2 * 0) with 0.
    destruct (Z.compare_spec 0 b); try lia. reflexivity.
  - by destruct (2 * (a mod b) ?= b).
Qed.

Lemma round_half_even_bounds a b :
  0 < b ->
  a / b <= round_half_even a b <= a / b + 1
  /\ Z.abs (2 * b * round_half_even a b - 2 * a) <= b.
Proof.
  intros Hb. unfold round_half_even.
  pose proof (Z.div_mod a b ltac:(lia)) as Hdm.
  pose proof (Z.mod_pos_bound a b Hb) as Hr.
  destruct (Z.compare_spec (2 * (a mod b)) b); [destruct (Z.even (a / b))| |];
    split; nia.
Qed.

Lemma Zdigits2_bounds m :
  0 < m -> 2 ^ (Zdigits2 m - 1) <= m < 2 ^ Zdigits2 m.
Proof. destruct m as [|p|p]; try lia. intros _. apply digits2_pos_bounds. Qed.

Lemma Zdigits2_unique m k : 2 ^ (k - 1) <= m < 2 ^ k -> 0 < m -> Zdigits2 m = k.
Proof. destruct m as [|p|p]; try lia. intros H _. by apply digits2_pos_unique. Qed.

Lemma fexp_normal e : -1074 <= e - 53 -> fexp prec emax e = e - 53.
Proof. intros. unfold fexp, emin, prec, emax. lia. Qed.

Lemma pow2_pos n : 0 <= n -> 0 < 2 ^ n.
Proof. intros. apply Z.pow_pos_nonneg; lia. Qed.

Lemma bra_spec sx a b ex :
  0 <= a -> 0 < b ->
  2 ^ 52 <= a / b ->
  -1074 <= ex + (Zdigits2 (a / b) - 53) ->
  ex + (Zdigits2 (a / b) - 53) + 1 <= 971 ->
  exists mf ef,
    binary_round_aux prec emax sx (a / b) ex (locz (a mod b) b)
    = S754_finite sx mf ef
    /\ 2 ^ 52 <= Z.pos mf < 2 ^ 53
    /\ 0 <= Zdigits2 (a / b) - 53
    /\ 2 ^ 52 * (b * 2 ^ (Zdigits2 (a / b) - 53)) <= a
    /\ (ef = ex + (Zdigits2 (a / b) - 53)
        /\ Z.pos mf = round_half_even a (b * 2 ^ (Zdigits2 (a / b) - 53))
        \/ ef = ex + (Zdigits2 (a / b) - 53) + 1
           /\ 2 * Z.pos mf
              = round_half_even a (b * 2 ^ (Zdigits2 (a / b) - 53))).
Proof.
  intros Ha Hb Hmx Hlo Hhi.
  set (mx := a / b) in *. set (d := Zdigits2 mx) in *.
  set (n := d - 53) in *. set (e1 := ex + n) in *.
  assert (0 < mx) as Hmxpos by (assert (0 < 2 ^ 52) by (by apply pow2_pos); lia).
  pose proof (Zdigits2_bounds mx Hmxpos) as [Dlo Dhi]. fold d in Dlo, Dhi.
  assert (53 <= d) as Hd.
  { destruct (Z.le_gt_cases 53 d) as [|Hlt]; [done|].
    assert (2 ^ d <= 2 ^ 52) by (apply Z.pow_le_mono_r; lia). lia. }
  assert (0 <= n) as Hn by lia.
  pose proof (pow2_pos n Hn) as Hpn.
  set (B := b * 2 ^ n).
  assert (0 < B) as HB by (unfold B; lia).
  assert (a / B = mx / 2 ^ n) as Hq by (unfold B, mx; by rewrite Z.div_div by lia).
  assert (2 ^ (d - 1) = 2 ^ 52 * 2 ^ n) as E52.
  { rewrite <- Z.pow_add_r by lia. f_equal. lia. }
  assert (2 ^ d = 2 ^ 53 * 2 ^ n) as E53.
  { rewrite <- Z.pow_add_r by lia. f_equal. lia. }
  assert (2 ^ 52 <= a / B < 2 ^ 53) as [Qlo Qhi].
  { rewrite Hq. split.
    - apply Z.div_le_lower_bound; lia.
    - apply Z.div_lt_upper_bound; lia. }
  assert (2 ^ 52 * B <= a) as Hfloor.
  { pose proof (Z.mul_div_le a B HB). nia. }
  destruct (round_half_even_bounds a B HB) as [[Rlo Rhi] _].
  set (m1 := round_half_even a B) in *.
  (* the first shift *)
  unfold binary_round_aux, shr_fexp. fold mx. fold d.
  rewrite fexp_normal by lia.
  replace (d + ex - 53 - ex) with n by lia.
  change (shr_record_of_loc mx (locz (a mod b) b)) with (rc a b).
  rewrite shr_rc by lia. fold B.
  rewrite round_rc by lia. fold m1.
  change (2 ^ 52) with 4503599627370496 in *.
  change (2 ^ 53) with 9007199254740992 in *.
  destruct (Z.eq_dec m1 9007199254740992) as [Heq|Hne].
  - (* the rounding reached 2^53: one more shift *)
    rewrite Heq.
    replace (Zdigits2 9007199254740992) with 54 by reflexivity.
    rewrite fexp_normal by lia.
    replace (54 + (ex + n) - 53 - (ex + n)) with 1 by lia.
    cbn [shr shr_record_of_loc SpecFloat.iter_pos shr_1 shr_m].
    replace (ex + n + 1 <=? emax - prec) with true
      by (symmetry; apply Z.leb_le; unfold emax, prec; lia).
    eexists _, _. split; [reflexivity|].
    split; [lia|]. split; [lia|]. split; [lia|].
    right. split; [lia|]. fold B. fold m1. lia.
  - assert (Zdigits2 m1 = 53) as Hd1.
    { apply Zdigits2_unique; [|lia].
      change (2 ^ (53 - 1)) with 4503599627370496.
      change (2 ^ 53) with 9007199254740992. lia. }
    rewrite Hd1. rewrite fexp_normal by lia.
    replace (53 + (ex + n) - 53 - (ex + n)) with 0 by lia.
    cbn [shr shr_record_of_loc shr_m].
    destruct m1 as [|p1|p1] eqn:Em1; try lia.
    replace (ex + n <=? emax - prec) with true
      by (symmetry; apply Z.leb_le; unfold emax, prec; lia).
    eexists _, _. split; [reflexivity|].
    split; [lia|]. split; [lia|]. split; [lia|].
    left. split; [lia|]. fold B. lia.
Qed.

Lemma pos_iter_xO p d : Z.pos (Pos.iter xO p d) = Z.pos p * 2 ^ Z.pos d.
Proof.
  induction d as [|d IH] using Pos.peano_ind.
  - simpl. lia.
  - rewrite Pos.iter_succ, Pos2Z.inj_succ, Z.pow_succ_r by lia.
    rewrite Pos2Z.inj_xO, IH. lia.
Qed.

Lemma round_half_even_1 a : round_half_even a 1 = a.
Proof.
  unfold round_half_even. rewrite Z.mod_1_r, Z.div_1_r. reflexivity.
Qed.

(** A binary64 number with a full mantissa is its own rounding. *)
Lemma bra_exact sx m e :
  2 ^ 52 <= Z.pos m < 2 ^ 53 -> -1074 <= e -> e + 1 <= 971 ->
  binary_round_aux prec emax sx (Z.pos m) e loc_Exact = S754_finite sx m e.
Proof.
  intros Hm Hlo Hhi.
  assert (Zdigits2 (Z.pos m) = 53) as Hd.
  { apply Zdigits2_unique; [|lia]. by change (53 - 1) with 52. }
  pose proof (bra_spec sx (Z.pos m) 1 e) as H.
  rewrite Z.div_1_r, Z.mod_1_r, Hd in H. change (locz 0 1) with loc_Exact in H.
  destruct H as (mf & ef & E & Hmf & _ & _ & Hcase); try lia.
  rewrite E. change (1 * 2 ^ (53 - 53)) with 1 in Hcase.
  rewrite round_half_even_1 in Hcase.
  destruct Hcase as [[-> Hv]|[_ Hv]]; [|lia].
  f_equal; [|lia]. by injection Hv.
Qed.

(** [float(n)] for a positive integer below 2^53: the mantissa is [n]
    shifted to 53 bits. *)
Lemma of_int_pos n :
  0 < n < 2 ^ 53 ->
  exists m,
    of_int n = S754_finite false m (Zdigits2 n - 53)
    /\ Z.pos m = n * 2 ^ (53 - Zdigits2 n)
    /\ 2 ^ 52 <= Z.pos m < 2 ^ 53
    /\ 1 <= Zdigits2 n <= 53.
Proof.
  intros [Hpos Hlt]. destruct n as [|p|p]; try lia.
  pose proof (digits2_pos_bounds p) as [Dlo Dhi].
  simpl Zdigits2. set (d := Z.pos (digits2_pos p)) in *.
  assert (d <= 53) as Hd.
  { destruct (Z.le_gt_cases d 53) as [|Hgt]; [done|].
    assert (2 ^ 53 <= 2 ^ (d - 1)) by (apply Z.pow_le_mono_r; lia). lia. }
  assert (1 <= d) by (unfold d; lia).
  unfold of_int, binary_normalize, binary_round. fold d.
  rewrite fexp_normal by lia. unfold shl_align.
  replace (d + 0 - 53 - 0) with (d - 53) by lia.
  assert (2 ^ 52 = 2 ^ (d - 1) * 2 ^ (53 - d)) as E52.
  { rewrite <- Z.pow_add_r by lia. f_equal. lia. }
  assert (2 ^ 53 = 2 ^ d * 2 ^ (53 - d)) as E53.
  { rewrite <- Z.pow_add_r by lia. f_equal. lia. }
  assert (0 < 2 ^ (53 - d)) by (apply pow2_pos; lia).
  destruct (d - 53) as [|k|k] eqn:Ek; try lia.
  - replace (53 - d) with 0 in * by lia. change (2 ^ 0) with 1 in *.
    replace d with 53 by lia. change (53 - 53) with 0.
    exists p. split; [|split; [lia|split; [nia|lia]]].
    replace (d + 0 - 53) with 0 by lia. apply bra_exact; lia.
  - exists (Pos.iter xO p k).
    assert (Z.pos (Pos.iter xO p k) = Z.pos p * 2 ^ (53 - d)) as Hm.
    { rewrite pos_iter_xO. f_equal. f_equal. lia. }
    split; [|split; [done|split; [nia|lia]]].
    replace (d + 0 - 53) with (d - 53) by lia.
    rewrite bra_exact; [by rewrite Ek|nia|lia|lia].
Qed.

Lemma new_location_locz b r : 0 < b -> 0 <= r < b -> new_location b r = locz r b.
Proof.
  intros Hb Hr. unfold new_location, new_location_even, new_location_odd, locz.
  destruct (Z.even b) eqn:Heven; [done|].
  destruct (Z.eqb_spec r 0); [done|]. f_equal.
  assert (Z.odd b = true) as Hodd by (by rewrite <- Z.negb_even, Heven).
  apply Z.odd_spec in Hodd as [j Hj].
  destruct (Z.compare_spec (2 * r + 1) b), (Z.compare_spec (2 * r) b);
    try lia; reflexivity.
Qed.

Lemma Zdigits2_mono n m : 0 < n <= m -> Zdigits2 n <= Zdigits2 m.
Proof.
  intros [Hn Hnm].
  pose proof (Zdigits2_bounds n Hn) as [Nlo Nhi].
  pose proof (Zdigits2_bounds m ltac:(lia)) as [Mlo Mhi].
  destruct (Z.le_gt_cases (Zdigits2 n) (Zdigits2 m)) as [|Hgt]; [done|].
  assert (2 ^ Zdigits2 m <= 2 ^ (Zdigits2 n - 1))
    by (apply Z.pow_le_mono_r; lia). lia.
Qed.

(** [n / m] for integers [1 <= n <= m < 2^53]: a binary64 number
    [mf * 2^-E] with a full mantissa, within half a unit in the last
    place of the quotient. *)
Lemma div_of_int n m :
  1 <= n <= m -> m < 2 ^ 53 ->
  exists mf E,
    SFdiv prec emax (of_int n) (of_int m) = S754_finite false mf (- E)
    /\ 2 ^ 52 <= Z.pos mf < 2 ^ 53
    /\ 51 <= E <= 106
    /\ Z.abs (2 * m * Z.pos mf - 2 * n * 2 ^ E) <= m.
Proof.
  intros Hn Hm.
  destruct (of_int_pos n ltac:(lia)) as (mn & -> & Hmn & Rn & Dn).
  destruct (of_int_pos m ltac:(lia)) as (mm & -> & Hmm & Rm & Dm).
  pose proof (Zdigits2_mono n m ltac:(lia)) as Hdd.
  set (dn := Zdigits2 n) in *. set (dm := Zdigits2 m) in *.
  unfold SFdiv, SFdiv_core_binary.
  replace (Zdigits2 (Z.pos mn)) with 53
    by (symmetry; apply Zdigits2_unique; [by change (53 - 1) with 52|lia]).
  replace (Zdigits2 (Z.pos mm)) with 53
    by (symmetry; apply Zdigits2_unique; [by change (53 - 1) with 52|lia]).
  rewrite fexp_normal by lia.
  replace (Z.min (53 + (dn - 53) - (53 + (dm - 53)) - 53) (dn - 53 - (dm - 53)))
    with (dn - dm - 53) by lia.
  replace (dn - 53 - (dm - 53) - (dn - dm - 53)) with 53 by lia.
  cbv iota. rewrite Z.shiftl_mul_pow2 by lia.
  set (a := Z.pos mn * 2 ^ 53). set (b := Z.pos mm).
  assert (0 < b) as Hb by (unfold b; lia).
  assert (Z.div_eucl a b = (a / b, a mod b)) as ->.
  { unfold Z.div, Z.modulo. by destruct (Z.div_eucl a b). }
  rewrite new_location_locz by (try apply Z.mod_pos_bound; lia).
  change (xorb false false) with false.
  change (2 ^ 52) with 4503599627370496 in *.
  change (2 ^ 53) with 9007199254740992 in *.
  assert (4503599627370496 <= a / b < 18014398509481984) as [Qlo Qhi].
  { split.
    - apply Z.div_le_lower_bound; [lia|]. unfold a, b. nia.
    - apply Z.div_lt_upper_bound; [lia|]. unfold a, b. nia. }
  assert (53 <= Zdigits2 (a / b) <= 54) as Hd.
  { pose proof (Zdigits2_bounds (a / b) ltac:(lia)) as [Lo Hi].
    split.
    - destruct (Z.le_gt_cases 53 (Zdigits2 (a / b))) as [|Hlt]; [done|].
      assert (2 ^ Zdigits2 (a / b) <= 2 ^ 52) by (apply Z.pow_le_mono_r; lia).
      change (2 ^ 52) with 4503599627370496 in *. lia.
    - destruct (Z.le_gt_cases (Zdigits2 (a / b)) 54) as [|Hgt]; [done|].
      assert (2 ^ 54 <= 2 ^ (Zdigits2 (a / b) - 1))
        by (apply Z.pow_le_mono_r; lia).
      change (2 ^ 54) with 18014398509481984 in *. lia. }
  destruct (bra_spec false a b (dn - dm - 53)) as (mf & ef & E & Hmf & Hn0 & Hfl & Hcase);
    [unfold a; lia|lia|by change (2 ^ 52) with 4503599627370496|lia|lia|].
  rewrite E. set (k := Zdigits2 (a / b) - 53) in *.
  set (B := b * 2 ^ k) in *.
  assert (0 < 2 ^ k) as Hpk by (apply pow2_pos; lia).
  assert (0 < B) as HB by (unfold B; lia).
  destruct (round_half_even_bounds a B HB) as [_ Hround].
  (* the scale that turns [n / m] into [a / B] *)
  set (E1 := 53 + dm - dn - k).
  set (S := 2 ^ (53 - dm) * 2 ^ k).
  assert (0 < S) as HS.
  { unfold S. assert (0 < 2 ^ (53 - dm)) by (apply pow2_pos; lia). nia. }
  assert (B = m * S) as HBS by (unfold B, b, S; lia).
  assert (a = n * S * 2 ^ E1) as HaS.
  { unfold a, S, E1. rewrite Hmn.
    change 9007199254740992 with (2 ^ 53).
    rewrite <- !Z.mul_assoc. f_equal.
    rewrite <- !Z.pow_add_r by lia. f_equal. lia. }
  assert (0 < 2 ^ E1) as HpE by (apply pow2_pos; unfold E1; lia).
  change (2 ^ 53) with 9007199254740992 in *.
  destruct Hcase as [[-> Hv]|[-> Hv]].
  - exists mf, E1. split; [f_equal; unfold E1; lia|].
    split; [done|]. split; [unfold E1; lia|].
    rewrite <- Hv, HBS, HaS in Hround. nia.
  - exists mf, (E1 - 1). split; [f_equal; unfold E1; lia|].
    split; [done|]. split; [unfold E1; lia|].
    assert (2 ^ E1 = 2 * 2 ^ (E1 - 1)) as HE
      by (apply pow2_step; unfold E1; lia).
    rewrite <- Hv, HBS, HaS, HE in Hround. nia.
Qed.

Lemma of_int_100 : of_int 100 = S754_finite false 7036874417766400 (-46).
Proof. vm_compute. reflexivity. Qed.

(** [x * 100] for a binary64 number [mf * 2^-E] with a full mantissa:
    again a number with a full mantissa, within half a unit in the last
    place of the product. *)
Lemma mul_100 mf E :
  2 ^ 52 <= Z.pos mf < 2 ^ 53 -> 51 <= E <= 106 ->
  exists mf' E',
    mul_int (S754_finite false mf (- E)) 100 = S754_finite false mf' (- E')
    /\ 2 ^ 52 <= Z.pos mf' < 2 ^ 53
    /\ 1 <= E' <= E
    /\ Z.abs (2 * 2 ^ (E - E') * Z.pos mf' - 200 * Z.pos mf) <= 2 ^ (E - E').
Proof.
  intros Hmf HE. unfold mul_int, SFmul. rewrite of_int_100.
  change (xorb false false) with false.
  set (a := Z.pos (mf * 7036874417766400)).
  assert (a = Z.pos mf * (100 * 2 ^ 46)) as Ha by (unfold a; lia).
  change (2 ^ 52) with 4503599627370496 in *.
  change (2 ^ 53) with 9007199254740992 in *.
  change (2 ^ 46) with 70368744177664 in *.
  assert (2 ^ 104 <= a < 2 ^ 106) as [Alo Ahi].
  { change (2 ^ 104) with 20282409603651670423947251286016.
    change (2 ^ 106) with 81129638414606681695789005144064. lia. }
  assert (105 <= Zdigits2 a <= 106) as Hd.
  { pose proof (Zdigits2_bounds a ltac:(lia)) as [Lo Hi].
    split.
    - destruct (Z.le_gt_cases 105 (Zdigits2 a)) as [|Hlt]; [done|].
      assert (2 ^ Zdigits2 a <= 2 ^ 104) by (apply Z.pow_le_mono_r; lia). lia.
    - destruct (Z.le_gt_cases (Zdigits2 a) 106) as [|Hgt]; [done|].
      assert (2 ^ 106 <= 2 ^ (Zdigits2 a - 1))
        by (apply Z.pow_le_mono_r; lia). lia. }
  pose proof (bra_spec false a 1 (- E + -46)) as H.
  rewrite Z.div_1_r, Z.mod_1_r in H. change (locz 0 1) with loc_Exact in H.
  destruct H as (mf' & ef & Eq & Hmf' & _ & _ & Hcase);
    [lia|lia|change (2 ^ 52) with 4503599627370496; lia|lia|lia|].
  rewrite Eq. set (k := Zdigits2 a - 53) in *.
  rewrite Z.mul_1_l in Hcase.
  assert (0 < 2 ^ k) as Hpk by (apply pow2_pos; lia).
  destruct (round_half_even_bounds a (2 ^ k) Hpk) as [_ Hround].
  set (c := k - 46) in *.
  assert (2 ^ k = 70368744177664 * 2 ^ c) as Hk.
  { change 70368744177664 with (2 ^ 46).
    rewrite <- Z.pow_add_r by lia. f_equal. lia. }
  assert (0 < 2 ^ c) as Hpc by (apply pow2_pos; lia).
  change (2 ^ 52) with 4503599627370496 in *.
  change (2 ^ 53) with 9007199254740992 in *.
  destruct Hcase as [[-> Hv]|[-> Hv]].
  - exists mf', (E - c). split; [f_equal; lia|].
    split; [done|]. split; [lia|].
    replace (E - (E - c)) with c by lia.
    rewrite <- Hv, Hk, Ha in Hround. nia.
  - exists mf', (E - c - 1). split; [f_equal; lia|].
    split; [done|]. split; [lia|].
    replace (E - (E - c - 1)) with (c + 1) by lia.
    rewrite Z.pow_add_r by lia. change (2 ^ 1) with 2.
    rewrite <- Hv, Hk, Ha in Hround. nia.
Qed.

(** The percentage that the report prints is a nearest one-decimal
    value of [100 * n / m]. *)
Lemma percent_text_nearest n m :
  0 <= n <= m -> 1 <= m <= 2 ^ 40 ->
  exists t,
    percent_text n m = fixed1 t
    /\ 0 <= t
    /\ Z.abs (2 * m * t - 2000 * n) <= m.
Proof.
  intros Hn Hm. unfold percent_text.
  change (2 ^ 40) with 1099511627776 in *.
  destruct (Z.eq_dec n 0) as [->|Hn0].
  - exists 0. split; [|lia].
    destruct (of_int_pos m) as (mm & -> & _);
      [change (2 ^ 53) with 9007199254740992; lia|].
    reflexivity.
  - destruct (div_of_int n m) as (mf & E & -> & Hmf & HE & H1);
      [lia|change (2 ^ 53) with 9007199254740992; lia|].
    destruct (mul_100 mf E Hmf HE) as (mf' & E' & -> & Hmf' & HE' & H2).
    unfold format_1f, tenths.
    replace (0 <=? - E') with false by (symmetry; apply Z.leb_gt; lia).
    rewrite Z.opp_involutive.
    assert (0 < 2 ^ E') as HpD by (apply pow2_pos; lia).
    destruct (round_half_even_bounds (10 * Z.pos mf') (2 ^ E') HpD)
      as [[Tlo _] H3].
    set (t := round_half_even (10 * Z.pos mf') (2 ^ E')) in *.
    exists t. split; [reflexivity|].
    assert (0 <= t).
    { assert (0 <= 10 * Z.pos mf' / 2 ^ E') by (apply Z.div_pos; lia). lia. }
    split; [done|].
    set (A := 2 ^ E) in *. set (D := 2 ^ E') in *. set (C := 2 ^ (E - E')) in *.
    assert (A = C * D) as HA.
    { unfold A, C, D. rewrite <- Z.pow_add_r by lia. f_equal. lia. }
    assert (0 < C) as HC by (apply pow2_pos; lia).
    change (2 ^ 52) with 4503599627370496 in *.
    change (2 ^ 53) with 9007199254740992 in *.
    assert (C <= 200) as HC200.
    { assert (C * 9007199254740991 <= C * (2 * Z.pos mf' - 1))
        by (apply Z.mul_le_mono_nonneg_l; lia).
      lia. }
    assert (4503599627370496 <= A) as HA52.
    { assert (0 < A) by (apply pow2_pos; lia).
      assert (n * A <= m * A) by (apply Z.mul_le_mono_nonneg_r; lia).
      assert (m * 4503599627370496 <= m * Z.pos mf)
        by (apply Z.mul_le_mono_nonneg_l; lia).
      assert (m * 9007199254740991 <= m * (2 * A)) as Hle by lia.
      apply Z.mul_le_mono_pos_l in Hle; lia. }
    set (e1 := 2 * m * Z.pos mf - 2 * n * A) in *.
    set (e2 := 2 * C * Z.pos mf' - 200 * Z.pos mf) in *.
    set (e3 := 2 * D * t - 20 * Z.pos mf') in *.
    set (X := 2 * m * t - 2000 * n).
    assert (A * X = m * C * e3 + 10 * m * e2 + 1000 * e1) as Hsum
      by (unfold X, e1, e2, e3; rewrite HA; ring).
    assert (0 <= m * C) as HmC by (apply Z.mul_nonneg_nonneg; lia).
    assert (- D <= e3 <= D) as R3 by lia.
    assert (- C <= e2 <= C) as R2 by lia.
    assert (- (m * C * D) <= m * C * e3 <= m * C * D) as B3.
    { split.
      - rewrite <- Z.mul_opp_r. apply Z.mul_le_mono_nonneg_l; lia.
      - apply Z.mul_le_mono_nonneg_l; lia. }
    assert (- (10 * m * C) <= 10 * m * e2 <= 10 * m * C) as B2.
    { split.
      - rewrite <- Z.mul_opp_r. apply Z.mul_le_mono_nonneg_l; lia.
      - apply Z.mul_le_mono_nonneg_l; lia. }
    assert (10 * m * C <= 10 * m * 200) as B2'
      by (apply Z.mul_le_mono_nonneg_l; lia).
    assert (m * C * D = m * A) as HmA by (rewrite HA; ring).
    assert (0 < A) as HApos by lia.
    assert (A * X < A * (m + 1)) as Xhi by lia.
    assert (A * (- (m + 1)) < A * X) as Xlo by lia.
    apply Z.mul_lt_mono_pos_l in Xhi; [|done].
    apply Z.mul_lt_mono_pos_l in Xlo; [|done].
    lia.
Qed.

(** ** The percentage of empty cells *)

Lemma tally_filter p (f : Z -> value) rows :
  tally p (map f rows)
  = Z.of_nat (length (List.filter (fun row => p (f row)) rows)).
Proof.
  induction rows as [|row rows IH]; simpl; [done|].
  rewrite IH. destruct (p (f row)); simpl; lia.
Qed.

Lemma nulls_empty_rows w col :
  nulls w col = Z.of_nat (length (empty_rows w col)).
Proof. apply tally_filter. Qed.

Lemma nulls_bounds w col : 0 <= nulls w col <= max_row w - 1.
Proof.
  pose proof (tally_bounds is_none (data_column w col)) as H.
  unfold data_column in H. rewrite length_map, length_range in H.
  pose proof (max_row_ge_1 w). unfold nulls, data_column. lia.
Qed.

(** What the model of the float arithmetic prints where CPython's
    results are known, among them the ties 0.05, 0.15, 0.25 and 0.35. *)
Example percent_text_examples :
  map (fun '(n, m) => percent_text n m)
      [ (1, 2000); (3, 2000); (5, 2000); (7, 2000); (1, 8); (1, 400);
        (9, 400); (0, 7); (7, 7); (1, 3) ]
  = [ "0.1"; "0.1"; "0.2"; "0.4"; "12.5"; "0.2"; "2.2"; "0.0"; "100.0";
      "33.3" ].
Proof. vm_compute. reflexivity. Qed.

Lemma nearest_tenths_unique n m t :
  0 <= n -> 1 <= m -> Z.abs (2 * m * t - 2000 * n) <= m ->
  2 * ((1000 * n) mod m) <> m ->
  t = exact_tenths_half_even n m /\ t = exact_tenths_half_up n m.
Proof.
  intros Hn Hm Hnear Htie.
  unfold exact_tenths_half_even, exact_tenths_half_up, PyFloat.round_half_even.
  pose proof (Z.div_mod (1000 * n) m ltac:(lia)) as Hdm.
  pose proof (Z.mod_pos_bound (1000 * n) m ltac:(lia)) as Hr.
  set (q := 1000 * n / m) in *. set (r := (1000 * n) mod m) in *.
  assert (2000 * n = 2 * m * q + 2 * r) as H2 by lia.
  rewrite H2 in Hnear.
  destruct (Z.compare_spec (2 * r) m) as [Heq|Hlt|Hgt]; [done| |].
  - assert (t = q) as -> by nia. split; [done|].
    apply (Z.div_unique _ _ _ (2 * r + m)); lia.
  - assert (t = q + 1) as -> by nia. split; [done|].
    apply (Z.div_unique _ _ _ (2 * r - m)); lia.
Qed.

(** C5, the claim as the specification words it, fails at a tie.  With
    23 empty cells among 80 data rows N / M * 100 is 28.75 exactly,
    which rounds to 28.8 (half to even and half up alike); the script
    prints 28.7, because the binary64 quotient 23 / 80 times 100 lies
    just below 28.75. *)
Lemma C5_tie_not_rounded :
  max_row eighty_rows - 1 = 80
  /\ Z.of_nat (length (empty_rows eighty_rows 6)) = 23
  /\ (ExamineSoccer.data_quality [] eighty_rows).2
     = [ Banner "DATA QUALITY ANALYSIS:"; Rule;
         NullValues (VStr "Col6") 23 "28.7";
         NullValues (VStr "Col7") 80 "100.0";
         NullValues (VStr "Col8") 80 "100.0";
         NullValues (VStr "Col18") 80 "100.0";
         NullValues (VStr "Col22") 80 "100.0";
         NullValues (VStr "Col34") 80 "100.0" ]
  /\ 100 * (100 * 23) = 2875 * 80
  /\ fixed1 (exact_tenths_half_even 23 80) = "28.8"
  /\ fixed1 (exact_tenths_half_up 23 80) = "28.8".
Proof. repeat split; vm_compute; reflexivity. Qed.

(** C5, amended: on a sheet with at least one data row (and at most
    2^40 rows; the file format allows 2^20) the data-quality report
    prints, for each of the six inspected columns, the number N of data
    rows 2 to max_row whose cell in that column is empty ([None]), N
    lying between 0 and the number M = max_row - 1 of data rows, and a
    percentage with one decimal: the text is the numeral of t tenths,
    where t / 10 differs from N / M * 100 by at most 0.05.  Whenever
    N / M * 100 does not lie exactly halfway between two one-decimal
    values, t / 10 is N / M * 100 rounded to one decimal place; at a tie
    the binary64 computation settles which of the two neighbours is
    printed. *)
Theorem C5_null_percentage headers w :
  2 <= max_row w -> max_row w <= 2 ^ 40 ->
  exists results w',
    ExamineSoccer.data_quality headers w
    = (Ok results, w',
       [ Banner "DATA QUALITY ANALYSIS:"; Rule ]
       ++ map (null_line headers w) ExamineSoccer.quality_cols)
    /\ forall col,
         let N := Z.of_nat (length (empty_rows w col)) in
         let M := max_row w - 1 in
         0 <= N <= M
         /\ exists t,
              null_line headers w col
              = NullValues (quality_name headers col) N (fixed1 t)
              /\ 0 <= t
              /\ Z.abs (2 * M * t - 2000 * N) <= M
              /\ (2 * ((1000 * N) mod M) <> M ->
                  t = exact_tenths_half_even N M
                  /\ t = exact_tenths_half_up N M).
Proof.
  intros Hrows Hmax.
  destruct (data_quality_steady w headers Hrows w (same_data_refl w))
    as (results & w' & printed & E & _ & _ & ->).
  exists results, w'. split; [exact E|].
  intros col N M. subst N M. rewrite <- nulls_empty_rows.
  pose proof (nulls_bounds w col) as Hb. split; [done|].
  destruct (percent_text_nearest (nulls w col) (max_row w - 1))
    as (t & Ht & Ht0 & Hnear); [done|lia|].
  exists t. unfold null_line. rewrite Ht.
  split; [done|]. split; [done|]. split; [done|].
  intros Htie. apply nearest_tenths_unique; [lia|lia|done|done].
Qed.

Lemma C5_null_percentage_witness :
  2 <= max_row four_matches /\ max_row four_matches <= 2 ^ 40
  /\ exists results w',
       ExamineSoccer.data_quality [VNone; VNone; VNone; VNone; VNone; VStr "1x2_h"]
         four_matches
       = (Ok results, w',
          [ Banner "DATA QUALITY ANALYSIS:"; Rule;
            NullValues (VStr "1x2_h") 1 "25.0";
            NullValues (VStr "Col7") 1 "25.0";
            NullValues (VStr "Col8") 4 "100.0";
            NullValues (VStr "Col18") 4 "100.0";
            NullValues (VStr "Col22") 4 "100.0";
            NullValues (VStr "Col34") 4 "100.0" ]).
Proof.
  assert (H2 : 2 <= max_row four_matches) by (vm_compute; discriminate).
  assert (H40 : max_row four_matches <= 2 ^ 40) by (vm_compute; discriminate).
  split; [exact H2|]. split; [exact H40|].
  destruct (C5_null_percentage
              [VNone; VNone; VNone; VNone; VNone; VStr "1x2_h"]
              four_matches H2 H40) as (results & w' & E & _).
  exists results, w'. rewrite E. reflexivity.
Defined.

Import Report.
(** * Further properties *)

(** ** A logic for statements whose effect on the sheet matters *)

Lemma hoare_steady {A} w0 (m : M A) (Q : A -> list line -> Prop) :
  steady w0 m Q ->
  hoare (same_data w0) m (fun a w' printed => same_data w0 w' /\ Q a printed).
Proof. intros Hm w Hw. exact (Hm w Hw). Qed.

Lemma hoare_weaken {A} (P P' : worksheet -> Prop) (m : M A)
    (Q Q' : A -> worksheet -> list line -> Prop) :
  hoare P m Q -> (forall w, P' w -> P w) ->
  (forall a w printed, Q a w printed -> Q' a w printed) ->
  hoare P' m Q'.
Proof.
  intros Hm HP HQ w Hw. destruct (Hm w (HP w Hw)) as (a & w' & o & E & H).
  exists a, w', o. auto.
Qed.

Lemma hoare_ret {A} (P : worksheet -> Prop) (a : A)
    (Q : A -> worksheet -> list line -> Prop) :
  (forall w, P w -> Q a w []) -> hoare P (mret a) Q.
Proof. intros HQ w Hw. exists a, w, []. split; [done|auto]. Qed.

Lemma hoare_bind {A B} (P : worksheet -> Prop) (m : M A) (k : A -> M B)
    (Q1 : A -> worksheet -> list line -> Prop)
    (Q : B -> worksheet -> list line -> Prop) :
  hoare P m Q1 ->
  (forall a printed,
     hoare (fun w => Q1 a w printed) (k a)
       (fun b w printed' => Q b w (printed ++ printed'))) ->
  hoare P (m ≫= k) Q.
Proof.
  intros Hm Hk w Hw.
  destruct (Hm w Hw) as (a & w1 & o1 & E1 & H1).
  destruct (Hk a o1 w1 H1) as (b & w2 & o2 & E2 & H2).
  exists b, w2, (o1 ++ o2). split; [|done].
  unfold mbind, M_bind, bind. by rewrite E1, E2.
Qed.

Lemma hoare_print {B} (P : worksheet -> Prop) l (k : unit -> M B)
    (Q : B -> worksheet -> list line -> Prop) :
  hoare P (k tt) (fun b w printed => Q b w (l :: printed)) ->
  hoare P (print l ≫= k) Q.
Proof.
  intros Hk w Hw. destruct (Hk w Hw) as (b & w' & o & E & HQ).
  exists b, w', (l :: o). split; [|done].
  unfold mbind, M_bind, bind, print. by rewrite E.
Qed.

Lemma hoare_print_last (P : worksheet -> Prop) l
    (Q : unit -> worksheet -> list line -> Prop) :
  (forall w, P w -> Q tt w [l]) -> hoare P (print l) Q.
Proof. intros HQ w Hw. exists tt, w, [l]. split; [done|auto]. Qed.

Lemma hoare_ret_bind {A B} (P : worksheet -> Prop) (a : A) (k : A -> M B)
    (Q : B -> worksheet -> list line -> Prop) :
  hoare P (k a) Q -> hoare P (mret a ≫= k) Q.
Proof.
  intros Hk w Hw. destruct (Hk w Hw) as (b & w' & o & E & HQ).
  exists b, w', o. split; [|done].
  unfold mbind, M_bind, bind, mret, M_ret, ret. by rewrite E.
Qed.

(** Reading a cell whose value the precondition settles; [P'] is what
    holds of the sheet after the read. *)
Lemma hoare_cell {B} (P P' : worksheet -> Prop) row column v
    (k : value -> M B) (Q : B -> worksheet -> list line -> Prop) :
  1 <= row -> 1 <= column ->
  (forall w, P w -> value_at w row column = v /\ P' (touch row column w)) ->
  hoare P' (k v) Q ->
  hoare P (cell_value row column ≫= k) Q.
Proof.
  intros Hr Hc HP Hk w Hw. destruct (HP w Hw) as [Hv Hw'].
  destruct (Hk _ Hw') as (b & w' & o & E & HQ).
  exists b, w', o. split; [|done].
  unfold mbind, M_bind, bind, cell_value. rewrite cell_touch by done.
  by rewrite Hv, E.
Qed.

(** Reading something of the sheet that the precondition settles. *)
Lemma hoare_get {A B} (P : worksheet -> Prop) (f : worksheet -> A) x
    (k : A -> M B) (Q : B -> worksheet -> list line -> Prop) :
  (forall w, P w -> f w = x) ->
  hoare P (k x) Q ->
  hoare P ((fun w => (Ok (f w), w, [])) ≫= k) Q.
Proof.
  intros HP Hk w Hw. destruct (Hk w Hw) as (b & w' & o & E & HQ).
  exists b, w', o. split; [|done].
  unfold mbind, M_bind, bind. by rewrite (HP w Hw), E.
Qed.

(** Reading something of the sheet that the precondition leaves open. *)
Lemma hoare_get_any {A B} (P : worksheet -> Prop) (f : worksheet -> A)
    (k : A -> M B) (Q : B -> worksheet -> list line -> Prop) :
  (forall x, hoare (fun w => P w /\ f w = x) (k x) Q) ->
  hoare P ((fun w => (Ok (f w), w, [])) ≫= k) Q.
Proof.
  intros Hk w Hw. destruct (Hk (f w) w (conj Hw eq_refl)) as (b & w' & o & E & HQ).
  exists b, w', o. split; [|done].
  unfold mbind, M_bind, bind. by rewrite E.
Qed.

Lemma hoare_lift {A B} (P : worksheet -> Prop) (r : result A) a
    (k : A -> M B) (Q : B -> worksheet -> list line -> Prop) :
  r = Ok a -> hoare P (k a) Q -> hoare P (lift r ≫= k) Q.
Proof.
  intros -> Hk w Hw. destruct (Hk w Hw) as (b & w' & o & E & HQ).
  exists b, w', o. split; [|done].
  unfold mbind, M_bind, bind, lift. by rewrite E.
Qed.

(** A loop: [Inv done acc w printed] holds when the elements [done] have
    been handled. *)
Lemma hoare_for_each {A B} (P : worksheet -> Prop)
    (Inv : list A -> B -> worksheet -> list line -> Prop)
    (xs : list A) (acc : B) (body : B -> A -> M B) :
  (forall w, P w -> Inv [] acc w []) ->
  (forall done x rest acc' printed,
     xs = done ++ x :: rest ->
     hoare (fun w => Inv done acc' w printed) (body acc' x)
       (fun acc'' w printed' => Inv (done ++ [x]) acc'' w (printed ++ printed'))) ->
  hoare P (for_each xs acc body) (Inv xs).
Proof.
  intros H0 Hstep.
  enough (forall rest done acc' printed,
    xs = done ++ rest ->
    hoare (fun w => Inv done acc' w printed) (for_each rest acc' body)
      (fun acc'' w printed' => Inv xs acc'' w (printed ++ printed'))) as Hgen.
  { intros w Hw. apply (Hgen xs [] acc []); [done|by apply H0]. }
  induction rest as [|x rest IH]; intros done acc' printed Hxs.
  - simpl. apply hoare_ret. intros w Hw. rewrite !app_nil_r in *. by subst.
  - simpl. change (bind ?m ?k) with (m ≫= k).
    eapply hoare_bind; [by eapply Hstep|].
    intros acc'' printed'.
    eapply hoare_weaken.
    + apply (IH (done ++ [x]) acc'' (printed ++ printed')).
      by rewrite <- app_assoc.
    + done.
    + intros ? ? ?. by rewrite app_assoc.
Qed.

(** A loop under an invariant [I] of the sheet; [F done acc printed]
    relates the elements handled so far, the local variables and the
    lines printed by the loop. *)
Lemma hoare_loop {A B} (I : worksheet -> Prop)
    (F : list A -> B -> list line -> Prop)
    (xs : list A) (acc : B) (body : B -> A -> M B) :
  F [] acc [] ->
  (forall done x rest acc' printed,
     xs = done ++ x :: rest -> F done acc' printed ->
     hoare I (body acc' x)
       (fun acc'' w printed' => I w /\ F (done ++ [x]) acc'' (printed ++ printed'))) ->
  hoare I (for_each xs acc body) (fun acc' w printed => I w /\ F xs acc' printed).
Proof.
  intros H0 Hstep.
  apply (hoare_for_each I (fun done acc' w printed => I w /\ F done acc' printed)).
  - by intros w Hw.
  - intros done x rest acc' printed Hxs w [Hw HF].
    exact (Hstep done x rest acc' printed Hxs HF w Hw).
Qed.

(** ** The last column of a sheet *)

Lemma max_column_insert (t : string) (m : gmap (Z * Z) value) (k : Z * Z)
    (v : value) :
  m !! k = None ->
  max_column (Worksheet t (<[k := v]> m))
  = Z.max k.2 (max_column (Worksheet t m)).
Proof.
  intros Hk. unfold max_column. simpl.
  apply (map_fold_insert_L (fun (k : Z * Z) (_ : value) acc => Z.max k.2 acc));
    [|done].
  intros. lia.
Qed.

Lemma max_column_ge_1 w : 1 <= max_column w.
Proof.
  unfold max_column.
  apply (map_fold_weak_ind (fun r (_ : gmap (Z * Z) value) => 1 <= r)).
  - lia.
  - intros. lia.
Qed.

Lemma max_column_lookup w row column v :
  cells w !! (row, column) = Some v -> column <= max_column w.
Proof.
  intros Hl. unfold max_column.
  rewrite (map_fold_delete_L _ _ (row, column) v (cells w)); [simpl; lia| |done].
  intros. lia.
Qed.

Lemma max_row_lookup w row column v :
  cells w !! (row, column) = Some v -> row <= max_row w.
Proof.
  intros Hl. unfold max_row.
  rewrite (map_fold_delete_L _ _ (row, column) v (cells w)); [simpl; lia| |done].
  intros. lia.
Qed.

Lemma max_column_touch row column w :
  max_column (touch row column w) = Z.max column (max_column w).
Proof.
  unfold touch. destruct (cells w !! (row, column)) eqn:E.
  - apply max_column_lookup in E. lia.
  - rewrite max_column_insert by done. by destruct w.
Qed.

Lemma same_extent_refl w : same_extent w w.
Proof. split; [apply same_data_refl|done]. Qed.

Lemma same_extent_data w0 w : same_extent w0 w -> same_data w0 w.
Proof. by intros [? _]. Qed.

Lemma same_extent_cell w0 w row column :
  row <= max_row w0 -> column <= max_column w0 ->
  same_extent w0 w ->
  value_at w row column = value_at w0 row column
  /\ same_extent w0 (touch row column w).
Proof.
  intros Hr Hc [Hd Hm]. split; [symmetry; apply Hd|].
  split; [by apply same_data_touch_r|].
  rewrite max_column_touch. lia.
Qed.

Lemma same_extent_max_row w0 w : same_extent w0 w -> max_row w = max_row w0.
Proof. intros [(_ & Hr & _) _]. done. Qed.

Lemma same_extent_max_column w0 w :
  same_extent w0 w -> max_column w = max_column w0.
Proof. by intros [_ ?]. Qed.

Lemma same_extent_title w0 w : same_extent w0 w -> title w = title w0.
Proof. intros [(Ht & _) _]. done. Qed.

(** One step of a statement under the invariant [same_extent w0]. *)
Ltac level_step :=
  lazymatch goal with
  | |- hoare _ (print _ ≫= _) _ => apply hoare_print
  | |- hoare _ (print _) _ => apply hoare_print_last; intros ? ?
  | |- hoare (same_extent ?w0) (get_max_row ≫= _) _ =>
      apply (hoare_get _ max_row (max_row w0));
      [apply same_extent_max_row|]
  | |- hoare (same_extent ?w0) (get_max_column ≫= _) _ =>
      apply (hoare_get _ max_column (max_column w0));
      [apply same_extent_max_column|]
  | |- hoare (same_extent ?w0) (get_title ≫= _) _ =>
      apply (hoare_get _ title (title w0)); [apply same_extent_title|]
  | |- hoare _ (lift (header_or _ _ _) ≫= _) _ =>
      eapply hoare_lift; [apply header_or_ok; lia|]
  | |- hoare (same_extent ?w0) (cell_value ?r ?c ≫= _) _ =>
      apply (hoare_cell _ (same_extent w0) r c (value_at w0 r c));
      [lia|lia|intros ? ?; apply same_extent_cell; [lia|lia|done]|]
  | |- hoare _ (mret _ ≫= _) _ => apply hoare_ret_bind
  | |- hoare _ (mret _) _ => apply hoare_ret; intros ? ?
  end.

Lemma elem_of_split_range (xs done rest : list Z) x a b :
  xs = range a b -> xs = done ++ x :: rest -> a <= x < b.
Proof.
  intros -> Hs. apply elem_of_range. rewrite Hs.
  apply elem_of_app. right. apply list_elem_of_here.
Qed.

(** ** The header loops *)

Lemma excel_read_headers_level w0 :
  hoare (same_extent w0) ExamineExcel.read_headers
    (fun headers w printed =>
       same_extent w0 w
       /\ (headers = first_row w0 (Z.min (max_column w0) 49)
           /\ printed
              = [ Banner "COLUMN HEADERS (Row 1):"; Rule ]
                ++ map (fun col => ColumnHeader col (value_at w0 1 col))
                     (range 1 (Z.min (max_column w0) 49 + 1)))).
Proof.
  unfold ExamineExcel.read_headers. repeat level_step.
  replace (Z.min (max_column w0 + 1) 50)
    with (Z.min (max_column w0) 49 + 1) by lia.
  eapply hoare_weaken; [|done|].
  - apply (hoare_loop (same_extent w0)
             (fun done headers printed =>
                headers = map (fun col => value_at w0 1 col) done
                /\ printed = map (fun col => ColumnHeader col (value_at w0 1 col))
                               done)); [done|].
    intros done col rest headers printed Hsplit [-> ->].
    pose proof (elem_of_split_range _ _ _ _ _ _ eq_refl Hsplit) as Hcol.
    pose proof (max_row_ge_1 w0).
    repeat level_step. split; [done|]. by rewrite !map_app.
  - intros headers w printed (Hw & -> & ->). done.
Qed.

Lemma soccer_read_headers_level w0 :
  hoare (same_extent w0) ExamineSoccer.read_headers
    (fun headers w printed =>
       same_extent w0 w
       /\ (headers = first_row w0 (max_column w0)
           /\ printed
              = [ Banner "ALL COLUMN HEADERS:"; Rule ]
                ++ map (fun col => ColumnHeader col (value_at w0 1 col))
                     (range 1 (max_column w0 + 1)))).
Proof.
  unfold ExamineSoccer.read_headers. repeat level_step.
  eapply hoare_weaken; [|done|].
  - apply (hoare_loop (same_extent w0)
             (fun done headers printed =>
                headers = map (fun col => value_at w0 1 col) done
                /\ printed = map (fun col => ColumnHeader col (value_at w0 1 col))
                               done)); [done|].
    intros done col rest headers printed Hsplit [-> ->].
    pose proof (elem_of_split_range _ _ _ _ _ _ eq_refl Hsplit) as Hcol.
    pose proof (max_row_ge_1 w0).
    repeat level_step. split; [done|]. by rewrite !map_app.
  - intros headers w printed (Hw & -> & ->). done.
Qed.

(** ** The sample loops *)

Lemma flat_map_snoc {A B} (f : A -> list B) (xs : list A) (x : A) :
  flat_map f (xs ++ [x]) = flat_map f xs ++ f x.
Proof. rewrite flat_map_app. simpl. by rewrite app_nil_r. Qed.

Lemma excel_sample_data_level w0 headers :
  hoare (same_extent w0) (ExamineExcel.sample_data headers)
    (fun _ w printed =>
       same_extent w0 w
       /\ printed
          = [ Banner "SAMPLE DATA (Rows 2-6):"; Rule ]
            ++ flat_map (excel_sample_row w0 headers)
                 (range 2 (Z.min (max_row w0 + 1) 7))).
Proof.
  unfold ExamineExcel.sample_data. repeat level_step.
  eapply hoare_weaken; [|done|].
  - apply (hoare_loop (same_extent w0)
             (fun done _ printed =>
                printed = flat_map (excel_sample_row w0 headers) done));
      [done|].
    intros done row rest [] printed Hsplit ->.
    pose proof (elem_of_split_range _ _ _ _ _ _ eq_refl Hsplit) as Hrow.
    repeat level_step.
    eapply hoare_weaken; [|done|].
    + apply (hoare_loop (same_extent w0)
               (fun done' _ printed' =>
                  printed'
                  = flat_map
                      (fun col =>
                         let v := value_at w0 row col in
                         if shown v
                         then [SampleCell col (quality_name headers col) v]
                         else []) done')); [done|].
      intros done' col rest' [] printed' Hsplit' ->.
      pose proof (elem_of_split_range _ _ _ _ _ _ eq_refl Hsplit') as Hcol.
      repeat level_step.
      rewrite flat_map_snoc. unfold shown, quality_name. simpl.
      destruct (negb (is_none (value_at w0 row col))
                && strip_nonempty (str (value_at w0 row col)));
        repeat level_step; split; try done.
    + intros [] w printed' (Hw & ->). split; [done|].
      rewrite flat_map_snoc. done.
  - intros [] w printed (Hw & ->). done.
Qed.

Lemma soccer_sample_rows_level w0 headers :
  hoare (same_extent w0) (ExamineSoccer.sample_rows headers)
    (fun _ w printed =>
       same_extent w0 w
       /\ printed
          = [ Banner "SAMPLE SOCCER MATCHES (First 3 rows):"; Rule ]
            ++ flat_map (soccer_sample_row (max_column w0) w0 headers)
                 (range 2 (Z.min (max_row w0 + 1) 5))).
Proof.
  unfold ExamineSoccer.sample_rows. repeat level_step.
  eapply hoare_weaken; [|done|].
  - apply (hoare_loop (same_extent w0)
             (fun done _ printed =>
                printed
                = flat_map (soccer_sample_row (max_column w0) w0 headers)
                    done)); [done|].
    intros done row rest [] printed Hsplit ->.
    pose proof (elem_of_split_range _ _ _ _ _ _ eq_refl Hsplit) as Hrow.
    repeat level_step.
    eapply hoare_weaken; [|done|].
    + apply (hoare_loop (same_extent w0)
               (fun done' _ printed' =>
                  printed'
                  = map (fun col =>
                           SampleCell col (quality_name headers col)
                             (value_at w0 row col))
                      (List.filter (fun col => col <=? max_column w0) done')));
        [done|].
      intros done' col rest' [] printed' Hsplit' ->.
      assert (1 <= col) as Hcol.
      { assert (col ∈ ExamineSoccer.key_cols) as Hin.
        { rewrite Hsplit'. apply elem_of_app. right. apply list_elem_of_here. }
        unfold ExamineSoccer.key_cols in Hin.
        repeat (apply elem_of_cons in Hin as [->|Hin]; [lia|]).
        by apply elem_of_nil in Hin. }
      repeat level_step.
      rewrite List.filter_app, map_app. simpl.
      destruct (Z.leb_spec col (max_column w0)); repeat level_step;
        split; try done.
    + intros [] w printed' (Hw & ->). split; [done|].
      rewrite flat_map_snoc. done.
  - intros [] w printed (Hw & ->). done.
Qed.

(** ** The phases in sequence *)

Lemma hoare_seq {A B} (P P' : worksheet -> Prop) (m : M A) (k : A -> M B)
    (F : A -> list line -> Prop)
    (Q : B -> worksheet -> list line -> Prop) :
  hoare P m (fun a w printed => P' w /\ F a printed) ->
  (forall a printed,
     F a printed ->
     hoare P' (k a) (fun b w printed' => Q b w (printed ++ printed'))) ->
  hoare P (m ≫= k) Q.
Proof.
  intros Hm Hk.
  apply (hoare_bind P m k (fun a w printed => P' w /\ F a printed) Q Hm).
  intros a printed w [Hw HF]. exact (Hk a printed HF w Hw).
Qed.

Lemma hoare_pure {A} (P : worksheet -> Prop) (fact : Prop) (m : M A)
    (Q : A -> worksheet -> list line -> Prop) :
  (fact -> hoare P m Q) -> hoare (fun w => P w /\ fact) m Q.
Proof. intros Hm w [Hw Hf]. exact (Hm Hf w Hw). Qed.

(** The sheet as the mapping loop leaves it: the data of [w0], and the
    width that the reads of row 2 in [cols] give. *)
Lemma widened_touch w0 w cols col :
  2 <= max_row w0 ->
  same_data w0 w /\ max_column w = width_after w0 cols ->
  value_at w 2 col = value_at w0 2 col
  /\ (same_data w0 (touch 2 col w)
      /\ max_column (touch 2 col w) = width_after w0 (cols ++ [col])).
Proof.
  intros Hr [Hd Hc]. split; [symmetry; apply Hd|].
  split; [by apply same_data_touch_r|].
  rewrite max_column_touch, Hc. unfold width_after.
  replace (2 <=? max_row w0) with true by (symmetry; apply Z.leb_le; lia).
  rewrite foldl_app. simpl. lia.
Qed.

Lemma mapping_loop_level w0 headers fallback (items : list (Z * string)) :
  Forall (fun item => 1 <= item.1) items ->
  hoare (same_extent w0)
    (for_each items tt (fun _ item =>
       let '(col_num, field_name) := item in
       header ← lift (header_or headers (col_num - 1) (VStr fallback));
       r ← get_max_row;
       sample_val ← (if 2 <=? r then cell_value 2 col_num
                     else mret (VStr "N/A"));
       print (MappingLine col_num field_name header sample_val)))
    (fun _ w printed =>
       (same_data w0 w /\ max_column w = width_after w0 (map fst items))
       /\ printed = map (mapping_line headers w0 fallback) items).
Proof.
  intros Hitems.
  apply (hoare_for_each (same_extent w0)
           (fun done _ w printed =>
              (same_data w0 w /\ max_column w = width_after w0 (map fst done))
              /\ printed = map (mapping_line headers w0 fallback) done)).
  { intros w [Hd Hc]. repeat split; try apply Hd.
    unfold width_after. simpl. by destruct (2 <=? max_row w0). }
  intros done [col_num field_name] rest [] printed Hsplit.
  assert (1 <= col_num) as Hcol.
  { rewrite Hsplit in Hitems. apply Forall_app in Hitems as [_ H].
    by apply Forall_cons in H as [H _]. }
  apply hoare_pure. intros ->.
  eapply hoare_lift; [apply header_or_ok; lia|].
  apply (hoare_get _ max_row (max_row w0)).
  { intros w [(_ & Hr & _) _]. done. }
  rewrite !map_app. simpl map.
  pose proof (max_row_ge_1 w0).
  destruct (Z.leb_spec 2 (max_row w0)) as [Hrow|Hrow].
  - apply (hoare_cell _ (fun w => same_data w0 w
                            /\ max_column w
                               = width_after w0 (map fst done ++ [col_num]))
             2 col_num (value_at w0 2 col_num)); [lia|lia| |].
    + intros w Hw. by apply widened_touch.
    + apply hoare_print_last. intros w Hw. split; [done|].
      unfold mapping_line. simpl.
      by replace (2 <=? max_row w0) with true by (symmetry; apply Z.leb_le; lia).
  - apply hoare_ret_bind. apply hoare_print_last.
    intros w [Hd Hc]. split.
    + split; [done|]. rewrite Hc. unfold width_after.
      by replace (2 <=? max_row w0) with false
        by (symmetry; apply Z.leb_gt; lia).
    + unfold mapping_line. simpl.
      by replace (2 <=? max_row w0) with false
        by (symmetry; apply Z.leb_gt; lia).
Qed.

Lemma width_after_excel w :
  width_after w (map fst (sorted_items ExamineExcel.column_mapping))
  = width_after_mapping w.
Proof.
  rewrite sorted_items_excel. unfold width_after, width_after_mapping.
  destruct (2 <=? max_row w); simpl; lia.
Qed.

Lemma width_after_soccer w :
  width_after w (map fst (sorted_items ExamineSoccer.column_mapping))
  = width_after_mapping w.
Proof.
  rewrite sorted_items_soccer. unfold width_after, width_after_mapping.
  destruct (2 <=? max_row w); simpl; lia.
Qed.

Lemma positive_keys_excel :
  Forall (fun item : Z * string => 1 <= item.1)
    (sorted_items ExamineExcel.column_mapping).
Proof. rewrite sorted_items_excel. repeat constructor; simpl; lia. Qed.

Lemma positive_keys_soccer :
  Forall (fun item : Z * string => 1 <= item.1)
    (sorted_items ExamineSoccer.column_mapping).
Proof. rewrite sorted_items_soccer. repeat constructor; simpl; lia. Qed.

Lemma excel_report_mapping_level w0 headers :
  hoare (same_extent w0) (ExamineExcel.report_mapping headers)
    (fun _ w printed =>
       widened w0 w
       /\ printed
          = [ Banner "COLUMNS USED BY ExtractFromExcel.cs:"; Rule;
              Banner "Mapping from C# code (ExtractFromExcel.cs):" ]
            ++ map (mapping_line headers w0 "N/A")
                 (sorted_items ExamineExcel.column_mapping)).
Proof.
  unfold ExamineExcel.report_mapping. repeat level_step.
  eapply hoare_weaken;
    [apply (mapping_loop_level w0 headers "N/A"), positive_keys_excel|done|].
  intros [] w printed [[Hd Hc] ->]. rewrite width_after_excel in Hc. done.
Qed.

Lemma soccer_report_mapping_level w0 headers :
  hoare (same_extent w0) (ExamineSoccer.report_mapping headers)
    (fun _ w printed =>
       widened w0 w
       /\ printed
          = [ Banner "COLUMNS USED BY C# CODE (ExtractFromExcel.cs):"; Rule ]
            ++ map (mapping_line headers w0 "OUT OF RANGE")
                 (sorted_items ExamineSoccer.column_mapping)).
Proof.
  unfold ExamineSoccer.report_mapping. repeat level_step.
  eapply hoare_weaken;
    [apply (mapping_loop_level w0 headers "OUT OF RANGE"), positive_keys_soccer
    |done|].
  intros [] w printed [[Hd Hc] ->]. rewrite width_after_soccer in Hc. done.
Qed.

Lemma max_column_touch_rows column rows w :
  column <= max_column w ->
  max_column (touch_rows column rows w) = max_column w.
Proof.
  intros Hc. unfold touch_rows. revert w Hc.
  induction rows as [|row rows IH]; intros w Hc; simpl; [done|].
  rewrite IH; rewrite max_column_touch; lia.
Qed.

Lemma widened_touch_rows w0 w :
  widened w0 w -> widened w0 (touch_rows 5 (range 2 (max_row w + 1)) w).
Proof.
  intros [Hd Hc]. split.
  - eapply same_data_trans; [done|apply same_data_touch_rows].
  - destruct Hd as (_ & Hr & _). rewrite <- Hr.
    unfold width_after_mapping in *.
    destruct (Z.leb_spec 2 (max_row w0)).
    + rewrite max_column_touch_rows; lia.
    + by rewrite range_nil by lia.
Qed.

Lemma excel_statistics_level max_str_digits current_day w0 :
  hoare (widened w0) (ExamineExcel.statistics max_str_digits current_day)
    (fun _ w printed =>
       widened w0 w
       /\ printed
          = [ Banner "DATA STATISTICS:"; Rule; TotalRows (max_row w0 - 1);
              TodayMatches current_day
                (tally (counted max_str_digits current_day) (data_column w0 5));
              TotalMatches (max_row w0 - 1) ]).
Proof.
  intros w Hw. eexists _, _, _. split; [apply excel_statistics_spec|].
  split; [by apply widened_touch_rows|].
  destruct Hw as [Hd _]. rewrite (data_column_same w0 w) by done.
  destruct Hd as (_ & <- & _). done.
Qed.

Lemma soccer_statistics_level max_str_digits current_day w0 :
  hoare (widened w0) (ExamineSoccer.statistics max_str_digits current_day)
    (fun _ w printed =>
       widened w0 w
       /\ printed
          = [ Banner "STATISTICS:"; Rule; TotalMatches (max_row w0 - 1);
              TodayMatches current_day
                (tally (counted max_str_digits current_day)
                   (data_column w0 5)) ]).
Proof.
  intros w Hw. eexists _, _, _. split; [apply soccer_statistics_spec|].
  split; [by apply widened_touch_rows|].
  destruct Hw as [Hd _]. rewrite (data_column_same w0 w) by done.
  destruct Hd as (_ & <- & _). done.
Qed.

Lemma soccer_sample_row_same w0 w headers row :
  same_data w0 w ->
  soccer_sample_row (max_column w) w headers row
  = soccer_sample_row (max_column w) w0 headers row.
Proof.
  intros (_ & _ & Hv). unfold soccer_sample_row. f_equal.
  apply map_ext. intros col. by rewrite Hv.
Qed.

Lemma soccer_sample_rows_widened w0 headers :
  hoare (widened w0) (ExamineSoccer.sample_rows headers)
    (fun _ w printed =>
       widened w0 w
       /\ printed
          = [ Banner "SAMPLE SOCCER MATCHES (First 3 rows):"; Rule ]
            ++ flat_map
                 (soccer_sample_row (width_after_mapping w0) w0 headers)
                 (range 2 (Z.min (max_row w0 + 1) 5))).
Proof.
  intros w1 [Hd Hc].
  destruct (soccer_sample_rows_level w1 headers w1 (same_extent_refl w1))
    as (a & w & printed & E & [Hd' Hc'] & ->).
  eexists a, w, _. split; [exact E|]. split.
  - split; [by eapply same_data_trans|congruence].
  - f_equal. pose proof Hd as (_ & Hr & _). rewrite <- Hr, <- Hc.
    apply flat_map_ext. intros row. by apply soccer_sample_row_same.
Qed.

Lemma conclusion_level (P : worksheet -> Prop) :
  hoare P ExamineSoccer.conclusion
    (fun _ w printed =>
       P w
       /\ printed
          = [ Banner "CONCLUSION:"; Rule;
              Banner "The Excel file contains pre-calculated PROBABILITIES from sports-ai.dev";
              Banner "NOT historical match scores - these are predictions for upcoming matches!";
              Banner "The system scrapes these AI-generated probabilities and applies additional logic." ]).
Proof. unfold ExamineSoccer.conclusion. repeat level_step. done. Qed.

(** One step of a statement at the start of a script, on the sheet
    [w0] as it was loaded. *)
Ltac start_step :=
  lazymatch goal with
  | |- hoare _ (print _ ≫= _) _ => apply hoare_print
  | |- hoare (eq ?w0) (get_max_row ≫= _) _ =>
      apply (hoare_get _ max_row (max_row w0)); [by intros ? <-|]
  | |- hoare (eq ?w0) (get_max_column ≫= _) _ =>
      apply (hoare_get _ max_column (max_column w0)); [by intros ? <-|]
  | |- hoare (eq ?w0) (get_title ≫= _) _ =>
      apply (hoare_get _ title (title w0)); [by intros ? <-|]
  | |- hoare (eq ?w0) (get_dimensions ≫= _) _ =>
      apply (hoare_get _ dimensions (dimensions w0)); [by intros ? <-|]
  end.

Lemma hoare_from_start {A} w0 (m : M A)
    (Q : A -> worksheet -> list line -> Prop) :
  hoare (same_extent w0) m Q -> hoare (eq w0) m Q.
Proof. intros Hm w <-. apply Hm, same_extent_refl. Qed.

(** ** The whole inspections *)

Lemma excel_inspect_report max_str_digits current_day file_path w0 :
  exists w,
    ExamineExcel.inspect max_str_digits current_day file_path w0
    = (Ok tt, w, excel_report max_str_digits current_day file_path w0)
    /\ widened w0 w.
Proof.
  enough (hoare (eq w0)
            (ExamineExcel.inspect max_str_digits current_day file_path)
            (fun _ w printed =>
               widened w0 w
               /\ printed
                  = excel_report max_str_digits current_day file_path w0))
    as Hm.
  { destruct (Hm w0 eq_refl) as ([] & w & printed & E & Hw & ->). by exists w. }
  unfold ExamineExcel.inspect, excel_report. repeat start_step.
  apply hoare_from_start.
  eapply hoare_seq; [apply excel_read_headers_level|].
  intros headers printed1 [-> ->]. fold (excel_headers w0).
  eapply hoare_seq; [apply excel_sample_data_level|].
  intros [] printed2 ->.
  eapply hoare_seq; [apply excel_report_mapping_level|].
  intros [] printed3 ->.
  eapply hoare_weaken; [apply excel_statistics_level|done|].
  intros [] w printed [Hw ->]. split; [done|].
  reflexivity.
Qed.

Lemma soccer_inspect_report max_str_digits current_day w0 :
  2 <= max_row w0 ->
  exists w,
    ExamineSoccer.inspect max_str_digits current_day w0
    = (Ok tt, w, soccer_report max_str_digits current_day w0)
    /\ same_data w0 w.
Proof.
  intros Hrow.
  enough (hoare (eq w0) (ExamineSoccer.inspect max_str_digits current_day)
            (fun _ w printed =>
               same_data w0 w
               /\ printed = soccer_report max_str_digits current_day w0))
    as Hm.
  { destruct (Hm w0 eq_refl) as ([] & w & printed & E & Hw & ->). by exists w. }
  unfold ExamineSoccer.inspect, soccer_report. repeat start_step.
  apply hoare_from_start.
  eapply hoare_seq; [apply soccer_read_headers_level|].
  intros headers printed1 [-> ->]. fold (soccer_headers w0).
  eapply hoare_seq; [apply soccer_report_mapping_level|].
  intros [] printed2 ->.
  eapply hoare_seq; [apply soccer_sample_rows_widened|].
  intros [] printed3 ->.
  eapply hoare_seq; [apply soccer_statistics_level|].
  intros [] printed4 ->.
  apply (hoare_seq _ (same_data w0) _ _
           (fun _ printed =>
              printed
              = [ Banner "DATA QUALITY ANALYSIS:"; Rule ]
                ++ map (null_line (soccer_headers w0) w0)
                     ExamineSoccer.quality_cols)).
  { intros w [Hd Hc].
    destruct (data_quality_steady w0 (soccer_headers w0) Hrow w Hd)
      as (results & w' & printed & E & Hd' & _ & ->).
    by eexists results, w', _. }
  intros results printed5 ->.
  eapply hoare_weaken; [apply (conclusion_level (same_data w0))|done|].
  intros [] w printed [Hw ->]. split; [done|].
  reflexivity.
Qed.

(** ** Ranges and the first row *)

Lemma range_lookup a b (i : nat) :
  Z.of_nat i < b - a -> range a b !! i = Some (a + Z.of_nat i).
Proof.
  intros Hi. unfold range. rewrite list_lookup_fmap.
  rewrite lookup_seq_lt by lia. done.
Qed.

Lemma range_elem a b x : a <= x < b -> x ∈ range a b.
Proof.
  intros Hx. apply (list_elem_of_lookup_2 _ (Z.to_nat (x - a))).
  rewrite range_lookup by lia. f_equal. lia.
Qed.

Lemma elem_of_range_iff a b x : x ∈ range a b <-> a <= x < b.
Proof. split; [apply elem_of_range|apply range_elem]. Qed.

Lemma first_row_length w n :
  0 <= n -> Z.of_nat (length (first_row w n)) = n.
Proof. intros Hn. unfold first_row. rewrite length_map, length_range. lia. Qed.

Lemma first_row_lookup w n col :
  1 <= col <= n ->
  first_row w n !! Z.to_nat (col - 1) = Some (value_at w 1 col).
Proof.
  intros Hcol. unfold first_row. rewrite list_lookup_fmap.
  rewrite range_lookup by lia. simpl. do 2 f_equal. lia.
Qed.

Lemma header_at_first_row w n col fallback :
  0 <= n -> 1 <= col ->
  header_at (first_row w n) col fallback
  = if col <=? n then value_at w 1 col else fallback.
Proof.
  intros Hn Hcol. unfold header_at. destruct (Z.leb_spec col n).
  - by rewrite first_row_lookup by lia.
  - rewrite (proj2 (lookup_ge_None _ _)); [done|].
    pose proof (first_row_length w n Hn). lia.
Qed.

Lemma elem_of_headers_lines w n col v :
  ColumnHeader col v
    ∈ map (fun col => ColumnHeader col (value_at w 1 col)) (range 1 (n + 1))
  <-> 1 <= col <= n /\ v = value_at w 1 col.
Proof.
  rewrite list_elem_of_fmap. split.
  - intros (c & E & Hc). apply elem_of_range in Hc.
    injection E as -> ->. split; [lia|done].
  - intros [Hc ->]. exists col. split; [done|]. apply range_elem. lia.
Qed.

(** X1.  examine_excel.py collects the headers of the columns 1 to 49
    and no more (the comment of the source speaks of 50, the loop stops
    before column 50): the list has one entry for each column of the
    sheet up to the 49th, in order, the entry of a column being the
    value of its cell in row 1; after the heading and the rule the loop
    prints one header line for each of these columns, in the order of
    the columns, and nothing else.  The loop raises nothing and leaves
    the data and the width of the sheet as they were. *)
Theorem excel_headers_stop_at_49 w :
  exists headers w',
    ExamineExcel.read_headers w
    = (Ok headers, w',
       [ Banner "COLUMN HEADERS (Row 1):"; Rule ]
       ++ map (fun col => ColumnHeader col (value_at w 1 col))
            (range 1 (Z.min (max_column w) 49 + 1)))
    /\ same_extent w w'
    /\ Z.of_nat (length headers) = Z.min (max_column w) 49
    /\ (forall col,
          1 <= col <= Z.min (max_column w) 49 ->
          headers !! Z.to_nat (col - 1) = Some (value_at w 1 col))
    /\ Z.of_nat (length (range 1 (Z.min (max_column w) 49 + 1)))
       = Z.min (max_column w) 49.
Proof.
  destruct (excel_read_headers_level w w (same_extent_refl w))
    as (headers & w' & printed & E & Hw & -> & ->).
  pose proof (max_column_ge_1 w).
  exists (first_row w (Z.min (max_column w) 49)), w'.
  split; [exact E|]. split; [done|].
  split; [apply first_row_length; lia|].
  split; [intros col Hcol; by apply first_row_lookup|].
  rewrite length_range. lia.
Qed.

(** X2.  examine_soccer.py collects the headers of all columns, however
    many: the list is as long as the sheet is wide, and a column beyond
    the 49th has its header line here. *)
Theorem soccer_headers_all_columns w :
  exists headers w' printed,
    ExamineSoccer.read_headers w = (Ok headers, w', printed)
    /\ same_extent w w'
    /\ Z.of_nat (length headers) = max_column w
    /\ (forall col,
          1 <= col <= max_column w ->
          headers !! Z.to_nat (col - 1) = Some (value_at w 1 col))
    /\ (forall col v,
          ColumnHeader col v ∈ printed
          <-> 1 <= col <= max_column w /\ v = value_at w 1 col).
Proof.
  destruct (soccer_read_headers_level w w (same_extent_refl w))
    as (headers & w' & printed & E & Hw & -> & ->).
  pose proof (max_column_ge_1 w).
  exists (first_row w (max_column w)), w'. eexists.
  split; [exact E|]. split; [done|].
  split; [apply first_row_length; lia|].
  split; [intros col Hcol; by apply first_row_lookup|].
  intros col v. rewrite elem_of_app, elem_of_headers_lines.
  split; [intros [Hb|Hc]; [|done]|by right].
  apply list_elem_of_In in Hb. simpl in Hb. intuition discriminate.
Qed.

(** ** Lines of a report *)

Lemma elem_of_flat_map {A B} (f : A -> list B) (xs : list A) (y : B) :
  y ∈ flat_map f xs <-> exists x, x ∈ xs /\ y ∈ f x.
Proof.
  rewrite list_elem_of_In, in_flat_map.
  by setoid_rewrite list_elem_of_In.
Qed.

(** A line that a part of a report cannot contain. *)
Ltac absent H :=
  first
    [ apply list_elem_of_In in H; simpl in H; intuition discriminate
    | apply list_elem_of_fmap in H as (? & ? & _); discriminate ].

Lemma elem_of_excel_sample_row w headers row (l : line) :
  l ∈ excel_sample_row w headers row
  <-> l = RowStart row
      \/ exists col,
           1 <= col <= Z.min (max_column w) 29
           /\ shown (value_at w row col) = true
           /\ l = SampleCell col (quality_name headers col)
                    (value_at w row col).
Proof.
  unfold excel_sample_row. rewrite elem_of_cons, elem_of_flat_map.
  apply or_iff_compat_l. split.
  - intros (col & Hcol & Hl). apply elem_of_range in Hcol.
    simpl in Hl. destruct (shown (value_at w row col)) eqn:Hs.
    + apply list_elem_of_singleton in Hl. exists col.
      split; [lia|]. done.
    + by apply elem_of_nil in Hl.
  - intros (col & Hcol & Hs & ->). exists col.
    split; [apply range_elem; lia|]. simpl. rewrite Hs.
    apply list_elem_of_here.
Qed.

Lemma elem_of_soccer_sample_row width w headers row (l : line) :
  l ∈ soccer_sample_row width w headers row
  <-> l = RowStart row
      \/ exists col,
           col ∈ ExamineSoccer.key_cols /\ col <= width
           /\ l = SampleCell col (quality_name headers col)
                    (value_at w row col).
Proof.
  unfold soccer_sample_row.
  rewrite elem_of_cons, list_elem_of_fmap.
  apply or_iff_compat_l. split.
  - intros (col & -> & Hcol). apply list_elem_of_In, filter_In in Hcol.
    destruct Hcol as [Hcol Hle]. apply list_elem_of_In in Hcol.
    apply Z.leb_le in Hle. by exists col.
  - intros (col & Hcol & Hle & ->). exists col. split; [done|].
    apply list_elem_of_In, filter_In. split; [by apply list_elem_of_In|].
    by apply Z.leb_le.
Qed.

Lemma excel_header_name w col fallback :
  1 <= col <= 49 ->
  header_at (excel_headers w) col fallback
  = if col <=? max_column w then value_at w 1 col else fallback.
Proof.
  intros Hcol. unfold excel_headers. pose proof (max_column_ge_1 w).
  rewrite header_at_first_row by lia.
  destruct (Z.leb_spec col (Z.min (max_column w) 49)),
    (Z.leb_spec col (max_column w)); try done; lia.
Qed.

Lemma filter_none {A} (f : A -> bool) (l : list A) :
  (forall x, x ∈ l -> f x = false) -> List.filter f l = [].
Proof.
  induction l as [|x l IH]; intros Hall; simpl; [done|].
  rewrite (Hall x) by left. apply IH. intros y Hy. apply Hall. by right.
Qed.

Lemma filter_all {A} (f : A -> bool) (l : list A) :
  (forall x, x ∈ l -> f x = true) -> List.filter f l = l.
Proof.
  induction l as [|x l IH]; intros Hall; simpl; [done|].
  rewrite (Hall x) by left. f_equal. apply IH.
  intros y Hy. apply Hall. by right.
Qed.

Lemma sample_cells_filter w headers row (cols : list Z) :
  (forall col, col ∈ cols -> quality_name headers col = value_at w 1 col) ->
  flat_map
    (fun col =>
       let v := value_at w row col in
       if shown v then [SampleCell col (quality_name headers col) v] else [])
    cols
  = map (fun col => SampleCell col (value_at w 1 col) (value_at w row col))
      (List.filter (fun col => shown (value_at w row col)) cols).
Proof.
  induction cols as [|col cols IH]; intros Hname; [done|].
  cbn [flat_map List.filter]. cbn zeta in IH.
  rewrite IH by (intros c Hc; apply Hname; by right).
  destruct (shown (value_at w row col)); simpl; [|done].
  by rewrite (Hname col) by left.
Qed.

Lemma excel_sample_row_block w row :
  excel_sample_row w (excel_headers w) row = excel_sample_block w row.
Proof.
  unfold excel_sample_row, excel_sample_block. f_equal.
  replace (Z.min (max_column w + 1) 30)
    with (Z.min (max_column w) 29 + 1) by lia.
  apply sample_cells_filter. intros col Hcol. apply elem_of_range in Hcol.
  unfold quality_name. rewrite excel_header_name by lia.
  by replace (col <=? max_column w) with true by (symmetry; apply Z.leb_le; lia).
Qed.

Lemma sample_lines_excel_report max_str_digits current_day file_path w :
  sample_lines (excel_report max_str_digits current_day file_path w)
  = flat_map (excel_sample_block w) (range 2 (Z.min (max_row w) 6 + 1)).
Proof.
  unfold sample_lines, excel_report. rewrite !List.filter_app.
  rewrite (filter_none _ (map _ (range 1 _)))
    by (intros l Hl; apply list_elem_of_fmap in Hl as (? & -> & _); done).
  rewrite (filter_none _ (map _ (sorted_items _)))
    by (intros l Hl; apply list_elem_of_fmap in Hl as (? & -> & _); done).
  rewrite (filter_all _ (flat_map _ _)).
  - cbn [List.filter is_sample_line app]. rewrite app_nil_r.
    replace (Z.min (max_row w + 1) 7) with (Z.min (max_row w) 6 + 1) by lia.
    apply flat_map_ext. intros row. apply excel_sample_row_block.
  - intros l Hl. apply elem_of_flat_map in Hl as (row & _ & Hl).
    by apply elem_of_excel_sample_row in Hl as [->|(c & _ & _ & ->)].
Qed.

(** X3.  The sample section of examine_excel.py, in the whole run: the
    report holds, for each of the rows 2 to 6 of the sheet and in the
    order of the rows, the heading of the row followed by one line for
    each cell of the row in the columns 1 to 29 whose value is neither
    [None] nor a text of white space only, in the order of the columns;
    the line carries the header of the column from row 1 (the fallback
    name is never needed).  These are all the sample lines of the
    report.  A cell with the number 0 is shown. *)
Theorem excel_sample_shows_filled_cells max_str_digits current_day file_path w :
  exists w' printed,
    ExamineExcel.inspect max_str_digits current_day file_path w
    = (Ok tt, w', printed)
    /\ sample_lines printed
       = flat_map (excel_sample_block w) (range 2 (Z.min (max_row w) 6 + 1))
    /\ shown VNone = false /\ shown (VStr "  ") = false
    /\ shown (VInt 0) = true.
Proof.
  destruct (excel_inspect_report max_str_digits current_day file_path w)
    as (w' & E & _).
  exists w', (excel_report max_str_digits current_day file_path w).
  split; [done|].
  split; [apply sample_lines_excel_report|].
  by vm_compute.
Qed.

Lemma value_at_beyond_width w row col :
  max_column w < col -> value_at w row col = VNone.
Proof.
  intros Hcol. unfold value_at.
  destruct (cells w !! (row, col)) as [v|] eqn:E; [|done].
  apply max_column_lookup in E. lia.
Qed.

Lemma key_cols_within width :
  38 <= width ->
  List.filter (fun col => col <=? width) ExamineSoccer.key_cols
  = ExamineSoccer.key_cols.
Proof.
  intros Hw. unfold ExamineSoccer.key_cols. simpl.
  repeat match goal with
         | |- context [?k <=? width] =>
             replace (k <=? width) with true by (symmetry; apply Z.leb_le; lia)
         end.
  done.
Qed.

Lemma key_cols_positive col : col ∈ ExamineSoccer.key_cols -> 1 <= col <= 38.
Proof.
  unfold ExamineSoccer.key_cols. intros Hin.
  repeat (apply elem_of_cons in Hin as [->|Hin]; [lia|]).
  by apply elem_of_nil in Hin.
Qed.

Lemma soccer_header_name w col :
  1 <= col ->
  quality_name (soccer_headers w) col
  = if col <=? max_column w then value_at w 1 col
    else VStr ("Col" +:+ str (VInt col)).
Proof.
  intros Hcol. unfold quality_name, soccer_headers.
  pose proof (max_column_ge_1 w). by rewrite header_at_first_row by lia.
Qed.

Lemma soccer_sample_row_block w row :
  2 <= max_row w ->
  soccer_sample_row (width_after_mapping w) w (soccer_headers w) row
  = soccer_sample_block w row.
Proof.
  intros Hrow. unfold soccer_sample_row, soccer_sample_block. f_equal.
  rewrite key_cols_within.
  - apply map_ext_in. intros col Hcol. apply list_elem_of_In in Hcol.
    rewrite soccer_header_name; [done|by apply key_cols_positive].
  - unfold width_after_mapping.
    replace (2 <=? max_row w) with true by (symmetry; apply Z.leb_le; lia).
    lia.
Qed.

Lemma sample_lines_soccer_report max_str_digits current_day w :
  2 <= max_row w ->
  sample_lines (soccer_report max_str_digits current_day w)
  = flat_map (soccer_sample_block w) (range 2 (Z.min (max_row w) 4 + 1)).
Proof.
  intros Hrow. unfold sample_lines, soccer_report. rewrite !List.filter_app.
  rewrite (filter_none _ (map _ (range 1 _)))
    by (intros l Hl; apply list_elem_of_fmap in Hl as (? & -> & _); done).
  rewrite (filter_none _ (map _ (sorted_items _)))
    by (intros l Hl; apply list_elem_of_fmap in Hl as (? & -> & _); done).
  rewrite (filter_none _ (map _ ExamineSoccer.quality_cols))
    by (intros l Hl; apply list_elem_of_fmap in Hl as (? & -> & _); done).
  rewrite (filter_all _ (flat_map _ _)).
  - cbn [List.filter is_sample_line app]. rewrite app_nil_r.
    replace (Z.min (max_row w + 1) 5) with (Z.min (max_row w) 4 + 1) by lia.
    apply flat_map_ext. intros row. by apply soccer_sample_row_block.
  - intros l Hl. apply elem_of_flat_map in Hl as (row & _ & Hl).
    by apply elem_of_soccer_sample_row in Hl as [->|(c & _ & _ & ->)].
Qed.

(** X4.  In examine_soccer.py the test [col <= ws.max_column] of the
    sample rows never fails once the sheet has a data row: the mapping
    report before it has read row 2 up to column 38 and thereby widened
    the sheet.  In the whole run the report holds, for each of the rows
    2 to 4 of the sheet and in their order, the heading of the row
    followed by one line for each of the thirteen key columns, in their
    order; a key column beyond the width of the sheet as loaded stands
    under the name Col<n> with the value [None].  These are all the
    sample lines of the report.  Run on its own on the sheet as loaded,
    the loop prints no line for a column beyond the width. *)
Theorem soccer_samples_show_all_key_columns max_str_digits current_day w :
  2 <= max_row w ->
  (exists w' printed,
     ExamineSoccer.inspect max_str_digits current_day w = (Ok tt, w', printed)
     /\ sample_lines printed
        = flat_map (soccer_sample_block w)
            (range 2 (Z.min (max_row w) 4 + 1)))
  /\ (forall row col, max_column w < col -> value_at w row col = VNone)
  /\ (forall headers,
      exists w' printed,
        ExamineSoccer.sample_rows headers w = (Ok tt, w', printed)
        /\ forall col h v,
             SampleCell col h v ∈ printed -> col <= max_column w).
Proof.
  intros Hrow. split; [|split].
  - destruct (soccer_inspect_report max_str_digits current_day w Hrow)
      as (w' & E & _).
    exists w', (soccer_report max_str_digits current_day w).
    split; [done|]. by apply sample_lines_soccer_report.
  - intros. by apply value_at_beyond_width.
  - intros headers.
    destruct (soccer_sample_rows_level w headers w (same_extent_refl w))
      as ([] & w' & printed & E & _ & ->).
    exists w'. eexists. split; [exact E|].
    intros col h v Hl. apply elem_of_app in Hl as [Hl|Hl]; [absent Hl|].
    apply elem_of_flat_map in Hl as (row & _ & Hl).
    apply elem_of_soccer_sample_row in Hl as [Hl|(c & _ & Hc & Hl)];
      [discriminate|].
    by injection Hl as -> _ _.
Qed.

Lemma soccer_samples_show_all_key_columns_witness :
  2 <= max_row two_matches
  /\ exists w' printed,
       ExamineSoccer.inspect 4300 5 two_matches = (Ok tt, w', printed)
       /\ sample_lines printed
          = flat_map (soccer_sample_block two_matches) [2; 3].
Proof.
  assert (H : 2 <= max_row two_matches) by (vm_compute; discriminate).
  split; [exact H|].
  destruct (proj1 (soccer_samples_show_all_key_columns 4300 5 two_matches H))
    as (w' & printed & E & Hl).
  exists w', printed. split; [exact E|exact Hl].
Defined.

(** ** The mapping lines of the whole reports *)

Lemma excel_mapped_bounds col name :
  ExamineExcel.column_mapping !! col = Some name -> 2 <= col <= 38.
Proof.
  rewrite <- elem_of_sorted_items, sorted_items_excel. intros Hin.
  repeat (apply elem_of_cons in Hin as [E|Hin]; [injection E as -> _; lia|]).
  by apply elem_of_nil in Hin.
Qed.

Lemma soccer_mapped_bounds col name :
  ExamineSoccer.column_mapping !! col = Some name -> 2 <= col <= 38.
Proof.
  rewrite <- elem_of_sorted_items, sorted_items_soccer. intros Hin.
  repeat (apply elem_of_cons in Hin as [E|Hin]; [injection E as -> _; lia|]).
  by apply elem_of_nil in Hin.
Qed.

Lemma elem_of_mapping_lines headers w fallback (d : gmap Z string)
    col name header sample :
  MappingLine col name header sample
    ∈ map (mapping_line headers w fallback) (sorted_items d)
  <-> d !! col = Some name
      /\ header = header_at headers col (VStr fallback)
      /\ sample = (if 2 <=? max_row w then value_at w 2 col else VStr "N/A").
Proof.
  rewrite list_elem_of_fmap. split.
  - intros ([c n] & E & Hin). apply elem_of_sorted_items in Hin.
    unfold mapping_line in E. simpl in E. by injection E as -> -> -> ->.
  - intros (Hd & -> & ->). exists (col, name).
    split; [done|]. by apply elem_of_sorted_items.
Qed.

(** X5.  The mapping report of examine_excel.py, in the whole run: a
    mapping line is printed for exactly the twelve entries of the table;
    its header is the value of row 1 in that column, and the text N/A
    exactly when the sheet is narrower than the column (the limit of 49
    headers never hides a mapped column); its sample is the value of
    row 2, and N/A on a sheet without a second row. *)
Theorem excel_mapping_lines_of_sheet max_str_digits current_day file_path w :
  exists w' printed,
    ExamineExcel.inspect max_str_digits current_day file_path w
    = (Ok tt, w', printed)
    /\ forall col name header sample,
         MappingLine col name header sample ∈ printed
         <-> ExamineExcel.column_mapping !! col = Some name
             /\ header = (if col <=? max_column w then value_at w 1 col
                          else VStr "N/A")
             /\ sample = (if 2 <=? max_row w then value_at w 2 col
                          else VStr "N/A").
Proof.
  destruct (excel_inspect_report max_str_digits current_day file_path w)
    as (w' & E & _).
  exists w', (excel_report max_str_digits current_day file_path w).
  split; [done|]. intros col name header sample.
  unfold excel_report. rewrite !elem_of_app. split.
  - intros [Hl|[[Hl|Hl]|[[Hl|Hl]|[[Hl|Hl]|Hl]]]]; try absent Hl.
    + apply elem_of_flat_map in Hl as (row & _ & Hl).
      apply elem_of_excel_sample_row in Hl as [Hl|(c & _ & _ & Hl)];
        discriminate.
    + apply elem_of_mapping_lines in Hl as (Hd & -> & ->).
      split; [done|]. split; [|done].
      apply excel_mapped_bounds in Hd. apply excel_header_name. lia.
  - intros (Hd & -> & ->). right. right. right. left. right.
    apply elem_of_mapping_lines. split; [done|]. split; [|done].
    apply excel_mapped_bounds in Hd. rewrite excel_header_name; [done|lia].
Qed.

(** X6.  The same for examine_soccer.py on a sheet with a data row: the
    header of a mapped column beyond the width of the sheet is the text
    OUT OF RANGE, and the sample is always the value of row 2. *)
Theorem soccer_mapping_lines_of_sheet max_str_digits current_day w :
  2 <= max_row w ->
  exists w' printed,
    ExamineSoccer.inspect max_str_digits current_day w = (Ok tt, w', printed)
    /\ forall col name header sample,
         MappingLine col name header sample ∈ printed
         <-> ExamineSoccer.column_mapping !! col = Some name
             /\ header = (if col <=? max_column w then value_at w 1 col
                          else VStr "OUT OF RANGE")
             /\ sample = value_at w 2 col.
Proof.
  intros Hrow.
  destruct (soccer_inspect_report max_str_digits current_day w Hrow)
    as (w' & E & _).
  exists w', (soccer_report max_str_digits current_day w).
  split; [done|]. intros col name header sample.
  pose proof (max_column_ge_1 w).
  assert (forall c, 1 <= c ->
            header_at (soccer_headers w) c (VStr "OUT OF RANGE")
            = if c <=? max_column w then value_at w 1 c
              else VStr "OUT OF RANGE") as Hname.
  { intros c Hc. unfold soccer_headers. by rewrite header_at_first_row by lia. }
  unfold soccer_report. rewrite !elem_of_app. split.
  - intros [Hl|[[Hl|Hl]|[[Hl|Hl]|[[Hl|Hl]|[Hl|[[Hl|Hl]|Hl]]]]]];
      try absent Hl.
    + apply elem_of_mapping_lines in Hl as (Hd & -> & ->).
      split; [done|]. apply soccer_mapped_bounds in Hd.
      split; [apply Hname; lia|].
      by replace (2 <=? max_row w) with true by (symmetry; apply Z.leb_le; lia).
    + apply elem_of_flat_map in Hl as (row & _ & Hl).
      apply elem_of_soccer_sample_row in Hl as [Hl|(c & _ & _ & Hl)];
        discriminate.
  - intros (Hd & -> & ->). right. right. left. right.
    apply elem_of_mapping_lines. split; [done|].
    apply soccer_mapped_bounds in Hd. split; [rewrite Hname; [done|lia]|].
    by replace (2 <=? max_row w) with true by (symmetry; apply Z.leb_le; lia).
Qed.

Lemma soccer_mapping_lines_of_sheet_witness :
  2 <= max_row two_matches
  /\ exists w' printed,
       ExamineSoccer.inspect 4300 5 two_matches = (Ok tt, w', printed)
       /\ MappingLine 2 "HomeTeam" (VStr "home") (VStr "Ajax") ∈ printed
       /\ MappingLine 38 "UnderThreeGoals (u_3)" (VStr "OUT OF RANGE") VNone
            ∈ printed.
Proof.
  assert (H : 2 <= max_row two_matches) by (vm_compute; discriminate).
  split; [exact H|].
  destruct (soccer_mapping_lines_of_sheet 4300 5 two_matches H)
    as (w' & printed & E & Hl).
  exists w', printed. split; [exact E|].
  split; apply Hl; (split; [reflexivity|]); split; reflexivity.
Defined.

(** X7.  Neither inspection changes the data of the sheet it reads:
    title, last row and the value of every cell are afterwards what
    they were.  The reads only add empty cells; with a data row present
    the sheet ends at least 38 columns wide, which is what a later
    [ws.max_column] sees. *)
Theorem inspections_keep_the_data max_str_digits current_day file_path w :
  (exists w' printed,
     ExamineExcel.inspect max_str_digits current_day file_path w
     = (Ok tt, w', printed)
     /\ title w' = title w /\ max_row w' = max_row w
     /\ (forall row col, value_at w' row col = value_at w row col)
     /\ max_column w'
        = (if 2 <=? max_row w then Z.max (max_column w) 38
           else max_column w))
  /\ (2 <= max_row w ->
      exists w' printed,
        ExamineSoccer.inspect max_str_digits current_day w
        = (Ok tt, w', printed)
        /\ title w' = title w /\ max_row w' = max_row w
        /\ (forall row col, value_at w' row col = value_at w row col)).
Proof.
  split.
  - destruct (excel_inspect_report max_str_digits current_day file_path w)
      as (w' & E & (Ht & Hr & Hv) & Hc).
    exists w'. eexists. split; [exact E|]. by repeat split.
  - intros Hrow.
    destruct (soccer_inspect_report max_str_digits current_day w Hrow)
      as (w' & E & (Ht & Hr & Hv)).
    exists w'. eexists. split; [exact E|]. by repeat split.
Qed.

(** ** check_worksheets.py *)

Lemma tally_length_filter p vs :
  tally p vs = Z.of_nat (length (List.filter p vs)).
Proof.
  induction vs as [|v vs IH]; simpl; [done|].
  destruct (p v); simpl; lia.
Qed.

Lemma collect_headers_level w0 :
  hoare (same_extent w0) CheckWorksheets.collect_headers
    (fun headers w printed =>
       same_extent w0 w /\ (headers = listed_headers w0 /\ printed = [])).
Proof.
  unfold CheckWorksheets.collect_headers. repeat level_step.
  replace (Z.min (max_column w0 + 1) 50)
    with (Z.min (max_column w0) 49 + 1) by lia.
  eapply hoare_weaken; [|done|].
  - apply (hoare_loop (same_extent w0)
             (fun done headers printed =>
                headers
                = map str (List.filter truthy
                             (map (fun col => value_at w0 1 col) done))
                /\ printed = [])); [done|].
    intros done col rest headers printed Hsplit [-> ->].
    pose proof (elem_of_split_range _ _ _ _ _ _ eq_refl Hsplit) as Hcol.
    pose proof (max_row_ge_1 w0).
    repeat level_step. split; [done|]. split; [|done].
    rewrite map_app, List.filter_app, map_app. simpl.
    destruct (truthy (value_at w0 1 col)); simpl; by rewrite ?app_nil_r.
  - intros headers w printed (Hw & -> & ->). done.
Qed.








(** X9.  The header line of check_worksheets.py lists, in the order of
    the columns, the texts of the headers that are true in a condition:
    a header that is [None], an empty text or the number 0 is left out
    without a trace, so that the place of a text in the line does not
    tell its column.  The headers looked at are those that
    examine_excel.py collects from the same sheet, the first 49
    columns. *)
Theorem check_worksheets_lists_truthy_headers w :
  exists headers w' w'' printed,
    CheckWorksheets.collect_headers w = (Ok (listed_headers w), w', [])
    /\ same_extent w w'
    /\ ExamineExcel.read_headers w = (Ok headers, w'', printed)
    /\ listed_headers w = map str (List.filter truthy headers)
    /\ (forall s,
          s ∈ listed_headers w
          <-> exists col,
                1 <= col <= Z.min (max_column w) 49
                /\ truthy (value_at w 1 col) = true
                /\ s = str (value_at w 1 col))
    /\ Z.of_nat (length (listed_headers w))
       = tally truthy headers.
Proof.
  destruct (collect_headers_level w w (same_extent_refl w))
    as (hs & w' & o & E & Hw & -> & ->).
  destruct (excel_read_headers_level w w (same_extent_refl w))
    as (headers & w'' & printed & E' & _ & -> & ->).
  exists (excel_headers w), w', w''. eexists.
  split; [exact E|]. split; [done|]. split; [exact E'|]. split; [done|].
  split.
  - intros s. unfold listed_headers, excel_headers, first_row.
    rewrite list_elem_of_fmap. split.
    + intros (v & -> & Hv). apply list_elem_of_In, filter_In in Hv.
      destruct Hv as [Hv Ht]. apply list_elem_of_In, list_elem_of_fmap in Hv.
      destruct Hv as (col & -> & Hcol). apply elem_of_range in Hcol.
      exists col. split; [lia|done].
    + intros (col & Hcol & Ht & ->). exists (value_at w 1 col).
      split; [done|]. apply list_elem_of_In, filter_In. split; [|done].
      apply list_elem_of_In, list_elem_of_fmap. exists col.
      split; [done|]. apply range_elem. lia.
  - unfold listed_headers. rewrite length_map. symmetry.
    apply tally_length_filter.
Qed.

Lemma inspections_keep_the_data_witness :
  2 <= max_row two_matches
  /\ exists w' printed,
       ExamineSoccer.inspect 4300 5 two_matches = (Ok tt, w', printed)
       /\ max_row w' = max_row two_matches.
Proof.
  assert (H : 2 <= max_row two_matches) by (vm_compute; discriminate).
  split; [exact H|].
  destruct (proj2 (inspections_keep_the_data 4300 5 [] two_matches) H)
    as (w' & printed & E & _ & Hr & _).
  exists w', printed. split; [exact E|exact Hr].
Defined.

(** ** A sheet without data rows *)

(** X10.  On a sheet that has only the header row examine_excel.py runs
    to its end: it shows no sample row, gives N/A as the sample of every
    mapped column, reports 0 data rows, 0 matches for today and 0
    matches in all, and leaves the width of the sheet alone; the same
    sheet makes examine_soccer.py stop with a division by zero. *)
Theorem excel_accepts_header_only_sheet max_str_digits current_day file_path w :
  max_row w = 1 ->
  (exists w' before,
     ExamineExcel.inspect max_str_digits current_day file_path w
     = (Ok tt, w',
        before ++ [ Banner "DATA STATISTICS:"; Rule; TotalRows 0;
                    TodayMatches current_day 0; TotalMatches 0 ])
     /\ (forall row, RowStart row ∉ before)
     /\ (forall col h v, SampleCell col h v ∉ before)
     /\ (forall col name header sample,
           MappingLine col name header sample ∈ before ->
           ExamineExcel.column_mapping !! col = Some name
           /\ sample = VStr "N/A")
     /\ max_column w' = max_column w)
  /\ exists w' printed,
       ExamineSoccer.inspect max_str_digits current_day w
       = (Raise ZeroDivisionError, w', printed).
Proof.
  intros Hrow. split.
  - destruct (excel_inspect_report max_str_digits current_day file_path w)
      as (w' & E & _ & Hc).
    exists w'. eexists. split.
    { rewrite E. unfold excel_report, data_column. rewrite Hrow.
      rewrite (range_nil 2 (1 + 1)) by lia. simpl map at 3. simpl tally.
      rewrite !app_assoc. reflexivity. }
    rewrite (range_nil 2 (Z.min (1 + 1) 7)) by lia. simpl flat_map.
    split; [|split; [|split]].
    + intros row Hl. rewrite !elem_of_app in Hl.
      destruct Hl as [[[[[[Hl|Hl]|Hl]|Hl]|Hl]|Hl]|Hl]; absent Hl.
    + intros col h v Hl. rewrite !elem_of_app in Hl.
      destruct Hl as [[[[[[Hl|Hl]|Hl]|Hl]|Hl]|Hl]|Hl]; absent Hl.
    + intros col name header sample Hl. rewrite !elem_of_app in Hl.
      destruct Hl as [[[[[[Hl|Hl]|Hl]|Hl]|Hl]|Hl]|Hl]; try absent Hl.
      apply elem_of_mapping_lines in Hl as (Hd & _ & ->).
      split; [done|]. by rewrite Hrow.
    + rewrite Hc. unfold width_after_mapping. by rewrite Hrow.
  - destruct (soccer_inspect_aborts max_str_digits current_day w Hrow w
                (same_data_refl w)) as (w' & printed & E & _).
    by exists w', printed.
Qed.

Lemma excel_accepts_header_only_sheet_witness :
  max_row header_only = 1
  /\ exists w' before,
       ExamineExcel.inspect 4300 5 ["Resources"; "predictions.xlsx"]
         header_only
       = (Ok tt, w',
          before ++ [ Banner "DATA STATISTICS:"; Rule; TotalRows 0;
                      TodayMatches 5 0; TotalMatches 0 ]).
Proof.
  assert (H : max_row header_only = 1) by reflexivity.
  split; [exact H|].
  destruct (proj1 (excel_accepts_header_only_sheet 4300 5
                     ["Resources"; "predictions.xlsx"] header_only H))
    as (w' & before & E & _).
  exists w', before. exact E.
Defined.

(** ** The scripts from start to end *)

Lemma excel_guarded_report max_str_digits current_day fs file_path printed
    wb w :
  load_workbook fs file_path = Ok wb -> active wb = Sheet w ->
  ExamineExcel.guarded_examine max_str_digits current_day fs file_path printed
  = Outcome
      (printed ++ excel_report max_str_digits current_day file_path w)
      [] [file_path] 0.
Proof.
  intros Hload Hactive.
  unfold ExamineExcel.guarded_examine, ExamineExcel.examine_excel, with_sheet.
  rewrite Hload, Hactive.
  destruct (excel_inspect_report max_str_digits current_day file_path w)
    as (w' & E & _).
  by rewrite E.
Qed.

Lemma excel_main_at_primary max_str_digits current_day script_dir fs wb w :
  fs !! (script_dir ++ ["Resources"; "predictions.xlsx"]) = Some (Ok wb) ->
  active wb = Sheet w ->
  ExamineExcel.main max_str_digits current_day script_dir fs
  = Outcome
      (excel_report max_str_digits current_day
         (script_dir ++ ["Resources"; "predictions.xlsx"]) w)
      [] [script_dir ++ ["Resources"; "predictions.xlsx"]] 0.
Proof.
  intros Hfile Hactive.
  unfold ExamineExcel.main, ExamineExcel.primary_path.
  rewrite exists_lookup, Hfile.
  apply (excel_guarded_report _ _ _ _ [] wb w); [|done].
  by apply load_workbook_lookup.
Qed.



Lemma today_counts_app o1 o2 :
  today_counts (o1 ++ o2) = today_counts o1 ++ today_counts o2.
Proof.
  induction o1 as [|l o1 IH]; simpl; [done|].
  destruct l; simpl; by rewrite ?IH.
Qed.

Lemma today_counts_none o :
  (forall day n, TodayMatches day n ∉ o) -> today_counts o = [].
Proof.
  induction o as [|l o IH]; intros Hno; simpl; [done|].
  assert (today_counts o = []) as Ho.
  { apply IH. intros day n Hin. apply (Hno day n). by right. }
  destruct l; try done. exfalso. apply (Hno day count). by left.
Qed.

Lemma today_counts_excel_report max_str_digits current_day file_path w :
  today_counts (excel_report max_str_digits current_day file_path w)
  = [tally (counted max_str_digits current_day) (data_column w 5)].
Proof.
  unfold excel_report. rewrite !today_counts_app.
  rewrite (today_counts_none (map _ (range 1 _))) by (intros ? ? Hl; absent Hl).
  rewrite (today_counts_none (map _ (sorted_items _)))
    by (intros ? ? Hl; absent Hl).
  rewrite (today_counts_none (flat_map _ _)).
  - reflexivity.
  - intros day n Hl. apply elem_of_flat_map in Hl as (row & _ & Hl).
    apply elem_of_excel_sample_row in Hl as [Hl|(c & _ & _ & Hl)];
      discriminate.
Qed.

Lemma today_counts_soccer_report max_str_digits current_day w :
  today_counts (soccer_report max_str_digits current_day w)
  = [tally (counted max_str_digits current_day) (data_column w 5)].
Proof.
  unfold soccer_report. rewrite !today_counts_app.
  rewrite (today_counts_none (map _ (range 1 _))) by (intros ? ? Hl; absent Hl).
  rewrite (today_counts_none (map _ (sorted_items _)))
    by (intros ? ? Hl; absent Hl).
  rewrite (today_counts_none (map _ ExamineSoccer.quality_cols))
    by (intros ? ? Hl; absent Hl).
  rewrite (today_counts_none (flat_map _ _)).
  - reflexivity.
  - intros day n Hl. apply elem_of_flat_map in Hl as (row & _ & Hl).
    apply elem_of_soccer_sample_row in Hl as [Hl|(c & _ & _ & Hl)];
      discriminate.
Qed.

(** X12.  The whole of examine_soccer.py on a workbook whose sheet
    soccer is a worksheet with a data row: the output is the report of
    that sheet, seven sections in the order of the source, the exit code
    is 0 and nothing goes to the error stream.  The report gives one
    count of today's matches; when the sheet soccer is also the active
    sheet, examine_excel.py gives the same count on the same day. *)
Theorem examine_soccer_output max_str_digits current_day script_dir fs wb w :
  load_workbook fs ExamineSoccer.workbook_path = Ok wb ->
  wb_getitem wb "soccer" = Ok (Sheet w) ->
  2 <= max_row w ->
  let o := ExamineSoccer.script max_str_digits current_day fs in
  o = Outcome (soccer_report max_str_digits current_day w) []
        [ExamineSoccer.workbook_path] 0
  /\ today_counts (stdout o)
     = [tally (counted max_str_digits current_day) (data_column w 5)]
  /\ (active wb = Sheet w ->
      fs !! (script_dir ++ ["Resources"; "predictions.xlsx"]) = Some (Ok wb) ->
      today_counts
        (stdout (ExamineExcel.main max_str_digits current_day script_dir fs))
      = today_counts (stdout o)).
Proof.
  intros Hload Hsheet Hrow o.
  assert (o = Outcome (soccer_report max_str_digits current_day w) []
                [ExamineSoccer.workbook_path] 0) as Ho.
  { subst o. unfold ExamineSoccer.script, with_sheet.
    rewrite Hload, Hsheet.
    destruct (soccer_inspect_report max_str_digits current_day w Hrow)
      as (w' & E & _).
    by rewrite E. }
  split; [done|]. rewrite Ho. cbn [stdout].
  split; [apply today_counts_soccer_report|].
  intros Hactive Hfile.
  rewrite (excel_main_at_primary max_str_digits current_day script_dir fs
             wb w Hfile Hactive).
  cbn [stdout].
  by rewrite today_counts_excel_report, today_counts_soccer_report.
Qed.

Lemma examine_soccer_output_witness :
  load_workbook two_matches_files ExamineSoccer.workbook_path
  = Ok (Workbook [two_matches] [] (Sheet two_matches))
  /\ wb_getitem (Workbook [two_matches] [] (Sheet two_matches)) "soccer"
     = Ok (Sheet two_matches)
  /\ 2 <= max_row two_matches
  /\ ExamineSoccer.script 4300 5 two_matches_files
     = Outcome (soccer_report 4300 5 two_matches) []
         [ExamineSoccer.workbook_path] 0.
Proof.
  assert (H1 : load_workbook two_matches_files ExamineSoccer.workbook_path
               = Ok (Workbook [two_matches] [] (Sheet two_matches)))
    by reflexivity.
  assert (H2 : wb_getitem (Workbook [two_matches] [] (Sheet two_matches))
                 "soccer" = Ok (Sheet two_matches)) by reflexivity.
  assert (H3 : 2 <= max_row two_matches) by (vm_compute; discriminate).
  split; [exact H1|]. split; [exact H2|]. split; [exact H3|].
  exact (proj1 (examine_soccer_output 4300 5 [] two_matches_files
                  (Workbook [two_matches] [] (Sheet two_matches)) two_matches
                  H1 H2 H3)).
Defined.

(** ** The extremes of the data-quality report *)

Lemma tally_all p vs :
  (forall v, v ∈ vs -> p v = true) -> tally p vs = Z.of_nat (length vs).
Proof.
  induction vs as [|v vs IH]; intros Hall; simpl; [done|].
  rewrite (Hall v) by left. rewrite IH; [lia|].
  intros v' Hv'. apply Hall. by right.
Qed.

Lemma nulls_beyond_width w col :
  max_column w < col -> nulls w col = max_row w - 1.
Proof.
  intros Hcol. unfold nulls, data_column. rewrite tally_all.
  - rewrite length_map, length_range. pose proof (max_row_ge_1 w). lia.
  - intros v Hv. apply list_elem_of_fmap in Hv as (row & -> & _).
    by rewrite value_at_beyond_width.
Qed.

Lemma percent_text_none m :
  1 <= m <= 2 ^ 40 -> percent_text 0 m = "0.0".
Proof.
  intros Hm.
  destruct (percent_text_nearest 0 m) as (t & -> & Ht & Hnear); [lia|done|].
  assert (t = 0) as -> by nia. reflexivity.
Qed.

Lemma percent_text_all m :
  1 <= m <= 2 ^ 40 -> percent_text m m = "100.0".
Proof.
  intros Hm.
  destruct (percent_text_nearest m m) as (t & -> & Ht & Hnear); [lia|done|].
  assert (t = 1000) as -> by nia. reflexivity.
Qed.

Lemma quality_cols_positive col :
  col ∈ ExamineSoccer.quality_cols -> 1 <= col <= 34.
Proof.
  unfold ExamineSoccer.quality_cols. intros Hin.
  repeat (apply elem_of_cons in Hin as [->|Hin]; [lia|]).
  by apply elem_of_nil in Hin.
Qed.

Lemma null_lines_soccer_report max_str_digits current_day w :
  null_lines (soccer_report max_str_digits current_day w)
  = map (fun col =>
           NullValues
             (if col <=? max_column w then value_at w 1 col
              else VStr ("Col" +:+ str (VInt col)))
             (nulls w col)
             (percent_text (nulls w col) (max_row w - 1)))
      ExamineSoccer.quality_cols.
Proof.
  unfold null_lines, soccer_report. rewrite !List.filter_app.
  rewrite (filter_none _ (map _ (range 1 _)))
    by (intros l Hl; apply list_elem_of_fmap in Hl as (? & -> & _); done).
  rewrite (filter_none _ (map _ (sorted_items _)))
    by (intros l Hl; apply list_elem_of_fmap in Hl as (? & -> & _); done).
  rewrite (filter_none _ (flat_map _ _)).
  - rewrite (filter_all _ (map _ ExamineSoccer.quality_cols))
      by (intros l Hl; apply list_elem_of_fmap in Hl as (? & -> & _); done).
    cbn [List.filter is_null_line app]. rewrite app_nil_r.
    apply map_ext_in. intros col Hcol. apply list_elem_of_In in Hcol.
    unfold null_line.
    rewrite soccer_header_name; [done|by apply quality_cols_positive].
  - intros l Hl. apply elem_of_flat_map in Hl as (row & _ & Hl).
    by apply elem_of_soccer_sample_row in Hl as [->|(c & _ & _ & ->)].
Qed.

(** X13.  The data-quality lines of examine_soccer.py in a whole run on
    a sheet with data rows: the report holds one line for each of the
    six columns 6, 7, 8, 18, 22 and 34, in this order and no other,
    under the header of the column, with the number of data rows whose
    cell in the column is [None].  A column in which no data row is
    empty is reported with 0 null values and 0.0 percent; a column that
    lies beyond the width of the sheet as loaded is reported under the
    name Col<n> with every data row null and 100.0 percent. *)
Theorem quality_report_extremes max_str_digits current_day w :
  2 <= max_row w -> max_row w <= 2 ^ 40 ->
  exists w' printed,
    ExamineSoccer.inspect max_str_digits current_day w = (Ok tt, w', printed)
    /\ null_lines printed
       = map (fun col =>
                NullValues
                  (if col <=? max_column w then value_at w 1 col
                   else VStr ("Col" +:+ str (VInt col)))
                  (Z.of_nat (length (empty_rows w col)))
                  (percent_text (Z.of_nat (length (empty_rows w col)))
                     (max_row w - 1)))
           ExamineSoccer.quality_cols
    /\ (forall col,
          empty_rows w col = [] ->
          percent_text (Z.of_nat (length (empty_rows w col))) (max_row w - 1)
          = "0.0")
    /\ (forall col,
          max_column w < col ->
          Z.of_nat (length (empty_rows w col)) = max_row w - 1
          /\ percent_text (Z.of_nat (length (empty_rows w col)))
               (max_row w - 1)
             = "100.0").
Proof.
  intros Hrow Hmax.
  destruct (soccer_inspect_report max_str_digits current_day w Hrow)
    as (w' & E & _).
  exists w', (soccer_report max_str_digits current_day w).
  split; [done|]. split; [|split].
  - rewrite null_lines_soccer_report. apply map_ext. intros col.
    by rewrite nulls_empty_rows.
  - intros col ->. apply percent_text_none. lia.
  - intros col Hnarrow. rewrite <- nulls_empty_rows.
    rewrite (nulls_beyond_width w col Hnarrow).
    split; [done|]. apply percent_text_all. lia.
Qed.

Lemma quality_report_extremes_witness :
  2 <= max_row two_matches /\ max_row two_matches <= 2 ^ 40
  /\ exists w' printed,
       ExamineSoccer.inspect 4300 5 two_matches = (Ok tt, w', printed)
       /\ null_lines printed
          = [ NullValues (VStr "1x2_h") 1 "50.0";
              NullValues (VStr "Col7") 2 "100.0";
              NullValues (VStr "Col8") 2 "100.0";
              NullValues (VStr "Col18") 2 "100.0";
              NullValues (VStr "Col22") 2 "100.0";
              NullValues (VStr "Col34") 2 "100.0" ].
Proof.
  assert (H1 : 2 <= max_row two_matches) by (vm_compute; discriminate).
  assert (H2 : max_row two_matches <= 2 ^ 40) by (vm_compute; discriminate).
  split; [exact H1|]. split; [exact H2|].
  destruct (quality_report_extremes 4300 5 two_matches H1 H2)
    as (w' & printed & E & Hlines & _).
  exists w', printed. split; [exact E|].
  rewrite Hlines. vm_compute. reflexivity.
Defined.

(** ** Date texts that begin with digits *)

Lemma digit_char c d :
  digit_value c = Some d ->
  0 <= d <= 9
  /\ is_space c = false
  /\ Ascii.eqb c "_" = false /\ Ascii.eqb c "+" = false
  /\ Ascii.eqb c "-" = false /\ Ascii.eqb c "." = false
  /\ Ascii.eqb c " " = false.
Proof.
  destruct c as [[] [] [] [] [] [] [] []]; vm_compute; intros E;
    try discriminate E; injection E as <-; repeat split; discriminate.
Qed.

Lemma scan_all_digits s acc digits :
  all_digits s = true ->
  scan_digits s false acc digits
  = Some (digits_number s acc, digits + Z.of_nat (String.length s),
          EmptyString).
Proof.
  revert acc digits. induction s as [|c s IH]; intros acc digits Hs.
  - simpl. do 3 f_equal. lia.
  - simpl in Hs. destruct (digit_value c) as [d|] eqn:Hd; [|discriminate].
    destruct (digit_char c d Hd) as (_ & _ & Hus & _).
    cbn [scan_digits digits_number]. rewrite Hus, Hd. simpl default.
    rewrite IH by done. do 3 f_equal. cbn [String.length]. lia.
Qed.

Lemma int_all_digits max_str_digits s :
  s <> EmptyString -> all_digits s = true ->
  Z.of_nat (String.length s) <= 640 ->
  int max_str_digits s = Ok (digits_number s 0).
Proof.
  intros Hne Hs Hlen. destruct s as [|c s]; [done|].
  pose proof Hs as Hs'. simpl in Hs'.
  destruct (digit_value c) as [d|] eqn:Hd; [|discriminate].
  destruct (digit_char c d Hd) as (_ & Hsp & Hus & Hplus & Hminus & _).
  unfold int. cbn [skip_space]. rewrite Hsp.
  cbn [read_sign]. rewrite Hplus, Hminus. cbn [starts_with]. rewrite Hus.
  rewrite scan_all_digits by done.
  unfold too_many_digits.
  replace (640 <? 0 + Z.of_nat (String.length (String c s))) with false
    by (symmetry; apply Z.ltb_ge; lia).
  cbn [andb].
  replace (0 + Z.of_nat (String.length (String c s)) =? 0) with false
    by (symmetry; apply Z.eqb_neq; cbn [String.length]; lia).
  cbn [skip_space]. f_equal. lia.
Qed.

Lemma leading_token_digits token sep rest :
  all_digits token = true ->
  sep = "."%char \/ sep = " "%char ->
  leading_token (token +:+ String sep rest) = token.
Proof.
  intros Hs Hsep. unfold leading_token. apply take_until_app.
  - induction token as [|c token IH]; intros x Hx; [done|].
    simpl in Hs. destruct (digit_value c) as [d|] eqn:Hd; [|discriminate].
    destruct (digit_char c d Hd) as (_ & _ & _ & _ & _ & Hdot & Hblank).
    destruct Hx as [<-|Hx]; [by rewrite Hdot, Hblank|by apply IH].
  - by destruct Hsep as [-> | ->].
Qed.

Lemma leading_token_all_digits token :
  all_digits token = true -> leading_token token = token.
Proof.
  unfold leading_token. induction token as [|c token IH]; intros Hs; [done|].
  simpl in Hs. destruct (digit_value c) as [d|] eqn:Hd; [|discriminate].
  destruct (digit_char c d Hd) as (_ & _ & _ & _ & _ & Hdot & Hblank).
  simpl. rewrite Hdot, Hblank. simpl. by rewrite IH.
Qed.

(** X14.  A date text that begins with at most 640 decimal digits
    followed by a full stop or a blank has as its day the number that
    these digits write, leading zeros included, whatever comes after:
    the row is counted exactly when that number is the current day, so
    05.03 counts on the 5th as 5.03 does. *)
Theorem digits_before_separator_are_the_day
    max_str_digits current_day today_count row w token sep rest :
  1 <= row ->
  token <> EmptyString -> all_digits token = true ->
  Z.of_nat (String.length token) <= 640 ->
  sep = "."%char \/ sep = " "%char ->
  value_at w row 5 = VStr (token +:+ String sep rest) ->
  day_of max_str_digits (token +:+ String sep rest)
  = Ok (digits_number token 0)
  /\ (count_row max_str_digits current_day today_count row w).1.1
     = Ok (today_count
           + (if digits_number token 0 =? current_day then 1 else 0)).
Proof.
  intros Hrow Hne Hs Hlen Hsep Hv.
  assert (day_of max_str_digits (token +:+ String sep rest)
          = Ok (digits_number token 0)) as Hday.
  { rewrite day_of_leading_token, leading_token_digits by done.
    by apply int_all_digits. }
  split; [done|].
  rewrite count_row_spec by done. cbn [fst]. rewrite Hv.
  unfold counted. cbn [str truthy].
  rewrite <- day_of_leading_token, Hday.
  destruct token; [done|]. reflexivity.
Qed.

Lemma digits_before_separator_are_the_day_witness :
  1 <= 2 /\ "05" <> EmptyString /\ all_digits "05" = true
  /\ Z.of_nat (String.length "05") <= 640
  /\ value_at (one_date 2 (VStr "05.03 18:30")) 2 5 = VStr "05.03 18:30"
  /\ day_of 4300 "05.03 18:30" = Ok 5
  /\ (count_row 4300 5 0 2 (one_date 2 (VStr "05.03 18:30"))).1.1 = Ok 1.
Proof.
  assert (H1 : 1 <= 2) by lia.
  assert (H2 : "05" <> EmptyString) by discriminate.
  assert (H3 : all_digits "05" = true) by reflexivity.
  assert (H4 : Z.of_nat (String.length "05") <= 640) by (simpl; lia).
  assert (H5 : value_at (one_date 2 (VStr "05.03 18:30")) 2 5
               = VStr ("05" +:+ String "." "03 18:30")) by reflexivity.
  split; [exact H1|]. split; [exact H2|]. split; [exact H3|].
  split; [exact H4|]. split; [exact H5|].
  exact (digits_before_separator_are_the_day 4300 5 0 2
           (one_date 2 (VStr "05.03 18:30")) "05" "." "03 18:30"
           H1 H2 H3 H4 (or_introl eq_refl) H5).
Defined.

(** X15.  A date text that begins with a blank or with a full stop is
    never counted, whatever follows and whatever the day: the piece
    before the first separator is empty and [int] refuses it.  So
    " 14.03" does not count on the 14th. *)
Theorem leading_separator_is_never_counted
    max_str_digits current_day today_count row w sep rest :
  1 <= row ->
  sep = "."%char \/ sep = " "%char ->
  value_at w row 5 = VStr (String sep rest) ->
  day_of max_str_digits (String sep rest) = Raise ValueError
  /\ (count_row max_str_digits current_day today_count row w).1.1
     = Ok today_count.
Proof.
  intros Hrow Hsep Hv.
  assert (leading_token (String sep rest) = EmptyString) as Htok.
  { unfold leading_token. by destruct Hsep as [-> | ->]. }
  split.
  - by rewrite day_of_leading_token, Htok.
  - rewrite count_row_spec by done. cbn [fst]. rewrite Hv.
    unfold counted. cbn [str]. rewrite Htok, int_empty.
    rewrite andb_false_r. f_equal. lia.
Qed.

Lemma leading_separator_is_never_counted_witness :
  1 <= 2
  /\ value_at (one_date 2 (VStr " 14.03")) 2 5 = VStr " 14.03"
  /\ (count_row 4300 14 0 2 (one_date 2 (VStr " 14.03"))).1.1 = Ok 0.
Proof.
  assert (H1 : 1 <= 2) by lia.
  assert (H2 : value_at (one_date 2 (VStr " 14.03")) 2 5
               = VStr (String " " "14.03")) by reflexivity.
  split; [exact H1|]. split; [exact H2|].
  exact (proj2 (leading_separator_is_never_counted 4300 14 0 2
                  (one_date 2 (VStr " 14.03")) " " "14.03"
                  H1 (or_intror eq_refl) H2)).
Defined.

(** ** Date cells that hold an integer *)

Lemma uint_all_digits u : all_digits (NilEmpty.string_of_uint u) = true.
Proof. induction u; simpl; done. Qed.

Lemma uint_number_acc u acc :
  digits_number (NilEmpty.string_of_uint u) (Z.pos acc)
  = Z.pos (Pos.of_uint_acc u acc).
Proof.
  revert acc. induction u as [|u IH|u IH|u IH|u IH|u IH|u IH|u IH|u IH|u IH|u IH];
    intros acc; [done|..];
    cbn [NilEmpty.string_of_uint digits_number Pos.of_uint_acc];
    rewrite <- IH; f_equal;
    match goal with
    | |- context [digit_value ?c] =>
        let v := eval vm_compute in (digit_value c) in
        change (digit_value c) with v
    end;
    simpl default; lia.
Qed.

Lemma uint_number u :
  digits_number (NilEmpty.string_of_uint u) 0 = Z.of_N (Pos.of_uint u).
Proof.
  induction u as [|u IH|u IH|u IH|u IH|u IH|u IH|u IH|u IH|u IH|u IH];
    [done|exact IH|..];
    cbn [NilEmpty.string_of_uint digits_number Pos.of_uint];
    apply uint_number_acc.
Qed.

Lemma digits_number_lower s acc :
  0 <= acc -> all_digits s = true ->
  acc * 10 ^ Z.of_nat (String.length s) <= digits_number s acc.
Proof.
  revert acc. induction s as [|c s IH]; intros acc Hacc Hs.
  - simpl. lia.
  - simpl in Hs. destruct (digit_value c) as [d|] eqn:Hd; [|discriminate].
    destruct (digit_char c d Hd) as (Hdig & _).
    cbn [digits_number String.length]. rewrite Hd. simpl default.
    specialize (IH (10 * acc + d) ltac:(lia) Hs).
    rewrite Nat2Z.inj_succ, Z.pow_succ_r by lia.
    assert (0 <= 10 ^ Z.of_nat (String.length s)) by (apply Z.pow_nonneg; lia).
    nia.
Qed.

Lemma to_uint_head p :
  match Pos.to_uint p with
  | Decimal.Nil | Decimal.D0 _ => False
  | _ => True
  end.
Proof.
  pose proof (DecimalPos.Unsigned.to_of (Pos.to_uint p)) as Hn.
  rewrite DecimalPos.Unsigned.of_to in Hn. simpl in Hn.
  pose proof (DecimalPos.Unsigned.to_uint_nonzero p) as Hz.
  destruct (Pos.to_uint p) as [|u| | | | | | | | |]; try done.
  unfold Decimal.unorm in Hn. rewrite DecimalFacts.nzhead_D0 in Hn.
  pose proof (DecimalFacts.nzhead_nonzero u) as Hnz.
  destruct (Decimal.nzhead u) as [|u0| | | | | | | | |]; try discriminate Hn.
  - by injection Hn as ->.
  - by apply (Hnz u0).
Qed.

Lemma str_positive p :
  str (VInt (Z.pos p)) = NilEmpty.string_of_uint (Pos.to_uint p).
Proof.
  cbn [str Z.to_int NilZero.string_of_int]. unfold NilZero.string_of_uint.
  pose proof (to_uint_head p). by destruct (Pos.to_uint p).
Qed.

Lemma str_positive_length p :
  Z.pos p < 10 ^ 640 ->
  Z.of_nat (String.length (NilEmpty.string_of_uint (Pos.to_uint p))) <= 640.
Proof.
  intros Hp.
  pose proof (uint_number (Pos.to_uint p)) as Hn.
  rewrite DecimalPos.Unsigned.of_to in Hn. simpl Z.of_N in Hn.
  pose proof (to_uint_head p) as Hhead.
  pose proof (uint_all_digits (Pos.to_uint p)) as Hall.
  destruct (Pos.to_uint p) as [|u|u|u|u|u|u|u|u|u|u]; try done;
    cbn [NilEmpty.string_of_uint digits_number String.length] in *;
    simpl default in Hn;
    match type of Hn with
    | digits_number ?s ?k = _ =>
        pose proof (digits_number_lower s k ltac:(lia) Hall) as Hlow
    end;
    rewrite Hn in Hlow;
    (assert (10 ^ Z.of_nat (String.length (NilEmpty.string_of_uint u))
             < 10 ^ 640) as Hpow
       by (assert (0 < 10 ^ Z.of_nat (String.length (NilEmpty.string_of_uint u)))
             by (apply Z.pow_pos_nonneg; lia); lia));
    apply Z.pow_lt_mono_r_iff in Hpow; lia.
Qed.

(** X16.  A date cell that holds a positive integer below 10^640 (a
    day number typed as a number, say) is counted exactly when the
    integer is the current day: its text are its decimal digits, which
    [int] reads back.  A cell that holds 0 is taken as empty and never
    counted. *)
Theorem integer_date_cell_counts_as_day
    max_str_digits current_day today_count row w n :
  1 <= row -> 0 <= n < 10 ^ 640 ->
  value_at w row 5 = VInt n ->
  (0 < n -> day_of max_str_digits (str (VInt n)) = Ok n)
  /\ (count_row max_str_digits current_day today_count row w).1.1
     = Ok (today_count
           + (if (n =? current_day) && negb (n =? 0) then 1 else 0)).
Proof.
  intros Hrow Hn Hv.
  assert (0 < n -> int max_str_digits (leading_token (str (VInt n))) = Ok n)
    as Hint.
  { intros Hpos. destruct n as [|p|p]; try lia.
    rewrite str_positive.
    rewrite leading_token_all_digits by apply uint_all_digits.
    rewrite int_all_digits.
    - rewrite uint_number, DecimalPos.Unsigned.of_to. done.
    - pose proof (to_uint_head p). by destruct (Pos.to_uint p).
    - apply uint_all_digits.
    - apply str_positive_length. lia. }
  split.
  - intros Hpos. rewrite day_of_leading_token. by apply Hint.
  - rewrite count_row_spec by done. cbn [fst]. rewrite Hv.
    unfold counted. cbn [truthy].
    destruct (Z.eqb_spec n 0) as [->|Hnz].
    + cbn [negb andb]. by rewrite andb_false_r.
    + rewrite Hint by lia. cbn [negb andb]. by rewrite andb_true_r.
Qed.

Lemma integer_date_cell_counts_as_day_witness :
  1 <= 2 /\ 0 <= 14 < 10 ^ 640
  /\ value_at (one_date 2 (VInt 14)) 2 5 = VInt 14
  /\ (count_row 4300 14 0 2 (one_date 2 (VInt 14))).1.1 = Ok 1.
Proof.
  assert (H1 : 1 <= 2) by lia.
  assert (H2 : 0 <= 14 < 10 ^ 640) by (split; [lia|reflexivity]).
  assert (H3 : value_at (one_date 2 (VInt 14)) 2 5 = VInt 14) by reflexivity.
  split; [exact H1|]. split; [exact H2|]. split; [exact H3|].
  exact (proj2 (integer_date_cell_counts_as_day 4300 14 0 2
                  (one_date 2 (VInt 14)) 14 H1 H2 H3)).
Defined.
